(** * dtproject: descriptor resolution, path mapping and image naming

    A shallow embedding of [src/dtproject/dtproject.py] (classes
    [DTProject], [DTProjectV4], [DTProjectV1to3]) together with the
    parts of the Python standard library the code calls
    ([str] methods, [int], [re.sub], [posixpath], [pathlib]).

    Conventions.
    - A Python [str] is a [string]; a character is a Unicode code point
      below 256 (the Latin-1 block), stored in an [ascii].  All literals
      in this file are plain ASCII.
    - A [dict] with string keys is a [gmap string _]; [d[k]] on a missing
      key raises [KeyError].
    - A call that may raise returns a [result]; calls that change the
      world (recipe cloning and updating) thread the file system; the
      version-control client answers in an [outcome], and a list object
      that can be shared lives in a store.
    - What the code imports from modules of the package that are not
      under [src/] is a parameter of the section that uses it. *)

From Stdlib Require Import ZArith Ascii String DecimalString.
From stdpp Require Import base option list strings gmap fin_maps.

(** ** Python text primitives *)

Definition chr (n : nat) : ascii := ascii_of_nat n.
Definition ord (c : ascii) : nat := nat_of_ascii c.

Definition between (lo hi : nat) (c : ascii) : bool :=
  (lo <=? ord c)%nat && (ord c <=? hi)%nat.

(** [str.isspace] on one character: U+0009..U+000D, U+001C..U+001F,
    U+0020, U+0085, U+00A0. *)
Definition isspace (c : ascii) : bool :=
  between 9 13 c || between 28 32 c || (ord c =? 133)%nat || (ord c =? 160)%nat.

(** Characters changed by [str.lower]: A-Z and the Latin-1 capitals
    U+00C0..U+00DE except the multiplication sign U+00D7. *)
Definition isupper (c : ascii) : bool :=
  between 65 90 c || (between 192 222 c && negb (ord c =? 215)%nat).

Definition lower_char (c : ascii) : ascii :=
  if isupper c then chr (ord c + 32) else c.

(** Characters whose upper-case form is one other code point below 256:
    a-z and U+00E0..U+00FE except the division sign U+00F7. *)
Definition islower (c : ascii) : bool :=
  between 97 122 c || (between 224 254 c && negb (ord c =? 247)%nat).

Definition upper_char (c : ascii) : ascii :=
  if islower c then chr (ord c - 32) else c.

(** The two characters below 256 whose upper-case form is a code point
    above 255: U+00B5 (to U+039C) and U+00FF (to U+0178).  A string
    that holds neither is in the range of [upper]. *)
Definition upper_leaves_range (c : ascii) : bool :=
  (ord c =? 181)%nat || (ord c =? 255)%nat.

Fixpoint map_str (f : ascii -> ascii) (s : string) : string :=
  match s with
  | EmptyString => EmptyString
  | String c s' => String (f c) (map_str f s')
  end.

Definition lower (s : string) : string := map_str lower_char s.

(** [s.upper()]: character by character, U+00DF (sharp s) becoming the
    two letters [SS].  Faithful on the strings that hold no character of
    [upper_leaves_range]; the statements about [upper] assume its
    argument in that range ([upper_in_range], below). *)
Fixpoint upper (s : string) : string :=
  match s with
  | EmptyString => EmptyString
  | String c s' =>
      if (ord c =? 223)%nat then String "S" (String "S" (upper s'))
      else String (upper_char c) (upper s')
  end.

Fixpoint upper_in_range (s : string) : bool :=
  match s with
  | EmptyString => true
  | String c s' => negb (upper_leaves_range c) && upper_in_range s'
  end.

(** Truth value of a string: [if s], [s or t]. *)
Definition truthy (s : string) : bool :=
  match s with EmptyString => false | _ => true end.

(** [s or t] *)
Definition str_or (s t : string) : string := if truthy s then s else t.

Fixpoint startswith (p s : string) : bool :=
  match p, s with
  | EmptyString, _ => true
  | String a p', String b s' => if Ascii.eqb a b then startswith p' s' else false
  | String _ _, EmptyString => false
  end.

(** [s.endswith(p)]: [p] is [s] or the end of the tail of [s]. *)
Fixpoint endswith (p s : string) : bool :=
  (p =? s)%string
  || match s with
     | EmptyString => false
     | String _ s' => endswith p s'
     end.

(** [s.lstrip()] *)
Fixpoint lstrip (s : string) : string :=
  match s with
  | String c s' => if isspace c then lstrip s' else s
  | EmptyString => EmptyString
  end.

(** [s.rstrip(...)]: the longest suffix of characters in [f] is dropped. *)
Fixpoint rstrip_by (f : ascii -> bool) (s : string) : string :=
  match s with
  | EmptyString => EmptyString
  | String c s' =>
      match rstrip_by f s' with
      | EmptyString => if f c then EmptyString else String c EmptyString
      | r => String c r
      end
  end.

(** The longest prefix of characters in [f] is dropped. *)
Fixpoint lstrip_by (f : ascii -> bool) (s : string) : string :=
  match s with
  | String c s' => if f c then lstrip_by f s' else s
  | EmptyString => EmptyString
  end.

(** [s.rstrip()], [s.strip()] *)
Definition rstrip (s : string) : string := rstrip_by isspace s.
Definition strip (s : string) : string := rstrip (lstrip s).

(** [s.rstrip(c)] for a one-character argument *)
Definition rstrip_char (c : ascii) (s : string) : string := rstrip_by (Ascii.eqb c) s.

(** [s.split(sep)] for a one-character separator: always at least one
    piece, empty pieces kept. *)
Fixpoint split (sep : ascii) (s : string) : list string :=
  match s with
  | EmptyString => [EmptyString]
  | String c s' =>
      if Ascii.eqb c sep then EmptyString :: split sep s'
      else match split sep s' with
           | piece :: rest => String c piece :: rest
           | [] => [String c EmptyString]
           end
  end.

(** [sep.join(pieces)] *)
Fixpoint sep_join (sep : string) (pieces : list string) : string :=
  match pieces with
  | [] => EmptyString
  | [p] => p
  | p :: rest => p +:+ sep +:+ sep_join sep rest
  end.

(** [s.rfind(c)]: index of the last occurrence, if any. *)
Fixpoint rfind (c : ascii) (s : string) : option nat :=
  match s with
  | EmptyString => None
  | String a s' =>
      match rfind c s' with
      | Some i => Some (S i)
      | None => if Ascii.eqb a c then Some 0%nat else None
      end
  end.

(** [s[:n]] *)
Fixpoint take_str (n : nat) (s : string) : string :=
  match n, s with
  | S n', String c s' => String c (take_str n' s')
  | _, _ => EmptyString
  end.

(** [repr(s)], which [f"{s!r}"] prints: the string between single
    quotes, or between double quotes when it holds a single quote and no
    double one; the quote in use and the backslash are escaped, tab,
    line feed and carriage return are written [\t], [\n], [\r], and
    every other character that is not printable ([str.isprintable]:
    below U+0020, U+007F..U+00A0, U+00AD) as [\x] and two hexadecimal
    digits. *)
Definition isprintable (c : ascii) : bool :=
  negb (between 0 31 c || between 127 160 c || (ord c =? 173)%nat).

Definition hex_digit (n : nat) : ascii :=
  if (n <? 10)%nat then chr (48 + n) else chr (87 + n).

Fixpoint has_char (c : ascii) (s : string) : bool :=
  match s with
  | EmptyString => false
  | String a s' => Ascii.eqb a c || has_char c s'
  end.

Definition repr_char (quote c : ascii) : string :=
  if Ascii.eqb c quote || (ord c =? 92)%nat then String (chr 92) (String c EmptyString)
  else if (ord c =? 9)%nat then String (chr 92) "t"
  else if (ord c =? 10)%nat then String (chr 92) "n"
  else if (ord c =? 13)%nat then String (chr 92) "r"
  else if isprintable c then String c EmptyString
  else String (chr 92)
         (String "x" (String (hex_digit (ord c / 16))
                        (String (hex_digit (ord c mod 16)) EmptyString))).

Fixpoint repr_chars (quote : ascii) (s : string) : string :=
  match s with
  | EmptyString => String quote EmptyString
  | String c s' => repr_char quote c +:+ repr_chars quote s'
  end.

Definition repr (s : string) : string :=
  let quote := if has_char (chr 39) s && negb (has_char (chr 34) s) then chr 34
               else chr 39 in
  String quote (repr_chars quote s).

(** [int(s)] on a [str]: surrounding white space is dropped, one sign is
    allowed, then decimal digits, single underscores allowed between
    digits; more digits than the interpreter's limit
    ([sys.get_int_max_str_digits()], 4300 unless configured) are
    refused.  [None] stands for [ValueError].

    The white space of [int] is narrower than that of [str.strip]: the
    ASCII characters U+0009..U+000D and U+0020, and above them U+0085
    and U+00A0; the separators U+001C..U+001F are not dropped. *)
Definition isdigit (c : ascii) : bool := between 48 57 c.

Definition int_space (c : ascii) : bool :=
  between 9 13 c || (ord c =? 32)%nat || (ord c =? 133)%nat || (ord c =? 160)%nat.

Definition int_max_str_digits : N := 4300.

Fixpoint count_digits (s : string) : N :=
  match s with
  | EmptyString => 0
  | String c s' => ((if isdigit c then 1 else 0) + count_digits s')%N
  end.

Fixpoint int_digits (acc : Z) (prev_digit : bool) (s : string) : option Z :=
  match s with
  | EmptyString => if prev_digit then Some acc else None
  | String c s' =>
      if isdigit c then int_digits (10 * acc + Z.of_nat (ord c - 48)) true s'
      else if Ascii.eqb c "_" then
        (if prev_digit then int_digits acc false s' else None)
      else None
  end.

Definition py_int (s : string) : option Z :=
  let s := rstrip_by int_space (lstrip_by int_space s) in
  let '(negative, digits) :=
    match s with
    | String "+"%char s' => (false, s')
    | String "-"%char s' => (true, s')
    | _ => (false, s)
    end in
  v ← int_digits 0 false digits;
  if (int_max_str_digits <? count_digits digits)%N then None
  else Some (if negative then (- v)%Z else v).

(** The message of the [ValueError] of [int(s)].  [int] scans the run
    of digits and single underscores after the sign; a run without
    misplaced underscore and with more digits than the limit is
    reported as such, before what follows it is looked at; every other
    failure is an invalid literal, printed with [%.200R]. *)
Fixpoint int_run (digits : N) (prev_digit : bool) (s : string) : option N :=
  match s with
  | String c s' =>
      if isdigit c then int_run (digits + 1) true s'
      else if Ascii.eqb c "_" then
        (if prev_digit then int_run digits false s' else None)
      else if prev_digit || (digits =? 0)%N then Some digits else None
  | EmptyString => if prev_digit || (digits =? 0)%N then Some digits else None
  end.

Definition int_error (s : string) : string :=
  let invalid := "invalid literal for int() with base 10: " +:+ take_str 200 (repr s) in
  let digits :=
    match lstrip_by int_space s with
    | String "+"%char s' => s'
    | String "-"%char s' => s'
    | s' => s'
    end in
  match int_run 0 false digits with
  | Some n =>
      if (int_max_str_digits <? n)%N then
        "Exceeds the limit (4300 digits) for integer string conversion: value has "
        +:+ NilZero.string_of_uint (N.to_uint n)
        +:+ " digits; use sys.set_int_max_str_digits() to increase the limit"
      else invalid
  | None => invalid
  end.

(** The class [\w] of [re] on [str] patterns: alphanumeric characters
    ([str.isalnum]) and the underscore.  Below 256 these are the ASCII
    letters and digits, U+00AA, U+00B2, U+00B3, U+00B5, U+00B9, U+00BA,
    U+00BC..U+00BE, and the Latin-1 letters U+00C0..U+00FF except
    U+00D7 and U+00F7. *)
Definition re_word (c : ascii) : bool :=
  between 48 57 c || between 65 90 c || between 97 122 c || Ascii.eqb c "_"
  || (ord c =? 170)%nat || between 178 179 c || (ord c =? 181)%nat
  || between 185 186 c || between 188 190 c
  || (between 192 255 c && negb (ord c =? 215)%nat && negb (ord c =? 247)%nat).

(** [re.sub(r"[^\w\-.]", "-", s)] *)
Definition sub_unsafe_char (c : ascii) : ascii :=
  if re_word c || Ascii.eqb c "-" || Ascii.eqb c "." then c else "-"%char.

Definition re_sub_unsafe (s : string) : string := map_str sub_unsafe_char s.

(** [s[n:]] *)
Fixpoint drop_str (n : nat) (s : string) : string :=
  match n, s with
  | S n', String _ s' => drop_str n' s'
  | _, _ => s
  end.

(** ** [posixpath] and [pathlib] *)

(** [os.path.join(a, b)] *)
Definition join (a b : string) : string :=
  if startswith "/" b then b
  else if negb (truthy a) || endswith "/" a then a +:+ b
  else a +:+ "/" +:+ b.

(** [os.path.join(a, *p)] *)
Definition join_many (a : string) (p : list string) : string := foldl join a p.

Definition isabs (s : string) : bool := startswith "/" s.

(** One round of the component loop of [os.path.normpath]. *)
Definition normpath_step (initial_slashes : nat) (new_comps : list string)
    (comp : string) : list string :=
  if (comp =? "")%string || (comp =? ".")%string then new_comps
  else if negb (comp =? "..")%string
          || ((initial_slashes =? 0)%nat && bool_decide (new_comps = []))
          || (match last new_comps with Some c => (c =? "..")%string | None => false end)
  then new_comps ++ [comp]
  else removelast new_comps.

Definition normpath (path : string) : string :=
  if negb (truthy path) then "." else
  let initial_slashes :=
    if startswith "/" path then
      (if startswith "//" path && negb (startswith "///" path) then 2 else 1)%nat
    else 0%nat in
  let comps := foldl (normpath_step initial_slashes) [] (split "/" path) in
  let path := sep_join "/" comps in
  let path := sep_join "" (replicate initial_slashes "/") +:+ path in
  str_or path ".".

(** [os.path.abspath(path)] in a process whose working directory is [cwd] *)
Definition abspath (cwd path : string) : string :=
  normpath (if isabs path then path else join cwd path).

(** [os.path.commonprefix([l1, l2])] on two lists of components *)
Fixpoint commonprefix (l1 l2 : list string) : list string :=
  match l1, l2 with
  | a :: l1', b :: l2' => if (a =? b)%string then a :: commonprefix l1' l2' else []
  | _, _ => []
  end.

(** [os.path.relpath(path, start)]; [None] is the [ValueError] raised
    for an empty [path]. *)
Definition relpath (cwd path start : string) : option string :=
  if negb (truthy path) then None else
  let start_list := filter (λ x, truthy x = true) (split "/" (abspath cwd start)) in
  let path_list := filter (λ x, truthy x = true) (split "/" (abspath cwd path)) in
  let i := length (commonprefix start_list path_list) in
  let rel_list := replicate (length start_list - i) ".." ++ drop i path_list in
  match rel_list with
  | [] => Some "."
  | a :: p => Some (join_many a p)
  end.

(** [os.path.basename(p)] *)
Definition basename (p : string) : string :=
  match rfind "/" p with
  | Some i => drop_str (S i) p
  | None => p
  end.

(** [PurePosixPath(s).name]: the last component, empty and [.]
    components being dropped when the path is parsed. *)
Definition path_name (s : string) : string :=
  default "" (last (filter (λ x, ((x =? "")%string || (x =? ".")%string) = false) (split "/" s))).

(** [PurePosixPath(s).stem]: the name up to its last dot, when that dot
    is neither the first nor the last character. *)
Definition stem_of_name (name : string) : string :=
  match rfind "." name with
  | Some i =>
      if (0 <? i)%nat && (i <? String.length name - 1)%nat then take_str i name
      else name
  | None => name
  end.

Definition stem (s : string) : string := stem_of_name (path_name s).

(** ** Exceptions and results *)

(** What [_get_repo_info] lets through: a failed command of the
    version-control client, or an index into an empty output. *)
Inductive git_error : Type :=
  | CalledProcessError (returncode : Z)
  | IndexError.

Inductive exn : Type :=
  | OSError (msg : string)
  | ValueError (msg : string)
  | UnicodeDecodeError (msg : string)
  | GitClientError (e : git_error)
  | KeyError (key : string)
  | TypeError
  | NotImplementedError (msg : string)
  | DTProjectNotFound (msg : string)
  | MalformedDTProject (msg : string)
  | UnsupportedDTProjectVersion (msg : string)
  | RecipeProjectNotFound (msg : string).

Inductive result (A : Type) : Type :=
  | Ok (a : A)
  | Raise (e : exn).
Arguments Ok {A} a.
Arguments Raise {A} e.

#[export] Instance result_ret : MRet result := λ A a, Ok a.
#[export] Instance result_bind : MBind result := λ A B f m,
  match m with Ok a => f a | Raise e => Raise e end.

(** [d[k]] *)
Definition getitem {V} (d : gmap string V) (k : string) : result V :=
  match d !! k with Some v => Ok v | None => Raise (KeyError k) end.

(** [for x in xs: body(x)] where the body may raise *)
Fixpoint for_each {A} (xs : list A) (body : A -> result unit) : result unit :=
  match xs with
  | [] => Ok tt
  | x :: xs' => _ ← body x; for_each xs' body
  end.

(** [[f(x) for x in xs]] where [f] may raise *)
Fixpoint map_result {A B} (f : A -> result B) (xs : list A) : result (list B) :=
  match xs with
  | [] => Ok []
  | x :: xs' => y ← f x; ys ← map_result f xs'; Ok (y :: ys)
  end.

(** [[x for x in xs if keep(x)]] where [keep] may raise *)
Fixpoint filter_result {A} (keep : A -> result bool) (xs : list A) : result (list A) :=
  match xs with
  | [] => Ok []
  | x :: xs' =>
      b ← keep x; ys ← filter_result keep xs'; Ok (if b : bool then x :: ys else ys)
  end.

(** ** The world outside the process

    What the code reads through [os], [os.path], [glob] and [open].
    [None] from [listdir] is the [OSError] the call raises.  [None]
    from [readline] or [readlines] is the failure of opening or reading
    the file as text: [UnicodeDecodeError] when the file is
    [undecodable], [OSError] otherwise. *)
Record FS : Type := {
  getcwd : string;
  path_exists : string -> bool;
  isdir : string -> bool;
  isfile : string -> bool;
  listdir : string -> option (list string);
  glob : string -> list string;
  access_X_OK : string -> bool;
  readline : string -> option string;
  readlines : string -> option (list string);
  undecodable : string -> bool;
}.

(** The exception of a failed text read of [f]. *)
Definition read_error (fs : FS) (f : string) : exn :=
  if undecodable fs f then UnicodeDecodeError f else OSError f.

(** ** Data model *)

Record Maintainer : Type := {
  maintainer_name : string;
  maintainer_email : string;
  maintainer_organization : option string;
}.

Definition Maintainer_str (m : Maintainer) : string :=
  match maintainer_organization m with
  | Some org =>
      if truthy org
      then maintainer_name m +:+ " @ " +:+ org +:+ " (" +:+ maintainer_email m +:+ ")"
      else maintainer_name m +:+ " (" +:+ maintainer_email m +:+ ")"
  | None => maintainer_name m +:+ " (" +:+ maintainer_email m +:+ ")"
  end.

Record LayerSelf : Type := {
  self_name : string;
  self_maintainer : Maintainer;
  self_description : string;
  self_icon : string;
  self_version : string;
}.

Record LayerTemplate : Type := {
  template_name : string;
  template_version : string;
  template_provider : option string;
}.

Record LayerDistro : Type := { distro_name : string }.

Record LayerBase : Type := {
  base_repository : string;
  base_registry : option string;
  base_organization : option string;
  base_tag : option string;
}.

(** The four required layers and the custom ones, keyed by file stem. *)
Record Layers : Type := {
  layer_self : LayerSelf;
  layer_template : LayerTemplate;
  layer_distro : LayerDistro;
  layer_base : LayerBase;
  layer_custom : gmap string (gmap string string);
}.

(** The [SimpleNamespace] built from [_get_repo_info].  [REPOSITORY] is
    [None] when the working copy has no [origin] remote. *)
Record Repository : Type := {
  repo_name : option string;
  repo_sha : string;
  repo_detached : bool;
  repo_branch : string;
  repo_head_version : string;
  repo_closest_version : string;
  repo_repository_url : string;
  repo_repository_page : option string;
  repo_index_nmodified : nat;
  repo_index_nadded : nat;
}.

(** The subclass an instance was re-classed to, with that subclass's
    attributes. *)
Inductive Descriptor : Type :=
  | DTProjectV1to3 (_project_info : gmap string string)
                   (_type _type_version _version : string)
  | DTProjectV4 (_layers : Layers).

(** List objects live in a store; [_adapters] is a reference into it. *)
Abbreviation loc := nat (only parsing).
Abbreviation store := (gmap nat (list string)) (only parsing).

Record DTProject : Type := {
  _adapters : loc;
  _repository : option Repository;
  _path : string;
  _custom_recipe_dir : option string;
  _recipe_version : option string;
  _class : Descriptor;
}.

(** Truth value of an [Optional[str]] attribute *)
Definition truthy_opt (o : option string) : bool :=
  match o with Some s => truthy s | None => false end.

(** ** Accessors of [DTProject] and its two subclasses *)

Definition path (p : DTProject) : string := _path p.

(** The fallback of both [name] properties: repository name, then
    directory name. *)
Definition repository_or_directory_name (p : DTProject) : string :=
  match _repository p with
  | Some r =>
      match repo_name r with
      | Some n => if truthy n then n else basename (path p)
      | None => basename (path p)
      end
  | None => basename (path p)
  end.

Definition name (p : DTProject) : string :=
  match _class p with
  | DTProjectV4 ly =>
      lower (str_or (self_name (layer_self ly)) (repository_or_directory_name p))
  | DTProjectV1to3 info _ _ _ =>
      lower (default (repository_or_directory_name p) (info !! "NAME"))
  end.

(** Whether the code takes the name from the descriptor: the legacy file
    has a [NAME] key, the [name] of the [self] layer is not empty. *)
Definition declares_name (p : DTProject) : bool :=
  match _class p with
  | DTProjectV4 ly => truthy (self_name (layer_self ly))
  | DTProjectV1to3 info _ _ _ => bool_decide (is_Some (info !! "NAME"))
  end.

Definition version (p : DTProject) : string :=
  match _class p with
  | DTProjectV4 ly => self_version (layer_self ly)
  | DTProjectV1to3 _ _ _ v => v
  end.

Definition type (p : DTProject) : string :=
  match _class p with
  | DTProjectV4 ly => template_name (layer_template ly)
  | DTProjectV1to3 _ t _ _ => t
  end.

Definition type_version (p : DTProject) : string :=
  match _class p with
  | DTProjectV4 ly => template_version (layer_template ly)
  | DTProjectV1to3 _ _ tv _ => tv
  end.

Definition distro (p : DTProject) : string :=
  match _class p with
  | DTProjectV4 ly => distro_name (layer_distro ly)
  | DTProjectV1to3 _ _ _ _ =>
      match _repository p with
      | Some r => default "" (head (split "-" (repo_branch r)))
      | None => "latest"
      end
  end.

Definition metadata (p : DTProject) : gmap string string :=
  match _class p with
  | DTProjectV4 _ =>
      <["PATH" := path p]> (<["TYPE_VERSION" := type_version p]>
        (<["TYPE" := type p]> (<["VERSION" := version p]> ∅)))
  | DTProjectV1to3 info _ _ _ => info
  end.

Definition not_implemented_field (field : string) (p : DTProject) : exn :=
  NotImplementedError
    ("Field '" +:+ field +:+ "' not implemented in DTProject v" +:+ type_version p).

Definition description (p : DTProject) : result string :=
  match _class p with
  | DTProjectV4 ly => Ok (self_description (layer_self ly))
  | DTProjectV1to3 _ _ _ _ => Raise (not_implemented_field "description" p)
  end.

Definition maintainer (p : DTProject) : result string :=
  match _class p with
  | DTProjectV4 ly => Ok (Maintainer_str (self_maintainer (layer_self ly)))
  | DTProjectV1to3 _ _ _ _ => Raise (not_implemented_field "maintainer" p)
  end.

Definition icon (p : DTProject) : result string :=
  match _class p with
  | DTProjectV4 ly => Ok (self_icon (layer_self ly))
  | DTProjectV1to3 _ _ _ _ => Raise (not_implemented_field "icon" p)
  end.

Definition layers (p : DTProject) : result Layers :=
  match _class p with
  | DTProjectV4 ly => Ok ly
  | DTProjectV1to3 _ _ _ _ => Raise (not_implemented_field "layers" p)
  end.

Definition head_version (p : DTProject) : string :=
  match _repository p with Some r => repo_head_version r | None => "latest" end.

Definition closest_version (p : DTProject) : string :=
  match _repository p with Some r => repo_closest_version r | None => "latest" end.

Definition version_name (p : DTProject) : string :=
  match _repository p with
  | Some r =>
      if negb (repo_branch r =? "HEAD")%string then repo_branch r else head_version p
  | None => "latest"
  end.

Definition safe_version_name (p : DTProject) : string :=
  re_sub_unsafe (version_name p).

Definition url (p : DTProject) : option string :=
  match _repository p with Some r => repo_repository_page r | None => None end.

Definition sha (p : DTProject) : string :=
  match _repository p with Some r => repo_sha r | None => "ND" end.

(** [copy.copy(self._adapters)]: a new list object with the same items. *)
Definition adapters (σ : store) (p : DTProject) : option (loc * store) :=
  items ← σ !! _adapters p;
  let l := fresh (dom σ) in
  Some (l, <[l := items]> σ).

Definition needs_recipe (p : DTProject) : bool :=
  (type p =? "template-exercise")%string.

Definition set_recipe_dir (p : DTProject) (path : string) : DTProject :=
  {| _adapters := _adapters p; _repository := _repository p; _path := _path p;
     _custom_recipe_dir := Some path; _recipe_version := _recipe_version p;
     _class := _class p |}.

Definition set_recipe_version (p : DTProject) (branch : string) : DTProject :=
  {| _adapters := _adapters p; _repository := _repository p; _path := _path p;
     _custom_recipe_dir := _custom_recipe_dir p; _recipe_version := Some branch;
     _class := _class p |}.

Definition is_clean (p : DTProject) : bool :=
  match _repository p with
  | Some r => (repo_index_nmodified r + repo_index_nadded r =? 0)%nat
  | None => true
  end.

Definition is_release (p : DTProject) : bool :=
  if negb (is_clean p) then false
  else match _repository p with
       | Some _ => negb (head_version p =? "ND")%string
       | None => false
       end.

Definition is_dirty (p : DTProject) : bool := negb (is_clean p).

Definition is_detached (p : DTProject) : bool :=
  match _repository p with Some r => repo_detached r | None => false end.

(** ** Recipes

    [.recipe] ([get_recipe_project_dir], [update_recipe], [clone_recipe])
    is another module of the package, not embedded here: the three
    functions are parameters.  Updating and cloning change the file system, which is
    threaded through them. *)
Section Recipe.
Variable get_recipe_project_dir : string -> string -> string -> string.
Variable update_recipe : string -> string -> string -> FS -> result bool * FS.
Variable clone_recipe : string -> string -> string -> FS -> bool * FS.

(** [self._recipe_version or self.metadata["RECIPE_BRANCH"]] *)
Definition recipe_branch (p : DTProject) : result string :=
  if truthy_opt (_recipe_version p) then Ok (default "" (_recipe_version p))
  else getitem (metadata p) "RECIPE_BRANCH".

(** The three arguments handed to the recipe functions, evaluated left
    to right. *)
Definition recipe_arguments (p : DTProject) : result (string * string * string) :=
  repository ← getitem (metadata p) "RECIPE_REPOSITORY";
  branch ← recipe_branch p;
  location ← getitem (metadata p) "RECIPE_LOCATION";
  Ok (repository, branch, location).

Definition recipe_dir (p : DTProject) : result (option string) :=
  if negb (needs_recipe p) then Ok None
  else if truthy_opt (_custom_recipe_dir p) then Ok (_custom_recipe_dir p)
  else
    '(repository, branch, location) ← recipe_arguments p;
    Ok (Some (get_recipe_project_dir repository branch location)).

Definition _has_shebang (fs : FS) (f : string) : result bool :=
  match readline fs f with
  | Some line => Ok (startswith "#!" line)
  | None => Raise (read_error fs f)
  end.

(** The loop [for root in paths] of [launchers]; [launchers] is the
    value of the variable of that name when the round starts. *)
Fixpoint launchers_loop (fs : FS) (paths : list string) (launchers : list string)
    : result (list string) :=
  match paths with
  | [] => Ok launchers
  | root :: paths' =>
      let launchers_dir := join root "launchers" in
      if negb (path_exists fs launchers_dir) then launchers_loop fs paths' launchers
      else
        match listdir fs launchers_dir with
        | None => Raise (OSError launchers_dir)
        | Some entries =>
            let files :=
              map (join launchers_dir)
                  (filter (λ f, isfile fs (join launchers_dir f) = true) entries) in
            selected ← filter_result
              (λ f, if access_X_OK fs f then Ok true else _has_shebang fs f) files;
            launchers_loop fs paths' (map stem selected)
        end
  end.

Definition update_cached_recipe (fs : FS) (p : DTProject) : result bool * FS :=
  if needs_recipe p && negb (truthy_opt (_custom_recipe_dir p)) then
    match recipe_arguments p with
    | Ok (repository, branch, location) => update_recipe repository branch location fs
    | Raise e => (Raise e, fs)
    end
  else (Ok false, fs).

Definition ensure_recipe_updated (fs : FS) (p : DTProject) : result bool * FS :=
  update_cached_recipe fs p.

(** [os.path.exists(self.recipe_dir)] *)
Definition recipe_dir_exists (fs : FS) (p : DTProject) : result bool :=
  d ← recipe_dir p;
  match d with
  | Some d => Ok (path_exists fs d)
  | None => Raise TypeError
  end.

Definition recipe_not_found (p : DTProject) : result unit :=
  d ← recipe_dir p;
  Raise (RecipeProjectNotFound ("Recipe not found at '" +:+ default "None" d +:+ "'")).

Definition ensure_recipe_exists (fs : FS) (p : DTProject) : result unit * FS :=
  if negb (needs_recipe p) then (Ok tt, fs)
  else
    match recipe_dir_exists fs p with
    | Raise e => (Raise e, fs)
    | Ok present =>
        let after_clone : result unit * FS :=
          if negb present then
            match recipe_arguments p with
            | Raise e => (Raise e, fs)
            | Ok (repository, branch, location) =>
                let '(cloned, fs') := clone_recipe repository branch location fs in
                if negb cloned then
                  (Raise (RecipeProjectNotFound "Recipe repository could not be downloaded."),
                   fs')
                else (Ok tt, fs')
            end
          else (Ok tt, fs) in
        match after_clone with
        | (Raise e, fs') => (Raise e, fs')
        | (Ok _, fs') =>
            match recipe_dir_exists fs' p with
            | Raise e => (Raise e, fs')
            | Ok true => (Ok tt, fs')
            | Ok false => (recipe_not_found p, fs')
            end
        end
    end.
End Recipe.

(** ** Image names *)
Section Image.
(** The fixed set of canonical architectures. *)
Variable CANONICAL_ARCH : list string.

(** Modelled from the spec: [assert_canonical_arch] of [.utils.misc],
    another module of the package, not embedded here.  The architecture
    is validated against the fixed set of canonical architectures, and
    an invalid one is a fatal input error; the text of the message is
    not specified. *)
Definition assert_canonical_arch (arch : string) : result unit :=
  if bool_decide (arch ∈ CANONICAL_ARCH) then Ok tt
  else Raise (ValueError ("Given architecture " +:+ arch +:+ " is not supported.")).

Definition image (p : DTProject) (arch registry owner : string)
    (version : option string) (loop docs : bool) (extra : option string)
    : result string :=
  _ ← assert_canonical_arch arch;
  let loop := if loop then "-LOOP" else "" in
  let docs := if docs then "-docs" else "" in
  let extra := if truthy_opt extra then "-" +:+ default "" extra else "" in
  let version := match version with
                 | None => safe_version_name p
                 | Some v => v
                 end in
  Ok (registry +:+ "/" +:+ owner +:+ "/" +:+ name p +:+ ":" +:+ version
      +:+ extra +:+ loop +:+ docs +:+ "-" +:+ arch).

Definition image_vscode (p : DTProject) (arch registry owner : string)
    (version : option string) (docs : bool) : result string :=
  image p arch registry owner version false docs (Some "vscode").

Definition image_vnc (p : DTProject) (arch registry owner : string)
    (version : option string) (docs : bool) : result string :=
  image p arch registry owner version false docs (Some "vnc").

Definition image_release (p : DTProject) (arch owner registry : string)
    (docs : bool) : result string :=
  if negb (is_release p) then
    Raise (ValueError "The project repository is not in a release state")
  else
    _ ← assert_canonical_arch arch;
    let docs := if docs then "-docs" else "" in
    let version := re_sub_unsafe (head_version p) in
    Ok (registry +:+ "/" +:+ owner +:+ "/" +:+ name p +:+ ":" +:+ version
        +:+ docs +:+ "-" +:+ arch).

Definition manifest (p : DTProject) (registry owner : string)
    (version : option string) : string :=
  let version := match version with
                 | None => re_sub_unsafe (version_name p)
                 | Some v => v
                 end in
  registry +:+ "/" +:+ owner +:+ "/" +:+ name p +:+ ":" +:+ version.
End Image.

(** ** Configurations

    [parse_configurations] of [.configurations], another module of the
    package, is a parameter, reading one file of the world. *)
Section Configurations.
Variable Configuration : Type.
Variable parse_configurations : FS -> string -> result (gmap string Configuration).

Definition configurations (fs : FS) (p : DTProject)
    : result (gmap string Configuration) :=
  match py_int (type_version p) with
  | None => Raise (ValueError (int_error (type_version p)))
  | Some v =>
      if (v <? 2)%Z then
        Raise (NotImplementedError
          ("Project configurations were introduced with template "
           +:+ "types v2. Your project does not support them."))
      else if (type_version p =? "2")%string then
        let configurations_file := join (_path p) "configurations.yaml" in
        if isfile fs configurations_file
        then parse_configurations fs configurations_file
        else Ok ∅
      else Ok ∅
  end.

Definition configuration (fs : FS) (p : DTProject) (name : string)
    : result Configuration :=
  configurations ← configurations fs p;
  match configurations !! name with
  | Some c => Ok c
  | None => Raise (KeyError ("Configuration with name '" +:+ name +:+ "' not found."))
  end.
End Configurations.

(** ** Paths

    The tables [TEMPLATE_TO_SRC], [TEMPLATE_TO_LAUNCHFILE],
    [TEMPLATE_TO_ASSETS] and [TEMPLATE_TO_DOCS] of [.constants], another
    module of the package, are parameters: a table is a dictionary from
    project type to a dictionary from template version to its entry. *)
Definition template_table (A : Type) : Type := gmap string (gmap string A).

(** [TABLE[self.type][self.type_version]], guarded by the membership
    test that opens every path function. *)
Definition template_entry {A} (TABLE : template_table A) (p : DTProject) (msg : string)
    : result A :=
  match TABLE !! type p with
  | None => Raise (UnsupportedDTProjectVersion msg)
  | Some versions =>
      match versions !! type_version p with
      | None => Raise (UnsupportedDTProjectVersion msg)
      | Some entry => Ok entry
      end
  end.

Definition unsupported_template (p : DTProject) : string :=
  "Template " +:+ type p +:+ " v" +:+ type_version p +:+ " for project "
  +:+ path p +:+ " is not supported".

(** [os.path.abspath(root or self.path).rstrip("/")] *)
Definition effective_root (fs : FS) (p : DTProject) (root : option string) : string :=
  rstrip_char "/" (abspath (getcwd fs)
                           (if truthy_opt root then default "" root else path p)).

(** The body shared, word for word, by [code_paths] and [assets_paths]. *)
Definition pattern_paths (TABLE : template_table (string -> string * string))
    (fs : FS) (p : DTProject) (root : option string)
    : result (list string * list string) :=
  entry ← template_entry TABLE p (unsupported_template p);
  let root := effective_root fs p root in
  let '(local, destination) := entry (name p) in
  if endswith "*" local then
    let local_abs := join (path p) local in
    let locals := glob fs local_abs in
    let locals := filter (λ loc, isdir fs loc = true) locals in
    locals ← map_result
      (λ loc, match relpath (getcwd fs) loc (path p) with
              | Some rel => Ok (join root rel)
              | None => Raise (ValueError "no path specified")
              end) locals;
    let destinations := map (λ loc, join destination (stem loc)) locals in
    Ok (locals, destinations)
  else
    Ok ([join root local], [destination]).

Section Paths.
Variable TEMPLATE_TO_SRC : template_table (string -> string * string).
Variable TEMPLATE_TO_LAUNCHFILE : template_table (string -> string * string).
Variable TEMPLATE_TO_ASSETS : template_table (string -> string * string).
Variable TEMPLATE_TO_DOCS : template_table string.

Definition code_paths (fs : FS) (p : DTProject) (root : option string)
    : result (list string * list string) :=
  pattern_paths TEMPLATE_TO_SRC fs p root.

Definition assets_paths (fs : FS) (p : DTProject) (root : option string)
    : result (list string * list string) :=
  pattern_paths TEMPLATE_TO_ASSETS fs p root.

Definition launch_paths (fs : FS) (p : DTProject) (root : option string)
    : result (string * string) :=
  entry ← template_entry TEMPLATE_TO_LAUNCHFILE p
    ("Template " +:+ type p +:+ " v" +:+ type_version p +:+ " for project "
     +:+ path p +:+ " not supported");
  let root := effective_root fs p root in
  let '(src, dst) := entry (name p) in
  Ok (join root src, dst).

Definition docs_path (p : DTProject) : result string :=
  entry ← template_entry TEMPLATE_TO_DOCS p (unsupported_template p);
  Ok (join (path p) entry).
End Paths.

(** ** The legacy descriptor

    [REQUIRED_METADATA_KEYS] and [REQUIRED_METADATA_PER_TYPE_KEYS] of
    [.constants], another module of the package, are parameters. *)
Definition missing_key (metafile key : string) : exn :=
  MalformedDTProject
    ("The metadata file '" +:+ metafile +:+ "' does not contain the key '" +:+ key +:+ "'.").

(** [for key in keys: if key not in metadata: raise MalformedDTProject] *)
Definition require_keys (metafile : string) (metadata : gmap string string)
    (keys : list string) : result unit :=
  for_each keys (λ key,
    if bool_decide (is_Some (metadata !! key)) then Ok tt
    else Raise (missing_key metafile key)).

(** [key, val = line.split("=")] *)
Definition split_assignment (line : string) : result (string * string) :=
  match split "=" line with
  | [key; val] => Ok (key, val)
  | [] | [_] => Raise (ValueError "not enough values to unpack (expected 2, got 1)")
  | _ => Raise (ValueError "too many values to unpack (expected 2)")
  end.

(** The lines of the file, stripped, without blanks and comments, read
    into a dictionary; a later line replaces an earlier one with the same
    key. *)
Definition parse_metadata (lines : list string) : result (gmap string string) :=
  let lines := map strip lines in
  let lines :=
    filter (λ line, ((0 <? String.length line)%nat && negb (startswith "#" line)) = true)
           lines in
  pairs ← map_result split_assignment lines;
  Ok (foldl (λ metadata '(key, val), <[upper (strip key) := strip val]> metadata) ∅ pairs).

Section Legacy.
Variable REQUIRED_METADATA_KEYS : gmap string (list string).
Variable REQUIRED_METADATA_PER_TYPE_KEYS : gmap string (gmap string (list string)).

(** The checks of [_get_project_info] on the parsed dictionary. *)
Definition validate_metadata (metafile path : string) (metadata : gmap string string)
    : result (gmap string string) :=
  agnostic ← getitem REQUIRED_METADATA_KEYS "*";
  _ ← require_keys metafile metadata agnostic;
  version ← getitem metadata "TYPE_VERSION";
  if (version =? "*")%string || negb (bool_decide (is_Some (REQUIRED_METADATA_KEYS !! version)))
  then Raise (UnsupportedDTProjectVersion
                ("The project version " +:+ version +:+ " is not supported."))
  else
    specific ← getitem REQUIRED_METADATA_KEYS version;
    _ ← require_keys metafile metadata specific;
    type ← getitem metadata "TYPE";
    _ ← require_keys metafile metadata
          (default [] (default ∅ (REQUIRED_METADATA_PER_TYPE_KEYS !! type) !! version));
    Ok (<["PATH" := path]> metadata).

Definition _get_project_info (fs : FS) (path : string) : result (gmap string string) :=
  if negb (path_exists fs path) then
    Raise (OSError ("The project path " +:+ repr path +:+ " does not exist."))
  else
    let metafile := join path ".dtproject" in
    if negb (path_exists fs metafile) then
      Raise (DTProjectNotFound
               ("The path '" +:+ path +:+ "' does not appear to be a Duckietown project."))
    else
      match readlines fs metafile with
      | None => Raise (read_error fs metafile)
      | Some [] =>
          Raise (MalformedDTProject ("The metadata file '" +:+ metafile +:+ "' is empty."))
      | Some lines =>
          metadata ← parse_metadata lines;
          validate_metadata metafile path metadata
      end.

(** [DTProjectV1to3.is_instance_of]: any exception means "no". *)
Definition is_instance_of_V1to3 (fs : FS) (path : string) : bool :=
  match _get_project_info fs path with Ok _ => true | Raise _ => false end.

(** [DTProjectV1to3.__init__] on an instance prepared by
    [DTProject.__init__]; appending ["dtproject"] to the adapters is
    the store update. *)
Definition DTProjectV1to3_init (fs : FS) (σ : store) (self : DTProject) (path : string)
    : result (DTProject * store) :=
  info ← _get_project_info fs path;
  type ← getitem info "TYPE";
  type_version ← getitem info "TYPE_VERSION";
  version ← getitem info "VERSION";
  Ok ({| _adapters := _adapters self; _repository := _repository self;
         _path := _path self; _custom_recipe_dir := _custom_recipe_dir self;
         _recipe_version := _recipe_version self;
         _class := DTProjectV1to3 info type type_version version |},
      alter (λ items, items ++ ["dtproject"]) (_adapters self) σ).
End Legacy.

(** ** The layered descriptor

    Reading YAML ([yaml.safe_load], [from_yaml_file] of
    [dataclass_wizard]) and building the extended dataclass
    ([dataclasses.make_dataclass]) are library calls: they are
    parameters, each free to raise. *)
Definition REQUIRED_LAYERS : list string := ["self"; "template"; "distro"; "base"].

(** [d[k] = v] on a dictionary kept with its insertion order. *)
Fixpoint dict_set {V} (k : string) (v : V) (d : list (string * V)) : list (string * V) :=
  match d with
  | [] => [(k, v)]
  | (k', v') :: d' => if (k' =? k)%string then (k, v) :: d' else (k', v') :: dict_set k v d'
  end.

(** The first loop of [_load_layers]: every required layer has its file. *)
Fixpoint required_layer_files (fs : FS) (layers_dir : string) (names : list string)
    (required_layers : gmap string string) : result (gmap string string) :=
  match names with
  | [] => Ok required_layers
  | layer_name :: names' =>
      let layer_fpath := join layers_dir (layer_name +:+ ".yaml") in
      if negb (path_exists fs layer_fpath) || negb (isfile fs layer_fpath) then
        Raise (MalformedDTProject ("The file '" +:+ layer_fpath +:+ "' is missing."))
      else
        required_layer_files fs layers_dir names' (<[layer_name := layer_fpath]> required_layers)
  end.

Section Layered.
Variable load_yaml : FS -> string -> result (gmap string string).
Variable LayerSelf_from_yaml_file : FS -> string -> result LayerSelf.
Variable LayerTemplate_from_yaml_file : FS -> string -> result LayerTemplate.
Variable LayerDistro_from_yaml_file : FS -> string -> result LayerDistro.
Variable LayerBase_from_yaml_file : FS -> string -> result LayerBase.
Variable make_dataclass : list string -> result unit.

(** The second loop of [_load_layers]: every other [*.yaml] file is a
    custom layer, keyed by its stem. *)
Fixpoint custom_layer_files (fs : FS) (fpaths : list string)
    (custom_layers : list (string * gmap string string))
    : result (list (string * gmap string string)) :=
  match fpaths with
  | [] => Ok custom_layers
  | layer_fpath :: fpaths' =>
      let layer_name := stem layer_fpath in
      if bool_decide (layer_name ∉ REQUIRED_LAYERS) then
        layer_content ← load_yaml fs layer_fpath;
        custom_layer_files fs fpaths' (dict_set layer_name layer_content custom_layers)
      else custom_layer_files fs fpaths' custom_layers
  end.

Definition _load_layers (fs : FS) (path : string) : result Layers :=
  if negb (path_exists fs path) then
    Raise (OSError ("The project path " +:+ repr path +:+ " does not exist."))
  else
    let layers_dir := join path "dtproject" in
    if negb (path_exists fs layers_dir) then
      Raise (DTProjectNotFound
               ("The path '" +:+ path +:+ "' does not appear to be a Duckietown project."))
    else if negb (isdir fs layers_dir) then
      Raise (MalformedDTProject ("The path '" +:+ layers_dir +:+ "' must be a directory."))
    else
      required_layers ← required_layer_files fs layers_dir REQUIRED_LAYERS ∅;
      let layer_pattern := join_many path ["dtproject"; "*.yaml"] in
      custom_layers ← custom_layer_files fs (glob fs layer_pattern) [];
      _ ← make_dataclass (custom_layers.*1);
      self_file ← getitem required_layers "self";
      self ← LayerSelf_from_yaml_file fs self_file;
      template_file ← getitem required_layers "template";
      template ← LayerTemplate_from_yaml_file fs template_file;
      distro_file ← getitem required_layers "distro";
      distro ← LayerDistro_from_yaml_file fs distro_file;
      base_file ← getitem required_layers "base";
      base ← LayerBase_from_yaml_file fs base_file;
      Ok {| layer_self := self; layer_template := template; layer_distro := distro;
            layer_base := base; layer_custom := list_to_map custom_layers |}.

(** [DTProjectV4.is_instance_of]: any exception means "no". *)
Definition is_instance_of_V4 (fs : FS) (path : string) : bool :=
  match _load_layers fs path with Ok _ => true | Raise _ => false end.
End Layered.

(** The file of a required layer is there. *)
Definition layer_file (fs : FS) (layers_dir layer_name : string) : Prop :=
  path_exists fs (join layers_dir (layer_name +:+ ".yaml")) = true
  ∧ isfile fs (join layers_dir (layer_name +:+ ".yaml")) = true.

(** ** Repository information

    [run_cmd] and [git_remote_url_to_https] of [.utils.misc], another
    module of the package, are parameters: [run_cmd] runs a command and
    returns the lines it prints, or raises. *)

(** What [__init__] may raise: the errors of the version-control client
    and those of the descriptor. *)
Inductive init_error : Type :=
  | GitError (e : git_error)
  | DescriptorError (e : exn).

(** The same exception, seen by a caller whose other failures are in
    [exn]. *)
Definition exn_of_init (e : init_error) : exn :=
  match e with
  | GitError e => GitClientError e
  | DescriptorError e => e
  end.

Inductive outcome (E A : Type) : Type :=
  | Done (a : A)
  | Failed (e : E).
Arguments Done {E A} a.
Arguments Failed {E A} e.

#[export] Instance outcome_ret {E} : MRet (outcome E) := λ A a, Done a.
#[export] Instance outcome_bind {E} : MBind (outcome E) := λ A B f m,
  match m with Done a => f a | Failed e => Failed e end.

(** The dictionary returned by [_get_repo_info]. *)
Record RepoInfo : Type := {
  REPOSITORY : option string;
  SHA : string;
  BRANCH : string;
  VERSION_HEAD : string;
  VERSION_CLOSEST : string;
  ORIGIN_URL : string;
  ORIGIN_HTTPS_URL : option string;
  INDEX_NUM_MODIFIED : nat;
  INDEX_NUM_ADDED : nat;
}.

(** [out[0]] *)
Definition first_line (out : list string) : outcome git_error string :=
  match out with
  | line :: _ => Done line
  | [] => Failed IndexError
  end.

(** [["git", "-C", f'"{path}"'] + args] *)
Definition git_C (path : string) (args : list string) : list string :=
  ["git"; "-C"; String (chr 34) "" +:+ path +:+ String (chr 34) ""] ++ args.

(** [s[:-n]] *)
Definition drop_last (n : nat) (s : string) : string :=
  take_str (String.length s - n) s.

(** The origin URL without its [.git] suffix and without one trailing
    [/]. *)
Definition trim_origin (origin_url : string) : string :=
  let origin_url := if endswith ".git" origin_url then drop_last 4 origin_url
                    else origin_url in
  if endswith "/" origin_url then drop_last 1 origin_url else origin_url.

Section Git.
Variable run_cmd : list string -> outcome git_error (list string).
Variable git_remote_url_to_https : string -> string.

Definition _get_repo_info (path : string) : outcome git_error RepoInfo :=
  sha ← match run_cmd (git_C path ["rev-parse"; "HEAD"]) with
        | Done out => first_line out
        | Failed (CalledProcessError 128) => Done "ND"
        | Failed e => Failed e
        end;
  branch ← run_cmd (git_C path ["branch"; "--show-current"]) ≫= first_line;
  head_tag ← match run_cmd (git_C path ["describe"; "--exact-match"; "--tags"; "HEAD";
                                        "2>/dev/null"; "||"; ":"]) with
             | Done out => Done (Some out)
             | Failed (CalledProcessError returncode) =>
                 if (sha =? "ND")%string then Done None
                 else Failed (CalledProcessError returncode)
             | Failed e => Failed e
             end;
  let head_tag := match head_tag with
                  | Some (tag :: _) => tag
                  | _ => "ND"
                  end in
  closest_tag ← run_cmd (git_C path ["tag"]);
  let closest_tag := default "ND" (last closest_tag) in
  '(origin_url, repo) ←
     match run_cmd (git_C path ["config"; "--get"; "remote.origin.url"]) with
     | Done out =>
         origin_url ← first_line out;
         let origin_url := trim_origin origin_url in
         Done (Some origin_url, Some (default "" (last (split "/" origin_url))))
     | Failed (CalledProcessError 1) => Done (None, None)
     | Failed e => Failed e
     end;
  modified ← run_cmd (git_C path ["status"; "--porcelain"] ++ ["--untracked-files=no"]);
  let nmodified := length modified in
  added ← run_cmd (git_C path ["status"; "--porcelain"]);
  let added := filter (λ f, endswith ".resolved" f = false) added in
  let nadded := length added in
  Done {| REPOSITORY := repo; SHA := sha; BRANCH := branch;
          VERSION_HEAD := head_tag; VERSION_CLOSEST := closest_tag;
          ORIGIN_URL := if truthy_opt origin_url then default "" origin_url else "ND";
          ORIGIN_HTTPS_URL := if truthy_opt origin_url
                              then Some (git_remote_url_to_https (default "" origin_url))
                              else None;
          INDEX_NUM_MODIFIED := nmodified; INDEX_NUM_ADDED := nadded |}.

(** The [SimpleNamespace] that [__init__] builds from the dictionary. *)
Definition repository_of (repo_info : RepoInfo) : Repository :=
  {| repo_name := REPOSITORY repo_info; repo_sha := SHA repo_info;
     repo_detached := (BRANCH repo_info =? "HEAD")%string;
     repo_branch := BRANCH repo_info;
     repo_head_version := VERSION_HEAD repo_info;
     repo_closest_version := VERSION_CLOSEST repo_info;
     repo_repository_url := ORIGIN_URL repo_info;
     repo_repository_page := ORIGIN_HTTPS_URL repo_info;
     repo_index_nmodified := INDEX_NUM_MODIFIED repo_info;
     repo_index_nadded := INDEX_NUM_ADDED repo_info |}.
End Git.

(** ** Construction

    An instance starts as a plain [DTProject] and is re-classed by each
    subclass that recognises the path; when none does, it stays without
    subclass. *)
Inductive Instance : Type :=
  | Classified (p : DTProject)
  | Unclassified (adapters : nat) (repository : option Repository) (path : string).

Definition instance_adapters (i : Instance) : nat :=
  match i with Classified p => _adapters p | Unclassified a _ _ => a end.

Definition instance_path (i : Instance) : string :=
  match i with Classified p => _path p | Unclassified _ _ pa => pa end.

Definition instance_repository (i : Instance) : option Repository :=
  match i with Classified p => _repository p | Unclassified _ r _ => r end.

Section Construction.
Variable REQUIRED_METADATA_KEYS : gmap string (list string).
Variable REQUIRED_METADATA_PER_TYPE_KEYS : gmap string (gmap string (list string)).
Variable load_yaml : FS -> string -> result (gmap string string).
Variable LayerSelf_from_yaml_file : FS -> string -> result LayerSelf.
Variable LayerTemplate_from_yaml_file : FS -> string -> result LayerTemplate.
Variable LayerDistro_from_yaml_file : FS -> string -> result LayerDistro.
Variable LayerBase_from_yaml_file : FS -> string -> result LayerBase.
Variable make_dataclass : list string -> result unit.
Variable run_cmd : list string -> outcome git_error (list string).
Variable git_remote_url_to_https : string -> string.

(** The attributes [DTProjectV1to3.__init__] sets. *)
Definition DTProjectV1to3_attributes (fs : FS) (path : string) : result Descriptor :=
  info ← _get_project_info REQUIRED_METADATA_KEYS REQUIRED_METADATA_PER_TYPE_KEYS fs path;
  type ← getitem info "TYPE";
  type_version ← getitem info "TYPE_VERSION";
  version ← getitem info "VERSION";
  Ok (DTProjectV1to3 info type type_version version).

(** The attributes [DTProjectV4.__init__] sets. *)
Definition DTProjectV4_attributes (fs : FS) (path : string) : result Descriptor :=
  layers ← _load_layers load_yaml LayerSelf_from_yaml_file LayerTemplate_from_yaml_file
              LayerDistro_from_yaml_file LayerBase_from_yaml_file make_dataclass fs path;
  Ok (DTProjectV4 layers).

(** One round of the loop over the subclasses: [recognises] is
    [is_instance_of], [attributes] the subclass's [__init__], which
    ends by appending ["dtproject"] to the adapters. *)
Definition classify (recognises : bool) (attributes : result Descriptor)
    (adapters : nat) (state : option Descriptor * gmap nat (list string))
    : outcome init_error (option Descriptor * gmap nat (list string)) :=
  if recognises then
    match attributes with
    | Ok cls => Done (Some cls, alter (λ items, items ++ ["dtproject"]) adapters state.2)
    | Raise e => Failed (DescriptorError e)
    end
  else Done state.

Definition DTProject_init (fs : FS) (σ : gmap nat (list string)) (path : string)
    : outcome init_error (Instance * gmap nat (list string)) :=
  let adapters := fresh (dom σ) in
  let _path := abspath (getcwd fs) path in
  let σ := <[adapters := ["fs"]]> σ in
  '(repository, σ) ←
     (if isdir fs (join _path ".git") then
        match _get_repo_info run_cmd git_remote_url_to_https _path with
        | Done repo_info =>
            Done (Some (repository_of repo_info),
                  alter (λ items, items ++ ["git"]) adapters σ)
        | Failed e => Failed (GitError e)
        end
      else Done (None, σ));
  state ← classify
    (is_instance_of_V1to3 REQUIRED_METADATA_KEYS REQUIRED_METADATA_PER_TYPE_KEYS fs path)
    (DTProjectV1to3_attributes fs path) adapters (None, σ);
  '(cls, σ) ← classify
    (is_instance_of_V4 load_yaml LayerSelf_from_yaml_file LayerTemplate_from_yaml_file
       LayerDistro_from_yaml_file LayerBase_from_yaml_file make_dataclass fs path)
    (DTProjectV4_attributes fs path) adapters state;
  Done (match cls with
        | Some cls =>
            Classified {| _adapters := adapters; _repository := repository;
                          _path := _path; _custom_recipe_dir := None;
                          _recipe_version := None; _class := cls |}
        | None => Unclassified adapters repository _path
        end, σ).

(** ** The recipe project and the launchers

    [get_recipe_project_dir] is the parameter of the recipe section. *)
Variable get_recipe_project_dir : string -> string -> string -> string.

(** [self.recipe.path], read where a recipe is needed: [self.recipe]
    builds [DTProject(self.recipe_dir)], whose adapters list is new, and
    [path] is the absolute path it keeps.  ([recipe_dir] is [None] only
    on a project that needs no recipe; [os.path.abspath(None)] is a
    [TypeError].) *)
Definition recipe_path (fs : FS) (σ : gmap nat (list string)) (p : DTProject)
    : result string :=
  d ← recipe_dir get_recipe_project_dir p;
  match d with
  | Some d =>
      match DTProject_init fs σ d with
      | Done (recipe, _) => Ok (instance_path recipe)
      | Failed e => Raise (exn_of_init e)
      end
  | None => Raise TypeError
  end.

Definition launchers (fs : FS) (σ : gmap nat (list string)) (p : DTProject)
    : result (list string) :=
  let project_template_ver := default (-1)%Z (py_int (type_version p)) in
  if (project_template_ver <? 2)%Z then
    Raise (NotImplementedError "Only projects with template type v2+ support launchers.")
  else
    paths ← (if needs_recipe p then r ← recipe_path fs σ p; Ok [path p; r]
             else Ok [path p]);
    launchers_loop fs paths [].
End Construction.

(** * The specification's wording

    Definitions that follow the words of the specification, to be
    compared with the code above. *)

Fixpoint all_chars (f : ascii -> bool) (s : string) : bool :=
  match s with
  | EmptyString => true
  | String c s' => f c && all_chars f s'
  end.

(** "Replacing every character outside [[A-Za-z0-9_.-]] with [-]". *)
Definition in_safe_class (c : ascii) : bool :=
  between 65 90 c || between 97 122 c || between 48 57 c
  || Ascii.eqb c "_" || Ascii.eqb c "." || Ascii.eqb c "-".

Definition spec_sanitize (s : string) : string :=
  map_str (λ c, if in_safe_class c then c else "-"%char) s.

(** "Explicit descriptor-declared name": the [NAME] key of the legacy
    file, the [name] field of the [self] layer. *)
Definition declared_name (p : DTProject) : option string :=
  match _class p with
  | DTProjectV4 ly => Some (self_name (layer_self ly))
  | DTProjectV1to3 info _ _ _ => info !! "NAME"
  end.

(** "Explicit descriptor-declared name > repository name (if a
    version-control identity was resolved) > directory base name; result
    is always lower-cased".  [None] when the rule names a repository name
    that does not exist. *)
Definition spec_name (p : DTProject) : option string :=
  match declared_name p with
  | Some n => Some (lower n)
  | None =>
      match _repository p with
      | Some r => lower <$> repo_name r
      | None => Some (lower (basename (path p)))
      end
  end.

(** "First missing-key failure": the first of [keys], in the order of
    the table, that the dictionary lacks. *)
Definition first_missing (keys : list string) (metadata : gmap string string)
    : option string :=
  head (filter (λ key, metadata !! key = None) keys).

(** The keys registered for a type and a version, none when the type or
    the version is not registered. *)
Definition per_type_keys (PER_TYPE : gmap string (gmap string (list string)))
    (type version : string) : list string :=
  default [] (default ∅ (PER_TYPE !! type) !! version).

(** "A descriptive error naming the offending version". *)
Definition unsupported_version (version : string) : exn :=
  UnsupportedDTProjectVersion ("The project version " +:+ version +:+ " is not supported.").

(** A path component: not empty, not [.], not [..], without separator. *)
Definition clean_component (c : string) : bool :=
  negb (c =? "")%string && negb (c =? ".")%string && negb (c =? "..")%string
  && all_chars (λ a, negb (Ascii.eqb a "/")) c.

(** The absolute, normalised path with the given components. *)
Definition absolute (comps : list string) : string := "/" +:+ sep_join "/" comps.

(** Every component of a list is a path component. *)
Abbreviation clean comps := (Forall (λ c, clean_component c = true) comps).

(** "For each match derive its own destination by appending the match's
    final path segment to the fixed destination". *)
Definition spec_destinations (destination : string) (matches : list string)
    : list string :=
  map (λ m, join destination (basename m)) matches.

(** * Predicates used in the statements *)

(** [s.count(c)] for a one-character argument *)
Fixpoint count_char (c : ascii) (s : string) : nat :=
  match s with
  | EmptyString => 0
  | String a s' => (if Ascii.eqb a c then 1 else 0) + count_char c s'
  end.

(** The lines of a legacy file that are read as assignments: stripped,
    neither blank nor comment. *)
Definition assignment_lines (lines : list string) : list string :=
  filter (λ line, ((0 <? String.length line)%nat && negb (startswith "#" line)) = true)
         (map strip lines).

(** A table has an entry for the type and the type version of a
    project. *)
Definition supported {A} (TABLE : template_table A) (p : DTProject) : Prop :=
  ∃ versions entry,
    TABLE !! type p = Some versions ∧ versions !! type_version p = Some entry.

(** An entry of a [launchers] directory that [launchers] keeps: a file
    that is executable or whose first line starts with [#!]. *)
Definition is_launcher (fs : FS) (dir f : string) : Prop :=
  isfile fs (join dir f) = true
  ∧ (access_X_OK fs (join dir f) = true
     ∨ ∃ line, access_X_OK fs (join dir f) = false
               ∧ readline fs (join dir f) = Some line ∧ startswith "#!" line = true).

(** Two worlds that differ at most in the first lines of executable
    files. *)
Definition same_but_first_lines_of_executables (fs fs' : FS) : Prop :=
  getcwd fs' = getcwd fs
  ∧ (∀ f, path_exists fs' f = path_exists fs f)
  ∧ (∀ f, isdir fs' f = isdir fs f)
  ∧ (∀ f, isfile fs' f = isfile fs f)
  ∧ (∀ f, listdir fs' f = listdir fs f)
  ∧ (∀ f, glob fs' f = glob fs f)
  ∧ (∀ f, access_X_OK fs' f = access_X_OK fs f)
  ∧ (∀ f, readlines fs' f = readlines fs f)
  ∧ (∀ f, undecodable fs' f = undecodable fs f)
  ∧ (∀ f, access_X_OK fs f = false → readline fs' f = readline fs f).

(** * Sample data

    Concrete worlds, tables and projects on which the properties below
    are exercised. *)

Definition sample_canonical_arch : list string := ["amd64"; "arm32v7"; "arm64v8"].

Definition sample_fs : FS :=
  {| getcwd := "/home/duckie";
     path_exists := λ _, false; isdir := λ _, false; isfile := λ _, false;
     listdir := λ _, None; glob := λ _, [];
     access_X_OK := λ _, false; readline := λ _, None; readlines := λ _, None;
     undecodable := λ _, false |}.

Definition sample_maintainer : Maintainer :=
  {| maintainer_name := "Duckie"; maintainer_email := "duckie@example.org";
     maintainer_organization := None |}.

Definition sample_layers (name type type_version : string) : Layers :=
  {| layer_self := {| self_name := name; self_maintainer := sample_maintainer;
                      self_description := "A project"; self_icon := "square";
                      self_version := "1.0.0" |};
     layer_template := {| template_name := type; template_version := type_version;
                          template_provider := Some "github.com" |};
     layer_distro := {| distro_name := "ente" |};
     layer_base := {| base_repository := "dt-commons"; base_registry := None;
                      base_organization := None; base_tag := None |};
     layer_custom := ∅ |}.

(** A working copy on branch [ente] whose head carries the tag [tag]. *)
Definition sample_repository (name : option string) (tag : string)
    (nmodified nadded : nat) : Repository :=
  {| repo_name := name; repo_sha := "0a1b2c3"; repo_detached := false;
     repo_branch := "ente"; repo_head_version := tag; repo_closest_version := tag;
     repo_repository_url := "ND"; repo_repository_page := None;
     repo_index_nmodified := nmodified; repo_index_nadded := nadded |}.

Definition sample_v4 (dir : string) (repository : option Repository)
    (name type type_version : string) : DTProject :=
  {| _adapters := 0%nat; _repository := repository; _path := dir;
     _custom_recipe_dir := None; _recipe_version := None;
     _class := DTProjectV4 (sample_layers name type type_version) |}.

Definition sample_legacy (dir : string) (repository : option Repository)
    (info : gmap string string) : DTProject :=
  {| _adapters := 0%nat; _repository := repository; _path := dir;
     _custom_recipe_dir := None; _recipe_version := None;
     _class := DTProjectV1to3 info (default "" (info !! "TYPE"))
                 (default "" (info !! "TYPE_VERSION")) (default "" (info !! "VERSION")) |}.

(** A store in which the adapters of the sample projects live. *)
Definition sample_store : gmap nat (list string) :=
  {[0%nat := ["fs"; "git"; "dtproject"]]}.

(** A legacy project in a fresh working copy without [origin] remote and
    without a [NAME] key. *)
Definition sample_unnamed_legacy : DTProject :=
  sample_legacy "/home/duckie/My_Project" (Some (sample_repository None "ND" 0 0))
    (<["TYPE" := "template-basic"]> (<["TYPE_VERSION" := "3"]> (<["VERSION" := "1.0"]> ∅))).

(** The head tag [v1.0-café]. *)
Definition sample_accented_tag : string := "v1.0-caf" +:+ String (chr 233) "".

(** A clean project whose head carries the tag [tag]. *)
Definition sample_released (tag : string) : DTProject :=
  sample_v4 "/home/duckie/foo" (Some (sample_repository (Some "foo") tag 0 0))
    "foo" "template-basic" "4".

(** A configurations parser that finds one configuration, [default]. *)
Definition sample_parse_configurations (fs : FS) (file : string)
    : result (gmap string string) :=
  Ok {["default" := file]}.

(** A world in which [/home/duckie/foo/configurations.yaml] is a file. *)
Definition sample_fs_configurations : FS :=
  {| getcwd := "/home/duckie";
     path_exists := λ f, (f =? "/home/duckie/foo/configurations.yaml")%string;
     isdir := λ _, false;
     isfile := λ f, (f =? "/home/duckie/foo/configurations.yaml")%string;
     listdir := λ _, None; glob := λ _, [];
     access_X_OK := λ _, false; readline := λ _, None; readlines := λ _, None;
     undecodable := λ _, false |}.

(** The project [foo] on a given template version. *)
Definition sample_foo_version (type_version : string) : DTProject :=
  sample_v4 "/home/duckie/foo" None "foo" "template-basic" type_version.

(** A legacy exercise, which needs a recipe. *)
Definition sample_exercise_info : gmap string string :=
  <["TYPE" := "template-exercise"]> (<["TYPE_VERSION" := "3"]> (<["VERSION" := "1.0"]>
  (<["RECIPE_REPOSITORY" := "duckietown/recipe"]> (<["RECIPE_BRANCH" := "ente"]>
  (<["RECIPE_LOCATION" := "recipe"]> ∅))))).

Definition sample_exercise : DTProject :=
  sample_legacy "/ws/exercise" None sample_exercise_info.

Definition sample_get_recipe_project_dir (repository branch location : string) : string :=
  "/cache/" +:+ repository +:+ "/" +:+ branch +:+ "/" +:+ location.

(** A recipe client whose clone reports success and whose update reports
    a change, neither touching the world. *)
Definition sample_clone_recipe (repository branch location : string) (fs : FS)
    : bool * FS := (true, fs).

Definition sample_update_recipe (repository branch location : string) (fs : FS)
    : result bool * FS := (Ok true, fs).

(** A world with two launchers in the exercise, [default.sh] and
    [test.sh], and two in its recipe, [default.sh] and [run.sh], all
    executable.  The recipe directory is no working copy and holds no
    descriptor. *)
Definition sample_fs_launchers : FS :=
  {| getcwd := "/home/duckie";
     path_exists := λ f,
       bool_decide (f ∈ ["/ws/exercise"; "/ws/exercise/launchers";
                         "/cache/duckietown/recipe/ente/recipe";
                         "/cache/duckietown/recipe/ente/recipe/launchers"])
       || endswith ".sh" f;
     isdir := λ f,
       bool_decide (f ∈ ["/ws/exercise"; "/ws/exercise/launchers";
                         "/cache/duckietown/recipe/ente/recipe";
                         "/cache/duckietown/recipe/ente/recipe/launchers"]);
     isfile := λ f, endswith ".sh" f;
     listdir := λ d,
       if (d =? "/ws/exercise/launchers")%string then Some ["default.sh"; "test.sh"]
       else if (d =? "/cache/duckietown/recipe/ente/recipe/launchers")%string
            then Some ["default.sh"; "run.sh"]
            else None;
     glob := λ _, [];
     access_X_OK := λ f, endswith ".sh" f;
     readline := λ _, None; readlines := λ _, None;
     undecodable := λ _, false |}.

(** Tables of required keys: one agnostic key, three known versions,
    and the recipe keys of version-3 exercises. *)
Definition sample_REQUIRED_METADATA_KEYS : gmap string (list string) :=
  <["*" := ["TYPE_VERSION"]]> (<["1" := ["TYPE"; "VERSION"]]>
  (<["2" := ["TYPE"; "VERSION"]]> (<["3" := ["TYPE"; "VERSION"]]> ∅))).

Definition sample_REQUIRED_METADATA_PER_TYPE_KEYS
    : gmap string (gmap string (list string)) :=
  {["template-exercise" :=
      {["3" := ["RECIPE_REPOSITORY"; "RECIPE_BRANCH"; "RECIPE_LOCATION"]]} ]}.

(** A world in which every path exists and [/ws/p/.dtproject] has the
    given lines. *)
Definition sample_fs_descriptor (lines : list string) : FS :=
  {| getcwd := "/home/duckie";
     path_exists := λ _, true; isdir := λ _, false;
     isfile := λ f, (f =? "/ws/p/.dtproject")%string;
     listdir := λ _, None; glob := λ _, [];
     access_X_OK := λ _, false; readline := λ _, None;
     readlines := λ f, if (f =? "/ws/p/.dtproject")%string then Some lines else None;
     undecodable := λ _, false |}.

(** A table of source mappings: one pattern entry, one plain entry. *)
Definition sample_pattern_entry (repo : string) : string * string :=
  ("packages/*", "/code/catkin_ws/src/" +:+ repo +:+ "/packages").

Definition sample_plain_entry (repo : string) : string * string :=
  ("packages", "/code/" +:+ repo).

Definition sample_TEMPLATE_TO_SRC : template_table (string -> string * string) :=
  <["template-ros" := {["3" := sample_pattern_entry]}]>
  (<["template-basic" := {["4" := sample_plain_entry]}]> ∅).

(** A world in which [/ws/robot/packages] holds the directories [a] and
    [my.pkg] and the file [README.md]. *)
Definition sample_fs_packages : FS :=
  {| getcwd := "/home/duckie";
     path_exists := λ _, true;
     isdir := λ f, bool_decide (f ∈ ["/ws/robot/packages/a"; "/ws/robot/packages/my.pkg"]);
     isfile := λ f, (f =? "/ws/robot/packages/README.md")%string;
     listdir := λ _, None;
     glob := λ pattern,
       if (pattern =? "/ws/robot/packages/*")%string
       then ["/ws/robot/packages/a"; "/ws/robot/packages/README.md";
             "/ws/robot/packages/my.pkg"]
       else [];
     access_X_OK := λ _, false; readline := λ _, None; readlines := λ _, None;
     undecodable := λ _, false |}.

Definition sample_robot : DTProject :=
  sample_v4 "/ws/robot" None "robot" "template-ros" "3".

(** The project [foo] of the image-name examples. *)
Definition sample_foo : DTProject :=
  sample_v4 "/home/duckie/foo" None "foo" "template-basic" "4".

(** A world with the project directory [/ws/l], its [dtproject]
    directory and the given files in it. *)
Definition sample_fs_layers (files : list string) : FS :=
  {| getcwd := "/home/duckie";
     path_exists := λ f, bool_decide (f ∈ ["/ws/l"; "/ws/l/dtproject"] ++ files);
     isdir := λ f, bool_decide (f ∈ ["/ws/l"; "/ws/l/dtproject"]);
     isfile := λ f, bool_decide (f ∈ files);
     listdir := λ _, None;
     glob := λ pattern, if (pattern =? "/ws/l/dtproject/*.yaml")%string then files else [];
     access_X_OK := λ _, false; readline := λ _, None; readlines := λ _, None;
     undecodable := λ _, false |}.

Definition sample_layer_files : list string :=
  ["/ws/l/dtproject/base.yaml"; "/ws/l/dtproject/options.yaml";
   "/ws/l/dtproject/self.yaml"; "/ws/l/dtproject/template.yaml";
   "/ws/l/dtproject/distro.yaml"].

(** YAML readers that find the layers of the project [l]. *)
Definition sample_load_yaml (fs : FS) (file : string) : result (gmap string string) :=
  Ok {["file" := file]}.

Definition sample_self_from_yaml (fs : FS) (file : string) : result LayerSelf :=
  Ok (layer_self (sample_layers "l" "template-basic" "4")).

Definition sample_template_from_yaml (fs : FS) (file : string) : result LayerTemplate :=
  Ok (layer_template (sample_layers "l" "template-basic" "4")).

Definition sample_distro_from_yaml (fs : FS) (file : string) : result LayerDistro :=
  Ok (layer_distro (sample_layers "l" "template-basic" "4")).

Definition sample_base_from_yaml (fs : FS) (file : string) : result LayerBase :=
  Ok (layer_base (sample_layers "l" "template-basic" "4")).

Definition sample_make_dataclass (names : list string) : result unit := Ok tt.

Definition sample_load_layers (fs : FS) (path : string) : result Layers :=
  _load_layers sample_load_yaml sample_self_from_yaml sample_template_from_yaml
    sample_distro_from_yaml sample_base_from_yaml sample_make_dataclass fs path.

(** A version-control client for a tagged working copy with an
    [origin] remote and one untracked [.resolved] file. *)
Definition sample_run_cmd (cmd : list string) : outcome git_error (list string) :=
  let args := drop 3 cmd in
  if bool_decide (args = ["rev-parse"; "HEAD"]) then Done ["0a1b2c3"]
  else if bool_decide (args = ["branch"; "--show-current"]) then Done ["ente"]
  else if bool_decide (head args = Some "describe") then Done ["v1.2.3"]
  else if bool_decide (args = ["tag"]) then Done ["v1.0.0"; "v1.2.3"]
  else if bool_decide (args = ["config"; "--get"; "remote.origin.url"])
       then Done ["https://github.com/duckietown/dt-core.git"]
  else if bool_decide (args = ["status"; "--porcelain"; "--untracked-files=no"]) then Done []
  else if bool_decide (args = ["status"; "--porcelain"]) then Done ["?? notes.resolved"]
  else Failed (CalledProcessError 2).

(** A version-control client for a working copy just initialised: no
    commit, no tag, no remote, one untracked file. *)
Definition sample_run_cmd_fresh (cmd : list string) : outcome git_error (list string) :=
  let args := drop 3 cmd in
  if bool_decide (args = ["rev-parse"; "HEAD"]) then Failed (CalledProcessError 128)
  else if bool_decide (args = ["branch"; "--show-current"]) then Done ["main"]
  else if bool_decide (head args = Some "describe") then Failed (CalledProcessError 128)
  else if bool_decide (args = ["tag"]) then Done []
  else if bool_decide (args = ["config"; "--get"; "remote.origin.url"])
       then Failed (CalledProcessError 1)
  else if bool_decide (args = ["status"; "--porcelain"; "--untracked-files=no"]) then Done []
  else if bool_decide (args = ["status"; "--porcelain"]) then Done ["?? README.md"]
  else Failed (CalledProcessError 2).

Definition sample_to_https (url : string) : string := url.

(** A clean project checked out at the tag [tag], head detached. *)
Definition sample_detached (tag : string) : DTProject :=
  sample_v4 "/home/duckie/foo"
    (Some {| repo_name := Some "foo"; repo_sha := "0a1b2c3"; repo_detached := true;
             repo_branch := "HEAD"; repo_head_version := tag;
             repo_closest_version := tag;
             repo_repository_url := "ND"; repo_repository_page := None;
             repo_index_nmodified := 0; repo_index_nadded := 0 |})
    "foo" "template-basic" "4".

(** The world of the project [l] with its layer files, checked out from
    version control. *)
Definition sample_fs_checkout : FS :=
  {| getcwd := "/ws";
     path_exists := path_exists (sample_fs_layers sample_layer_files);
     isdir := λ f, bool_decide (f ∈ ["/ws/l"; "/ws/l/dtproject"; "/ws/l/.git"]);
     isfile := isfile (sample_fs_layers sample_layer_files);
     listdir := λ _, None;
     glob := glob (sample_fs_layers sample_layer_files);
     access_X_OK := λ _, false; readline := λ _, None; readlines := λ _, None;
     undecodable := λ _, false |}.

(** Closes a decidable closed goal by evaluation. *)
Ltac by_decide :=
  lazymatch goal with
  | |- ?P => exact (bool_decide_unpack P I)
  end.

(** * Properties *)

Example ex_paths :
  (relpath "/cwd" "/p/packages/a" "/p", join "/r" "packages/a", join "/r" "",
   abspath "/cwd" "/a//b/../c/", normpath "//a", normpath "///a", basename "/a/b",
   map stem ["/p/packages/my.pkg"; "/p/a."; "/p/.hid"; "/p/a.b.c"; "/p/a/"; "/"; "/p/..a"])
  = (Some "packages/a", "/r/packages/a", "/r/", "/a/c", "//a", "/a", "b",
     ["my"; "a."; ".hid"; "a.b"; "a"; ""; "."]).
Proof. vm_compute. reflexivity. Qed.

Example ex_int :
  map py_int ["2"; " 2 "; "+2"; "1_0"; "_1"; "1__0"; "02"; "2.0"; ""; "-0"; "1_"]
  = [Some 2; Some 2; Some 2; Some 10; None; None; Some 2; None; None; Some 0; None]%Z.
Proof. vm_compute. reflexivity. Qed.

Example ex_split : map (split "=") ["a=b=c"; "a"; ""; "="]
  = [["a"; "b"; "c"]; ["a"]; [""]; [""; ""]].
Proof. vm_compute. reflexivity. Qed.

Example ex_sub : re_sub_unsafe "v1.2.3!" = "v1.2.3-".
Proof. vm_compute. reflexivity. Qed.

Example ex_name : name sample_foo = "foo".
Proof. vm_compute. reflexivity. Qed.

Example ex_image :
  image sample_canonical_arch sample_foo "amd64" "r" "o" (Some "v") true true None
  = Ok "r/o/foo:v-LOOP-docs-amd64".
Proof. vm_compute. reflexivity. Qed.

Example ex_metadata : metadata sample_foo !! "TYPE" = Some "template-basic".
Proof. vm_compute. reflexivity. Qed.

(** ** Image names *)

Lemma assert_canonical_arch_ok (CANONICAL_ARCH : list string) (arch : string) :
  arch ∈ CANONICAL_ARCH → assert_canonical_arch CANONICAL_ARCH arch = Ok tt.
Proof. intros H. unfold assert_canonical_arch. by rewrite bool_decide_eq_true_2. Qed.

Lemma assert_canonical_arch_raise (CANONICAL_ARCH : list string) (arch : string) :
  arch ∉ CANONICAL_ARCH →
  ∃ msg, assert_canonical_arch CANONICAL_ARCH arch = Raise (ValueError msg).
Proof.
  intros H. unfold assert_canonical_arch. rewrite bool_decide_eq_false_2 by done. eauto.
Qed.

(** C3. On a project named [foo], [image(arch="amd64", registry="r",
    owner="o", version="v")] is [r/o/foo:v-amd64], and with [loop] and
    [docs] it is [r/o/foo:v-LOOP-docs-amd64]; for a canonical
    architecture the tag is
    [registry/owner/name:version[-extra][-LOOP][-docs]-arch]; for an
    architecture outside the canonical set the call raises, whatever the
    project and the other arguments are. *)
Theorem image_tag (CANONICAL_ARCH : list string) (p : DTProject) :
  (name p = "foo" → "amd64" ∈ CANONICAL_ARCH →
     image CANONICAL_ARCH p "amd64" "r" "o" (Some "v") false false None
       = Ok "r/o/foo:v-amd64"
     ∧ image CANONICAL_ARCH p "amd64" "r" "o" (Some "v") true true None
       = Ok "r/o/foo:v-LOOP-docs-amd64")
  ∧ (∀ arch registry owner version loop docs extra,
       arch ∈ CANONICAL_ARCH →
       image CANONICAL_ARCH p arch registry owner version loop docs extra
       = Ok (registry +:+ "/" +:+ owner +:+ "/" +:+ name p +:+ ":"
             +:+ default (safe_version_name p) version
             +:+ (match extra with
                  | Some (String c e) => "-" +:+ String c e
                  | _ => ""
                  end)
             +:+ (if loop then "-LOOP" else "")
             +:+ (if docs then "-docs" else "")
             +:+ "-" +:+ arch))
  ∧ (∀ arch registry owner version loop docs extra,
       arch ∉ CANONICAL_ARCH →
       ∃ msg, image CANONICAL_ARCH p arch registry owner version loop docs extra
              = Raise (ValueError msg)).
Proof.
  split; [|split].
  - intros Hname Hin. unfold image.
    rewrite (assert_canonical_arch_ok _ _ Hin), Hname. by split.
  - intros arch registry owner version loop docs extra Hin. unfold image.
    rewrite (assert_canonical_arch_ok _ _ Hin). simpl.
    by destruct version, extra as [[|c e]|].
  - intros arch registry owner version loop docs extra Hnin. unfold image.
    destruct (assert_canonical_arch_raise _ _ Hnin) as [msg ->]. by exists msg.
Qed.

Lemma image_tag_witness :
  image sample_canonical_arch sample_foo "amd64" "r" "o" (Some "v") false false None
    = Ok "r/o/foo:v-amd64"
  ∧ image sample_canonical_arch sample_foo "amd64" "r" "o" (Some "v") true true None
    = Ok "r/o/foo:v-LOOP-docs-amd64"
  ∧ image sample_canonical_arch sample_foo "arm64v8" "docker.io" "duckietown" None
      false true (Some "vscode")
    = Ok "docker.io/duckietown/foo:latest-vscode-docs-arm64v8"
  ∧ ∃ msg, image sample_canonical_arch sample_foo "x86" "r" "o" (Some "v") false false None
           = Raise (ValueError msg).
Proof.
  destruct (image_tag sample_canonical_arch sample_foo) as (Hfoo & Hgen & Hbad).
  destruct Hfoo as [H1 H2]; [reflexivity | by_decide |].
  split; [exact H1 | split; [exact H2 | split]].
  - rewrite Hgen by by_decide. reflexivity.
  - apply Hbad. by_decide.
Defined.

(** ** The metadata view of a layered project *)

Lemma metadata_v4_lookup (p : DTProject) (ly : Layers) (k : string) :
  _class p = DTProjectV4 ly →
  metadata p !! k =
    if decide (k = "PATH") then Some (path p)
    else if decide (k = "TYPE_VERSION") then Some (type_version p)
    else if decide (k = "TYPE") then Some (type p)
    else if decide (k = "VERSION") then Some (version p)
    else None.
Proof.
  intros Hc. unfold metadata. rewrite Hc.
  repeat (case_decide; [subst; by simplify_map_eq|]).
  by simplify_map_eq.
Qed.

(** C9. The metadata view of a layered (v4) project is the four-key
    dictionary [VERSION], [TYPE], [TYPE_VERSION], [PATH]; hence, when its
    type is [template-exercise] and no custom recipe directory is in
    force, [recipe_dir] raises [KeyError] on [RECIPE_REPOSITORY]. *)
Theorem v4_metadata_has_no_recipe_keys
    (get_recipe_project_dir : string -> string -> string -> string)
    (p : DTProject) (ly : Layers) :
  _class p = DTProjectV4 ly →
  dom (metadata p) = ({["VERSION"; "TYPE"; "TYPE_VERSION"; "PATH"]} : gset string)
  ∧ metadata p !! "VERSION" = Some (version p)
  ∧ metadata p !! "TYPE" = Some (type p)
  ∧ metadata p !! "TYPE_VERSION" = Some (type_version p)
  ∧ metadata p !! "PATH" = Some (path p)
  ∧ metadata p !! "RECIPE_REPOSITORY" = None
  ∧ metadata p !! "RECIPE_BRANCH" = None
  ∧ metadata p !! "RECIPE_LOCATION" = None
  ∧ (type p = "template-exercise" →
     truthy_opt (_custom_recipe_dir p) = false →
     recipe_dir get_recipe_project_dir p = Raise (KeyError "RECIPE_REPOSITORY")).
Proof.
  intros Hc.
  split.
  { unfold metadata. rewrite Hc. rewrite !dom_insert_L, dom_empty_L. set_solver. }
  repeat split; try (rewrite (metadata_v4_lookup p ly) by done; reflexivity).
  intros Ht Hcustom. unfold recipe_dir, needs_recipe, recipe_arguments, getitem.
  rewrite Ht, Hcustom. simpl.
  rewrite (metadata_v4_lookup p ly "RECIPE_REPOSITORY") by done. reflexivity.
Qed.

Lemma v4_metadata_has_no_recipe_keys_witness :
  dom (metadata (sample_v4 "/ws/ex" None "ex" "template-exercise" "3"))
    = ({["VERSION"; "TYPE"; "TYPE_VERSION"; "PATH"]} : gset string)
  ∧ recipe_dir (λ repository branch location, "/cache/" +:+ repository)
      (sample_v4 "/ws/ex" None "ex" "template-exercise" "3")
    = Raise (KeyError "RECIPE_REPOSITORY").
Proof.
  pose proof (v4_metadata_has_no_recipe_keys
                (λ repository branch location, "/cache/" +:+ repository)
                (sample_v4 "/ws/ex" None "ex" "template-exercise" "3")
                (sample_layers "ex" "template-exercise" "3") eq_refl)
    as (Hdom & _ & _ & _ & _ & _ & _ & _ & Hdir).
  split; [exact Hdom | apply Hdir; reflexivity].
Defined.

(** ** The adapters accessor *)

(** C10. [adapters] returns a copy of the internal list: the list it
    returns is a new object with the items of [_adapters]; the rest of
    the store is as before; whatever is done to the returned list, the
    project's own list keeps its items; and a second call returns a list
    equal to the first. *)
Theorem adapters_returns_copy (σ : store) (p : DTProject) (items : list string) :
  σ !! _adapters p = Some items →
  ∃ l σ1,
    adapters σ p = Some (l, σ1)
    ∧ l ≠ _adapters p
    ∧ σ1 !! l = Some items
    ∧ (∀ l', l' ≠ l → σ1 !! l' = σ !! l')
    ∧ (∀ items', <[l := items']> σ1 !! _adapters p = Some items)
    ∧ (∀ items', ∃ l2 σ2,
         adapters (<[l := items']> σ1) p = Some (l2, σ2)
         ∧ l2 ≠ l ∧ σ2 !! l2 = Some items)
    ∧ (∃ l2 σ2, adapters σ1 p = Some (l2, σ2) ∧ l2 ≠ l ∧ σ2 !! l2 = σ1 !! l).
Proof.
  intros Hitems.
  assert (Hfresh : fresh (dom σ) ≠ _adapters p).
  { intros Heq. apply (is_fresh (dom σ)). rewrite Heq. by apply elem_of_dom. }
  exists (fresh (dom σ)), (<[fresh (dom σ) := items]> σ).
  assert (Hcall : ∀ τ : store, τ !! _adapters p = Some items →
            fresh (dom σ) ∈ dom τ →
            ∃ l2 σ2, adapters τ p = Some (l2, σ2)
                     ∧ l2 ≠ fresh (dom σ) ∧ σ2 !! l2 = Some items).
  { intros τ Hτ Hdom. exists (fresh (dom τ)), (<[fresh (dom τ) := items]> τ).
    unfold adapters. rewrite Hτ. simpl. split_and!; [done| |by rewrite lookup_insert_eq].
    intros Heq. apply (is_fresh (dom τ)). by rewrite Heq. }
  split_and!.
  - unfold adapters. by rewrite Hitems.
  - done.
  - by rewrite lookup_insert_eq.
  - intros l' Hl'. by rewrite lookup_insert_ne.
  - intros items'. by rewrite !lookup_insert_ne.
  - intros items'. apply Hcall.
    + by rewrite !lookup_insert_ne.
    + rewrite dom_insert_L. set_solver.
  - rewrite lookup_insert_eq. apply Hcall.
    + by rewrite lookup_insert_ne.
    + rewrite dom_insert_L. set_solver.
Qed.

Lemma adapters_returns_copy_witness :
  ∃ l σ1,
    adapters sample_store sample_foo = Some (l, σ1)
    ∧ l ≠ 0%nat
    ∧ σ1 !! l = Some ["fs"; "git"; "dtproject"]
    ∧ <[l := ["tampered"]]> σ1 !! 0%nat = Some ["fs"; "git"; "dtproject"].
Proof.
  destruct (adapters_returns_copy sample_store sample_foo
              ["fs"; "git"; "dtproject"] eq_refl)
    as (l & σ1 & H1 & H2 & H3 & _ & H5 & _).
  exists l, σ1. split_and!; [exact H1 | exact H2 | exact H3 | apply H5].
Defined.

(** ** Text lemmas *)

Lemma lower_char_idem (c : ascii) : lower_char (lower_char c) = lower_char c.
Proof. destruct c as [[] [] [] [] [] [] [] []]; vm_compute; reflexivity. Qed.

Lemma isupper_lower_char (c : ascii) : isupper (lower_char c) = false.
Proof. destruct c as [[] [] [] [] [] [] [] []]; vm_compute; reflexivity. Qed.

Lemma lower_idem (s : string) : lower (lower s) = lower s.
Proof.
  induction s as [|c s IH]; [done|].
  unfold lower in *. simpl. by rewrite lower_char_idem, IH.
Qed.

Lemma lower_no_upper (s : string) : all_chars (λ c, negb (isupper c)) (lower s) = true.
Proof.
  induction s as [|c s IH]; [done|].
  unfold lower in *. simpl. by rewrite isupper_lower_char, IH.
Qed.

Lemma sub_unsafe_char_ascii (c : ascii) :
  (ord c <? 128)%nat = true →
  sub_unsafe_char c = if in_safe_class c then c else "-"%char.
Proof. destruct c as [[] [] [] [] [] [] [] []]; vm_compute; (reflexivity || discriminate). Qed.

Lemma re_sub_unsafe_ascii (s : string) :
  all_chars (λ c, (ord c <? 128)%nat) s = true → re_sub_unsafe s = spec_sanitize s.
Proof.
  induction s as [|c s IH]; [done|].
  simpl. intros [Hc Hs]%andb_true_iff.
  unfold re_sub_unsafe, spec_sanitize in *. simpl.
  by rewrite sub_unsafe_char_ascii, IH.
Qed.

Lemma re_sub_unsafe_length (s : string) :
  String.length (re_sub_unsafe s) = String.length s.
Proof. induction s as [|c s IH]; [done|]. unfold re_sub_unsafe in *. simpl. by rewrite IH. Qed.

(** ** Name resolution *)

Lemma name_lower (p : DTProject) : ∃ s, name p = lower s.
Proof. unfold name. destruct (_class p); eauto. Qed.

(** C7, as the specification words it, fails: in a working copy without
    [origin] remote the repository has no name, and the code falls back
    to the directory name. *)
Lemma name_precedence_as_worded_fails :
  _repository sample_unnamed_legacy = Some (sample_repository None "ND" 0 0)
  ∧ declared_name sample_unnamed_legacy = None
  ∧ name sample_unnamed_legacy = "my_project"
  ∧ Some (name sample_unnamed_legacy) ≠ spec_name sample_unnamed_legacy.
Proof. split_and!; [reflexivity | reflexivity | reflexivity |]. vm_compute. discriminate. Qed.

(** C7, amended.  The name is the declared one when the legacy file has
    a [NAME] key, or when the [name] of the [self] layer is not empty;
    otherwise the repository name when a repository was resolved and has
    a non-empty name; otherwise the base name of the directory; and it
    is lower-cased in every case. *)
Theorem name_precedence (p : DTProject) :
  (∀ info t tv v n,
     _class p = DTProjectV1to3 info t tv v → info !! "NAME" = Some n →
     name p = lower n)
  ∧ (∀ ly,
     _class p = DTProjectV4 ly → self_name (layer_self ly) ≠ "" →
     name p = lower (self_name (layer_self ly)))
  ∧ (∀ r n,
     declares_name p = false →
     _repository p = Some r → repo_name r = Some n → n ≠ "" →
     name p = lower n)
  ∧ (declares_name p = false →
     (_repository p = None
      ∨ ∃ r, _repository p = Some r ∧ (repo_name r = None ∨ repo_name r = Some "")) →
     name p = lower (basename (path p)))
  ∧ lower (name p) = name p
  ∧ all_chars (λ c, negb (isupper c)) (name p) = true.
Proof.
  assert (Hfallback : declares_name p = false →
            name p = lower (repository_or_directory_name p)).
  { unfold declares_name, name, str_or. destruct (_class p) as [info t tv v|ly].
    - intros Hd%bool_decide_eq_false. by destruct (info !! "NAME"); [destruct Hd|].
    - by intros ->. }
  split_and!.
  - intros info t tv v n Hc Hn. unfold name. by rewrite Hc, Hn.
  - intros ly Hc Hn. unfold name, str_or. rewrite Hc.
    by destruct (self_name (layer_self ly)).
  - intros r n Hd Hr Hn Hne. rewrite Hfallback by done.
    unfold repository_or_directory_name. rewrite Hr, Hn. by destruct n.
  - intros Hd Hrepo. rewrite Hfallback by done.
    unfold repository_or_directory_name.
    destruct Hrepo as [->|(r & -> & [->| ->])]; done.
  - destruct (name_lower p) as [s ->]. apply lower_idem.
  - destruct (name_lower p) as [s ->]. apply lower_no_upper.
Qed.

Lemma name_precedence_witness :
  name (sample_legacy "/ws/dir" None (<["NAME" := "My-Robot"]> ∅)) = "my-robot"
  ∧ name (sample_v4 "/ws/dir" (Some (sample_repository (Some "Repo") "ND" 0 0))
            "Declared" "template-basic" "4") = "declared"
  ∧ name (sample_v4 "/ws/dir" (Some (sample_repository (Some "DT-Core") "ND" 0 0))
            "" "template-basic" "4") = "dt-core"
  ∧ name sample_unnamed_legacy = "my_project".
Proof.
  split_and!.
  - destruct (name_precedence (sample_legacy "/ws/dir" None (<["NAME" := "My-Robot"]> ∅)))
      as (H & _).
    rewrite (H _ _ _ _ "My-Robot" eq_refl); [reflexivity | vm_compute; reflexivity].
  - destruct (name_precedence (sample_v4 "/ws/dir"
                (Some (sample_repository (Some "Repo") "ND" 0 0))
                "Declared" "template-basic" "4")) as (_ & H & _).
    rewrite (H _ eq_refl); [reflexivity | discriminate].
  - destruct (name_precedence (sample_v4 "/ws/dir"
                (Some (sample_repository (Some "DT-Core") "ND" 0 0))
                "" "template-basic" "4")) as (_ & _ & H & _).
    rewrite (H _ "DT-Core" eq_refl eq_refl eq_refl); [reflexivity | discriminate].
  - destruct (name_precedence sample_unnamed_legacy) as (_ & _ & _ & H & _).
    rewrite H; [reflexivity | vm_compute; reflexivity |].
    right. eexists. split; [reflexivity | by left].
Defined.

(** ** Release images *)

Lemma is_release_iff (p : DTProject) :
  is_release p = true ↔
  ∃ r, _repository p = Some r
       ∧ repo_index_nmodified r = 0%nat ∧ repo_index_nadded r = 0%nat
       ∧ repo_head_version r ≠ "ND".
Proof.
  unfold is_release, is_clean, head_version.
  destruct (_repository p) as [r|]; simpl.
  - destruct (Nat.eqb_spec (repo_index_nmodified r + repo_index_nadded r) 0) as [Hz|Hz]; simpl.
    + rewrite negb_true_iff, String.eqb_neq. split.
      * intros Hnd. exists r. split_and!; [done | lia | lia | done].
      * by intros (? & [= <-] & _ & _ & ?).
    + split; [done|]. intros (? & [= <-] & ? & ? & _). lia.
  - split; [done|]. by intros (? & ? & _).
Qed.

(** C4, as the specification words it, fails: the head tag [v1.0-café]
    is kept as it is, the accented letter being a word character for the
    regular expression, where the specification has it replaced. *)
Lemma image_release_as_worded_fails :
  is_release (sample_released sample_accented_tag) = true
  ∧ image_release sample_canonical_arch (sample_released sample_accented_tag)
      "amd64" "o" "r" false
    = Ok ("r/o/foo:" +:+ sample_accented_tag +:+ "-amd64")
  ∧ spec_sanitize sample_accented_tag = "v1.0-caf-"
  ∧ image_release sample_canonical_arch (sample_released sample_accented_tag)
      "amd64" "o" "r" false
    ≠ Ok ("r/o/foo:" +:+ spec_sanitize sample_accented_tag +:+ "-amd64").
Proof. split_and!; [reflexivity | reflexivity | reflexivity |]. vm_compute. discriminate. Qed.

(** C4, amended.  [image_release] raises [ValueError] whenever the
    project is not in a release state, that is unless a repository was
    resolved, no file is modified or added and the head tag is not [ND];
    on a project in a release state and a canonical architecture it
    returns [registry/owner/name:version[-docs]-arch], where [version] is
    the head tag with every character other than a word character of
    the regular expression, [-] and [.] replaced by [-]; on a head tag of
    ASCII characters these are the characters outside [[A-Za-z0-9_.-]]. *)
Theorem image_release_tag (CANONICAL_ARCH : list string) (p : DTProject)
    (arch owner registry : string) (docs : bool) :
  (is_release p = false →
     image_release CANONICAL_ARCH p arch owner registry docs
     = Raise (ValueError "The project repository is not in a release state"))
  ∧ (is_release p = false ↔
     _repository p = None
     ∨ ∃ r, _repository p = Some r
            ∧ (repo_index_nmodified r + repo_index_nadded r ≠ 0
               ∨ repo_head_version r = "ND"))
  ∧ (is_release p = true → arch ∈ CANONICAL_ARCH →
     image_release CANONICAL_ARCH p arch owner registry docs
     = Ok (registry +:+ "/" +:+ owner +:+ "/" +:+ name p +:+ ":"
           +:+ re_sub_unsafe (head_version p)
           +:+ (if docs then "-docs" else "") +:+ "-" +:+ arch))
  ∧ (all_chars (λ c, (ord c <? 128)%nat) (head_version p) = true →
     re_sub_unsafe (head_version p) = spec_sanitize (head_version p)).
Proof.
  split_and!.
  - intros Hrel. unfold image_release. by rewrite Hrel.
  - rewrite <- not_true_iff_false, is_release_iff. split.
    + intros Hno. destruct (_repository p) as [r|] eqn:Hr; [right|by left].
      exists r. split; [done|].
      destruct (decide (repo_index_nmodified r + repo_index_nadded r = 0)) as [Hz|Hz];
        [|by left].
      destruct (decide (repo_head_version r = "ND")) as [Hnd|Hnd]; [by right|].
      destruct Hno. exists r. split_and!; [done | lia | lia | done].
    + intros [Hnone|(r & Hr & Hbad)] (r' & Hr' & Hm & Ha & Hnd).
      * congruence.
      * assert (r' = r) as -> by congruence. destruct Hbad; [lia | done].
  - intros Hrel Hin. unfold image_release.
    by rewrite Hrel, (assert_canonical_arch_ok _ _ Hin).
  - apply re_sub_unsafe_ascii.
Qed.

Lemma image_release_tag_witness :
  image_release sample_canonical_arch (sample_released "v1.2.3!") "amd64" "o" "r" true
    = Ok "r/o/foo:v1.2.3--docs-amd64"
  ∧ image_release sample_canonical_arch
      (sample_v4 "/home/duckie/foo" (Some (sample_repository (Some "foo") "v1.2.3" 1 0))
         "foo" "template-basic" "4") "amd64" "o" "r" false
    = Raise (ValueError "The project repository is not in a release state")
  ∧ re_sub_unsafe "v1.2.3!" = spec_sanitize "v1.2.3!".
Proof.
  split_and!.
  - destruct (image_release_tag sample_canonical_arch (sample_released "v1.2.3!")
                "amd64" "o" "r" true) as (_ & _ & H & _).
    rewrite H; [reflexivity | reflexivity | by_decide].
  - eapply image_release_tag. reflexivity.
  - eapply (image_release_tag sample_canonical_arch (sample_released "v1.2.3!")
              "amd64" "o" "r" true). reflexivity.
Defined.

(** ** Configurations *)

(** C6, as the specification words it, fails: on template version [3],
    newer than [2], [configurations] raises nothing and returns the
    empty dictionary. *)
Lemma configurations_newer_version_not_refused :
  type_version (sample_foo_version "3") ≠ "2"
  ∧ configurations string sample_parse_configurations sample_fs_configurations
      (sample_foo_version "3") = Ok ∅
  ∧ ¬ (∃ msg, configurations string sample_parse_configurations sample_fs_configurations
                (sample_foo_version "3") = Raise (NotImplementedError msg)).
Proof.
  split_and!; [discriminate | reflexivity |]. intros [msg H]. discriminate H.
Qed.

(** C6, amended.  [configurations] raises [NotImplementedError] when the
    template version is an integer below 2; on template version ["2"]
    it is the parse of [configurations.yaml] at the project root when
    that is a file, and the empty dictionary otherwise; on every other
    template version that is an integer of at least 2 it is the empty
    dictionary, and nothing is raised. *)
Theorem configurations_by_version (Configuration : Type)
    (parse_configurations : FS -> string -> result (gmap string Configuration))
    (fs : FS) (p : DTProject) :
  (∀ v, py_int (type_version p) = Some v → (v < 2)%Z →
     ∃ msg, configurations Configuration parse_configurations fs p
            = Raise (NotImplementedError msg))
  ∧ (type_version p = "2" →
     configurations Configuration parse_configurations fs p
     = if isfile fs (join (_path p) "configurations.yaml")
       then parse_configurations fs (join (_path p) "configurations.yaml")
       else Ok ∅)
  ∧ (∀ v, py_int (type_version p) = Some v → (2 ≤ v)%Z → type_version p ≠ "2" →
     configurations Configuration parse_configurations fs p = Ok ∅).
Proof.
  split_and!.
  - intros v Hv Hlt. unfold configurations. rewrite Hv.
    rewrite (proj2 (Z.ltb_lt v 2)) by done. eauto.
  - intros Hv. unfold configurations. rewrite Hv. reflexivity.
  - intros v Hv Hle Hne. unfold configurations. rewrite Hv.
    rewrite (proj2 (Z.ltb_ge v 2)) by done.
    by rewrite (proj2 (String.eqb_neq _ _)).
Qed.

Lemma configurations_by_version_witness :
  (∃ msg, configurations string sample_parse_configurations sample_fs_configurations
            (sample_foo_version "1") = Raise (NotImplementedError msg))
  ∧ configurations string sample_parse_configurations sample_fs_configurations
      (sample_foo_version "2")
    = Ok {["default" := "/home/duckie/foo/configurations.yaml"]}
  ∧ configurations string sample_parse_configurations sample_fs_configurations
      (sample_foo_version "4") = Ok ∅.
Proof.
  split_and!.
  - eapply (configurations_by_version string sample_parse_configurations
              sample_fs_configurations (sample_foo_version "1"));
      [vm_compute; reflexivity | lia].
  - destruct (configurations_by_version string sample_parse_configurations
                sample_fs_configurations (sample_foo_version "2")) as (_ & H & _).
    rewrite H; reflexivity.
  - eapply (configurations_by_version string sample_parse_configurations
              sample_fs_configurations (sample_foo_version "4"));
      [vm_compute; reflexivity | lia | discriminate].
Defined.

(** ** Recipes *)

Lemma set_recipe_dir_active (p : DTProject) (d : string) :
  d ≠ "" → truthy_opt (_custom_recipe_dir (set_recipe_dir p d)) = true.
Proof. by destruct d. Qed.

Lemma update_cached_recipe_custom
    (update_recipe : string -> string -> string -> FS -> result bool * FS)
    (fs : FS) (p : DTProject) :
  truthy_opt (_custom_recipe_dir p) = true →
  update_cached_recipe update_recipe fs p = (Ok false, fs).
Proof.
  intros Hcustom. unfold update_cached_recipe. rewrite Hcustom.
  by rewrite andb_false_r.
Qed.

(** C8. With a custom recipe directory in force, [update_cached_recipe]
    and [ensure_recipe_updated] return [False] and leave the world as it
    is, the recipe client not being called; and when a recipe is needed,
    its directory is absent, cloning has been handed to the recipe
    client and the directory is still absent afterwards,
    [ensure_recipe_exists] raises [RecipeProjectNotFound]. *)
Theorem custom_recipe_not_updated_missing_recipe_reported
    (get_recipe_project_dir : string -> string -> string -> string)
    (update_recipe : string -> string -> string -> FS -> result bool * FS)
    (clone_recipe : string -> string -> string -> FS -> bool * FS)
    (fs : FS) (p : DTProject) :
  (truthy_opt (_custom_recipe_dir p) = true →
     update_cached_recipe update_recipe fs p = (Ok false, fs)
     ∧ ensure_recipe_updated update_recipe fs p = (Ok false, fs))
  ∧ (∀ d, d ≠ "" →
     update_cached_recipe update_recipe fs (set_recipe_dir p d) = (Ok false, fs)
     ∧ ensure_recipe_updated update_recipe fs (set_recipe_dir p d) = (Ok false, fs))
  ∧ (∀ d repository branch location cloned fs',
     needs_recipe p = true →
     recipe_dir get_recipe_project_dir p = Ok (Some d) →
     path_exists fs d = false →
     recipe_arguments p = Ok (repository, branch, location) →
     clone_recipe repository branch location fs = (cloned, fs') →
     path_exists fs' d = false →
     ∃ msg, ensure_recipe_exists get_recipe_project_dir clone_recipe fs p
            = (Raise (RecipeProjectNotFound msg), fs')).
Proof.
  split_and!.
  - intros Hcustom. unfold ensure_recipe_updated.
    by rewrite update_cached_recipe_custom.
  - intros d Hd. unfold ensure_recipe_updated.
    by rewrite update_cached_recipe_custom by (by apply set_recipe_dir_active).
  - intros d repository branch location cloned fs' Hneeds Hdir Hmissing Hargs Hclone Hstill.
    unfold ensure_recipe_exists, recipe_dir_exists, recipe_not_found.
    rewrite Hneeds, Hdir. simpl. rewrite Hmissing. simpl.
    rewrite Hargs, Hclone. destruct cloned; simpl.
    + rewrite Hstill. eauto.
    + eauto.
Qed.

Lemma custom_recipe_not_updated_missing_recipe_reported_witness :
  update_cached_recipe sample_update_recipe sample_fs
    (set_recipe_dir sample_exercise "/ws/my-recipe") = (Ok false, sample_fs)
  ∧ update_cached_recipe sample_update_recipe sample_fs sample_exercise
    = (Ok true, sample_fs)
  ∧ ∃ msg, ensure_recipe_exists sample_get_recipe_project_dir sample_clone_recipe
             sample_fs sample_exercise
           = (Raise (RecipeProjectNotFound msg), sample_fs).
Proof.
  destruct (custom_recipe_not_updated_missing_recipe_reported
              sample_get_recipe_project_dir sample_update_recipe sample_clone_recipe
              sample_fs sample_exercise) as (_ & Hset & Hmissing).
  split_and!.
  - apply Hset. discriminate.
  - reflexivity.
  - eapply Hmissing; reflexivity.
Defined.

(** ** Launchers *)

Lemma launchers_requires_template_2
    (REQUIRED_METADATA_KEYS : gmap string (list string))
    (REQUIRED_METADATA_PER_TYPE_KEYS : gmap string (gmap string (list string)))
    (load_yaml : FS -> string -> result (gmap string string))
    (LayerSelf_from_yaml_file : FS -> string -> result LayerSelf)
    (LayerTemplate_from_yaml_file : FS -> string -> result LayerTemplate)
    (LayerDistro_from_yaml_file : FS -> string -> result LayerDistro)
    (LayerBase_from_yaml_file : FS -> string -> result LayerBase)
    (make_dataclass : list string -> result unit)
    (run_cmd : list string -> outcome git_error (list string))
    (git_remote_url_to_https : string -> string)
    (get_recipe_project_dir : string -> string -> string -> string)
    (fs : FS) (σ : gmap nat (list string)) (p : DTProject) :
  (py_int (type_version p) = None ∨ ∃ v, py_int (type_version p) = Some v ∧ (v < 2)%Z) →
  ∃ msg, launchers REQUIRED_METADATA_KEYS REQUIRED_METADATA_PER_TYPE_KEYS load_yaml
    LayerSelf_from_yaml_file LayerTemplate_from_yaml_file LayerDistro_from_yaml_file
    LayerBase_from_yaml_file make_dataclass run_cmd git_remote_url_to_https
    get_recipe_project_dir fs σ p
         = Raise (NotImplementedError msg).
Proof.
  intros Hv. unfold launchers.
  assert ((default (-1) (py_int (type_version p)) <? 2)%Z = true) as ->; [|eauto].
  apply Z.ltb_lt. destruct Hv as [->|(v & -> & Hv)]; simpl; lia.
Qed.

(** Each round of the loop that finds a [launchers] directory throws
    away what the rounds before it collected. *)
Lemma launchers_loop_overwrites (fs : FS) (root : string) (paths : list string)
    (collected collected' : list string) :
  path_exists fs (join root "launchers") = true →
  launchers_loop fs (root :: paths) collected
  = launchers_loop fs (root :: paths) collected'.
Proof. intros Hex. simpl. rewrite Hex. simpl. reflexivity. Qed.

(** C5: the code departs from the claim.  The exercise has the launchers
    [default] and [test], its recipe [default] and [run]; [launchers]
    returns the recipe's two, and [test], which collides with nothing, is
    lost. *)
Theorem launchers_of_recipe_replace_those_of_project :
  launchers_loop sample_fs_launchers [path sample_exercise] [] = Ok ["default"; "test"]
  ∧ recipe_path sample_REQUIRED_METADATA_KEYS sample_REQUIRED_METADATA_PER_TYPE_KEYS
      sample_load_yaml sample_self_from_yaml sample_template_from_yaml
      sample_distro_from_yaml sample_base_from_yaml sample_make_dataclass
      sample_run_cmd sample_to_https sample_get_recipe_project_dir
      sample_fs_launchers sample_store sample_exercise
    = Ok "/cache/duckietown/recipe/ente/recipe"
  ∧ launchers_loop sample_fs_launchers ["/cache/duckietown/recipe/ente/recipe"] []
    = Ok ["default"; "run"]
  ∧ launchers sample_REQUIRED_METADATA_KEYS sample_REQUIRED_METADATA_PER_TYPE_KEYS
      sample_load_yaml sample_self_from_yaml sample_template_from_yaml
      sample_distro_from_yaml sample_base_from_yaml sample_make_dataclass
      sample_run_cmd sample_to_https sample_get_recipe_project_dir
      sample_fs_launchers sample_store sample_exercise
    = Ok ["default"; "run"]
  ∧ "test" ∉ ["default"; "run"].
Proof.
  split_and!; [vm_compute; reflexivity .. |].
  by_decide.
Qed.

(** ** The legacy descriptor *)

Lemma require_keys_first_missing (metafile : string) (metadata : gmap string string)
    (keys : list string) :
  require_keys metafile metadata keys =
    match first_missing keys metadata with
    | Some key => Raise (missing_key metafile key)
    | None => Ok tt
    end.
Proof.
  unfold require_keys, first_missing.
  induction keys as [|key keys IH]; [done|].
  simpl. rewrite filter_cons.
  destruct (metadata !! key) as [v|] eqn:Hkey.
  - rewrite bool_decide_eq_true_2 by eauto. rewrite decide_False by done.
    simpl. exact IH.
  - rewrite bool_decide_eq_false_2 by (by intros [? ?]). rewrite decide_True by done.
    reflexivity.
Qed.

Lemma first_missing_Some (keys : list string) (metadata : gmap string string)
    (key : string) :
  first_missing keys metadata = Some key →
  key ∈ keys ∧ metadata !! key = None.
Proof.
  unfold first_missing. intros Hhead%head_Some_elem_of.
  by apply list_elem_of_filter in Hhead as [? ?].
Qed.

Lemma first_missing_None (keys : list string) (metadata : gmap string string) :
  first_missing keys metadata = None ↔ ∀ key, key ∈ keys → is_Some (metadata !! key).
Proof.
  unfold first_missing. rewrite head_None. split.
  - intros Hnil key Hkey. destruct (metadata !! key) eqn:Hk; [eauto|].
    assert (key ∈ filter (λ key, metadata !! key = None) keys) as Hin
      by (by apply list_elem_of_filter).
    rewrite Hnil in Hin. by apply elem_of_nil in Hin.
  - intros Hall.
    destruct (filter (λ key, metadata !! key = None) keys) as [|key rest] eqn:Hf; [done|].
    assert (key ∈ filter (λ key, metadata !! key = None) keys) as Hin
      by (rewrite Hf; apply list_elem_of_here).
    apply list_elem_of_filter in Hin as [Hnone Hkey].
    destruct (Hall key Hkey) as [v Hv]. congruence.
Qed.

(** C2. On a legacy file that parses to a dictionary (its lines in the
    range of [upper]: none holds U+00B5 or U+00FF, whose upper-case forms
    are no characters of this model), the checks run in this order: the version-agnostic keys; [TYPE_VERSION] known and not
    the wildcard; the keys of that version; the keys of the declared
    type at that version.  The first check that fails decides the
    outcome: in particular, once the agnostic keys are there, a
    [TYPE_VERSION] that is [*] or missing from the table gives
    [UnsupportedDTProjectVersion], whatever other keys are missing, and
    never [MalformedDTProject]. *)
Theorem legacy_validation_order
    (REQUIRED_METADATA_KEYS : gmap string (list string))
    (REQUIRED_METADATA_PER_TYPE_KEYS : gmap string (gmap string (list string)))
    (fs : FS) (path : string) (lines : list string)
    (metadata : gmap string string) (agnostic : list string) :
  path_exists fs path = true →
  path_exists fs (join path ".dtproject") = true →
  readlines fs (join path ".dtproject") = Some lines →
  lines ≠ [] →
  Forall (λ line, upper_in_range line = true) lines →
  parse_metadata lines = Ok metadata →
  REQUIRED_METADATA_KEYS !! "*" = Some agnostic →
  let metafile := join path ".dtproject" in
  let outcome :=
    _get_project_info REQUIRED_METADATA_KEYS REQUIRED_METADATA_PER_TYPE_KEYS fs path in
  (∀ key, first_missing agnostic metadata = Some key →
     outcome = Raise (missing_key metafile key))
  ∧ (∀ version,
     first_missing agnostic metadata = None →
     metadata !! "TYPE_VERSION" = Some version →
     version = "*" ∨ REQUIRED_METADATA_KEYS !! version = None →
     outcome = Raise (unsupported_version version)
     ∧ ∀ msg, outcome ≠ Raise (MalformedDTProject msg))
  ∧ (∀ version specific key,
     first_missing agnostic metadata = None →
     metadata !! "TYPE_VERSION" = Some version →
     version ≠ "*" → REQUIRED_METADATA_KEYS !! version = Some specific →
     first_missing specific metadata = Some key →
     outcome = Raise (missing_key metafile key))
  ∧ (∀ version specific type key,
     first_missing agnostic metadata = None →
     metadata !! "TYPE_VERSION" = Some version →
     version ≠ "*" → REQUIRED_METADATA_KEYS !! version = Some specific →
     first_missing specific metadata = None →
     metadata !! "TYPE" = Some type →
     first_missing (per_type_keys REQUIRED_METADATA_PER_TYPE_KEYS type version) metadata
       = Some key →
     outcome = Raise (missing_key metafile key))
  ∧ (∀ version specific type,
     first_missing agnostic metadata = None →
     metadata !! "TYPE_VERSION" = Some version →
     version ≠ "*" → REQUIRED_METADATA_KEYS !! version = Some specific →
     first_missing specific metadata = None →
     metadata !! "TYPE" = Some type →
     first_missing (per_type_keys REQUIRED_METADATA_PER_TYPE_KEYS type version) metadata
       = None →
     outcome = Ok (<["PATH" := path]> metadata)).
Proof.
  intros Hpath Hfile Hlines Hne _ Hparse Hstar metafile outcome.
  assert (Hout : outcome
            = validate_metadata REQUIRED_METADATA_KEYS REQUIRED_METADATA_PER_TYPE_KEYS
                metafile path metadata).
  { subst outcome metafile. unfold _get_project_info.
    rewrite Hpath, Hfile, Hlines. simpl. destruct lines; [done|].
    by rewrite Hparse. }
  rewrite Hout. clear Hout outcome.
  unfold validate_metadata, getitem. rewrite Hstar. simpl.
  rewrite require_keys_first_missing.
  split_and!.
  - by intros key ->.
  - intros version -> Hv Hbad. simpl. rewrite Hv. simpl.
    assert (((version =? "*")%string
             || negb (bool_decide (is_Some (REQUIRED_METADATA_KEYS !! version)))) = true)
      as ->; [|by split].
    destruct Hbad as [->|Hnone]; [done|].
    rewrite Hnone, bool_decide_eq_false_2 by (by intros [? ?]).
    by rewrite orb_true_r.
  - intros version specific key -> Hv Hstar' Hspec Hmiss. simpl. rewrite Hv. simpl.
    rewrite (proj2 (String.eqb_neq _ _)) by done.
    rewrite Hspec, bool_decide_eq_true_2 by eauto. simpl.
    by rewrite require_keys_first_missing, Hmiss.
  - intros version specific type key -> Hv Hstar' Hspec Hmiss Ht Hmiss'.
    simpl. rewrite Hv. simpl.
    rewrite (proj2 (String.eqb_neq _ _)) by done.
    rewrite Hspec, bool_decide_eq_true_2 by eauto. simpl.
    rewrite require_keys_first_missing, Hmiss. simpl. rewrite Ht. simpl.
    unfold per_type_keys in Hmiss'.
    by rewrite require_keys_first_missing, Hmiss'.
  - intros version specific type -> Hv Hstar' Hspec Hmiss Ht Hmiss'.
    simpl. rewrite Hv. simpl.
    rewrite (proj2 (String.eqb_neq _ _)) by done.
    rewrite Hspec, bool_decide_eq_true_2 by eauto. simpl.
    rewrite require_keys_first_missing, Hmiss. simpl. rewrite Ht. simpl.
    unfold per_type_keys in Hmiss'.
    by rewrite require_keys_first_missing, Hmiss'.
Qed.

Lemma legacy_validation_order_witness :
  let info lines :=
    _get_project_info sample_REQUIRED_METADATA_KEYS sample_REQUIRED_METADATA_PER_TYPE_KEYS
      (sample_fs_descriptor lines) "/ws/p" in
  info ["# a project"; ""; "TYPE = template-basic"]
    = Raise (missing_key "/ws/p/.dtproject" "TYPE_VERSION")
  ∧ info ["type_version = *"] = Raise (unsupported_version "*")
  ∧ info ["TYPE_VERSION=9"] = Raise (unsupported_version "9")
  ∧ info ["TYPE_VERSION=3"; "TYPE=template-exercise"]
    = Raise (missing_key "/ws/p/.dtproject" "VERSION")
  ∧ info ["TYPE_VERSION=3"; "TYPE=template-exercise"; "VERSION=1.0"]
    = Raise (missing_key "/ws/p/.dtproject" "RECIPE_REPOSITORY")
  ∧ info ["TYPE_VERSION=3"; "TYPE=template-basic"; "VERSION=1.0"]
    = Ok (<["PATH" := "/ws/p"]> (<["VERSION" := "1.0"]> (<["TYPE" := "template-basic"]>
            (<["TYPE_VERSION" := "3"]> ∅)))).
Proof.
  intros info. unfold info.
  pose proof (λ lines metadata,
    legacy_validation_order sample_REQUIRED_METADATA_KEYS
      sample_REQUIRED_METADATA_PER_TYPE_KEYS (sample_fs_descriptor lines) "/ws/p"
      lines metadata ["TYPE_VERSION"] eq_refl eq_refl eq_refl) as H.
  cbv zeta in H.
  split_and!.
  - destruct (H ["# a project"; ""; "TYPE = template-basic"]
                (<["TYPE" := "template-basic"]> ∅)) as (H1 & _);
      [discriminate | by repeat constructor | vm_compute; reflexivity | reflexivity |].
    apply H1. vm_compute. reflexivity.
  - destruct (H ["type_version = *"] (<["TYPE_VERSION" := "*"]> ∅)) as (_ & H2 & _);
      [discriminate | by repeat constructor | vm_compute; reflexivity | reflexivity |].
    apply (H2 "*"); [vm_compute; reflexivity | vm_compute; reflexivity | by left].
  - destruct (H ["TYPE_VERSION=9"] (<["TYPE_VERSION" := "9"]> ∅)) as (_ & H2 & _);
      [discriminate | by repeat constructor | vm_compute; reflexivity | reflexivity |].
    apply (H2 "9"); [vm_compute; reflexivity | vm_compute; reflexivity | by right].
  - destruct (H ["TYPE_VERSION=3"; "TYPE=template-exercise"]
                (<["TYPE" := "template-exercise"]> (<["TYPE_VERSION" := "3"]> ∅)))
      as (_ & _ & H3 & _);
      [discriminate | by repeat constructor | vm_compute; reflexivity | reflexivity |].
    apply (H3 "3" ["TYPE"; "VERSION"]);
      [vm_compute; reflexivity | vm_compute; reflexivity | discriminate
      | reflexivity | vm_compute; reflexivity].
  - destruct (H ["TYPE_VERSION=3"; "TYPE=template-exercise"; "VERSION=1.0"]
                (<["VERSION" := "1.0"]> (<["TYPE" := "template-exercise"]>
                   (<["TYPE_VERSION" := "3"]> ∅))))
      as (_ & _ & _ & H4 & _);
      [discriminate | by repeat constructor | vm_compute; reflexivity | reflexivity |].
    apply (H4 "3" ["TYPE"; "VERSION"] "template-exercise");
      [vm_compute; reflexivity | vm_compute; reflexivity | discriminate
      | reflexivity | vm_compute; reflexivity | vm_compute; reflexivity
      | vm_compute; reflexivity].
  - destruct (H ["TYPE_VERSION=3"; "TYPE=template-basic"; "VERSION=1.0"]
                (<["VERSION" := "1.0"]> (<["TYPE" := "template-basic"]>
                   (<["TYPE_VERSION" := "3"]> ∅))))
      as (_ & _ & _ & _ & H5);
      [discriminate | by repeat constructor | vm_compute; reflexivity | reflexivity |].
    apply (H5 "3" ["TYPE"; "VERSION"] "template-basic");
      [vm_compute; reflexivity | vm_compute; reflexivity | discriminate
      | reflexivity | vm_compute; reflexivity | vm_compute; reflexivity
      | vm_compute; reflexivity].
Defined.

Example ex_strip :
  (strip "  a b  ", rstrip_char "/" "/a/b//", rstrip_char "/" "///", endswith "*" "packages/*",
   endswith "*" "packages", endswith "/" "", endswith ".sh" "run.sh")
  = ("a b", "/a/b", "", true, false, false, true).
Proof. vm_compute. reflexivity. Qed.

(** ** Path lemmas *)

Lemma app_cons (c : ascii) (s t : string) : String c s +:+ t = String c (s +:+ t).
Proof. reflexivity. Qed.

Lemma app_empty_l (t : string) : "" +:+ t = t.
Proof. reflexivity. Qed.

Lemma app_empty_r (s : string) : s +:+ "" = s.
Proof. induction s as [|c s IH]; [done|]. by rewrite app_cons, IH. Qed.

Lemma str_app_assoc (s t u : string) : (s +:+ t) +:+ u = s +:+ (t +:+ u).
Proof. induction s as [|c s IH]; [done|]. by rewrite !app_cons, IH. Qed.

Lemma split_not_nil (sep : ascii) (s : string) : split sep s ≠ [].
Proof.
  destruct s as [|c s]; [done|]. simpl.
  destruct (Ascii.eqb c sep); [done|]. by destruct (split sep s).
Qed.

Lemma split_app_sep (sep : ascii) (a b : string) :
  split sep (a +:+ String sep b) = split sep a ++ split sep b.
Proof.
  induction a as [|c a IH].
  - rewrite app_empty_l. simpl. by rewrite Ascii.eqb_refl.
  - rewrite app_cons. simpl. rewrite IH.
    destruct (Ascii.eqb c sep); [done|].
    pose proof (split_not_nil sep a). by destruct (split sep a).
Qed.

Lemma split_no_sep (sep : ascii) (s : string) :
  all_chars (λ a, negb (Ascii.eqb a sep)) s = true → split sep s = [s].
Proof.
  induction s as [|c s IH]; [done|].
  simpl. intros [Hc Hs]%andb_true_iff. apply negb_true_iff in Hc.
  by rewrite Hc, IH.
Qed.

Lemma sep_join_cons (sep c : string) (d : string) (comps : list string) :
  sep_join sep (c :: d :: comps) = c +:+ sep +:+ sep_join sep (d :: comps).
Proof. reflexivity. Qed.

Lemma sep_join_snoc (sep : string) (comps : list string) (c : string) :
  comps ≠ [] → sep_join sep (comps ++ [c]) = sep_join sep comps +:+ sep +:+ c.
Proof.
  induction comps as [|d comps IH]; [done|]. intros _.
  destruct comps as [|e comps]; [done|].
  change ((d :: e :: comps) ++ [c]) with (d :: ((e :: comps) ++ [c])).
  change ((e :: comps) ++ [c]) with (e :: (comps ++ [c])) at 1.
  rewrite sep_join_cons. change (e :: (comps ++ [c])) with ((e :: comps) ++ [c]).
  rewrite IH by done. rewrite sep_join_cons. by rewrite !str_app_assoc.
Qed.

Lemma clean_component_spec (c : string) :
  clean_component c = true →
  c ≠ "" ∧ c ≠ "." ∧ c ≠ ".." ∧ all_chars (λ a, negb (Ascii.eqb a "/")) c = true.
Proof.
  unfold clean_component. rewrite !andb_true_iff, !negb_true_iff, !String.eqb_neq.
  tauto.
Qed.

Lemma split_sep_join (comps : list string) :
  comps ≠ [] → clean comps → split "/" (sep_join "/" comps) = comps.
Proof.
  induction comps as [|c comps IH]; [done|]. intros _ Hclean.
  apply Forall_cons in Hclean as [Hc Hclean].
  apply clean_component_spec in Hc as (_ & _ & _ & Hc).
  destruct comps as [|d comps].
  - simpl. by apply split_no_sep.
  - rewrite sep_join_cons.
    change (c +:+ "/" +:+ sep_join "/" (d :: comps))
      with (c +:+ String "/" (sep_join "/" (d :: comps))).
    rewrite split_app_sep, split_no_sep by done. by rewrite IH.
Qed.

Lemma endswith_app (p s : string) : endswith p s = true → ∃ a, s = a +:+ p.
Proof.
  induction s as [|c s IH]; simpl.
  - rewrite orb_false_r. intros ->%String.eqb_eq. by exists "".
  - intros [->%String.eqb_eq|Hs]%orb_true_iff; [by exists ""|].
    destruct (IH Hs) as [a ->]. by exists (String c a).
Qed.

Lemma sep_join_truthy (comps : list string) :
  comps ≠ [] → clean comps → truthy (sep_join "/" comps) = true.
Proof.
  destruct comps as [|c comps]; [done|]. intros _ [Hc _]%Forall_cons.
  apply clean_component_spec in Hc as (Hc & _).
  destruct c as [|a c]; [done|]. by destruct comps.
Qed.

Lemma sep_join_not_endswith_sep (comps : list string) :
  comps ≠ [] → clean comps → endswith "/" (sep_join "/" comps) = false.
Proof.
  intros Hne Hclean. apply not_true_iff_false. intros [a Ha]%endswith_app.
  pose proof (split_sep_join comps Hne Hclean) as Hsplit.
  rewrite Ha in Hsplit.
  change (a +:+ "/") with (a +:+ String "/" "") in Hsplit.
  rewrite split_app_sep in Hsplit. simpl in Hsplit.
  assert (Hlast : last comps = Some "") by (by rewrite <- Hsplit, last_snoc).
  apply last_Some_elem_of in Hlast.
  rewrite Forall_forall in Hclean. by apply Hclean in Hlast.
Qed.

Lemma sep_join_not_startswith_sep (comps : list string) :
  clean comps → startswith "/" (sep_join "/" comps) = false.
Proof.
  destruct comps as [|c comps]; [done|]. intros [Hc _]%Forall_cons.
  apply clean_component_spec in Hc as (Hc & _ & _ & Hsep).
  destruct c as [|a c]; [done|]. simpl in Hsep.
  apply andb_true_iff in Hsep as [Ha _]. apply negb_true_iff in Ha.
  assert (Hhead : ∀ t, startswith "/" (String a t) = false).
  { intros t.
    change (startswith "/" (String a t))
      with (if Ascii.eqb "/" a then startswith "" t else false).
    by rewrite Ascii.eqb_sym, Ha. }
  destruct comps as [|d comps]; [apply Hhead|].
  rewrite sep_join_cons, app_cons. apply Hhead.
Qed.

Lemma join_clean (a b : string) :
  truthy a = true → endswith "/" a = false → startswith "/" b = false →
  join a b = a +:+ "/" +:+ b.
Proof. intros Ha He Hb. unfold join. by rewrite Hb, Ha, He. Qed.

Lemma join_many_clean (l p : list string) :
  l ≠ [] → clean (l ++ p) →
  foldl join (sep_join "/" l) p = sep_join "/" (l ++ p).
Proof.
  revert l. induction p as [|b p IH]; intros l Hne Hclean.
  - by rewrite app_nil_r.
  - simpl. apply Forall_app in Hclean as Hboth. destruct Hboth as [Hl Hbp].
    apply Forall_cons in Hbp as [Hb Hp].
    rewrite join_clean.
    + rewrite <- sep_join_snoc by done.
      rewrite IH; [by rewrite <- app_assoc | by destruct l | by rewrite <- app_assoc].
    + by apply sep_join_truthy.
    + by apply sep_join_not_endswith_sep.
    + apply (sep_join_not_startswith_sep [b]). by apply Forall_singleton.
Qed.

Lemma commonprefix_app (l1 l2 : list string) : commonprefix l1 (l1 ++ l2) = l1.
Proof. induction l1 as [|a l1 IH]; [by destruct l2|]. simpl. by rewrite String.eqb_refl, IH. Qed.

Lemma filter_truthy_clean (comps : list string) :
  clean comps → filter (λ x, truthy x = true) comps = comps.
Proof.
  induction comps as [|c comps IH]; [done|]. intros [Hc Hclean]%Forall_cons.
  apply clean_component_spec in Hc as (Hc & _).
  rewrite filter_cons, decide_True by (by destruct c). by rewrite IH.
Qed.

Lemma normpath_loop_clean (n : nat) (acc comps : list string) :
  clean comps → foldl (normpath_step n) acc comps = acc ++ comps.
Proof.
  revert acc. induction comps as [|c comps IH]; intros acc Hclean.
  - by rewrite app_nil_r.
  - apply Forall_cons in Hclean as [Hc Hclean].
    apply clean_component_spec in Hc as (H1 & H2 & H3 & _).
    simpl. unfold normpath_step at 2.
    rewrite (proj2 (String.eqb_neq c "")), (proj2 (String.eqb_neq c ".")),
      (proj2 (String.eqb_neq c "..")) by done.
    simpl. rewrite IH by done. by rewrite <- app_assoc.
Qed.

(** An absolute path of clean components is its own normal form, and
    splits back into its components. *)
Lemma normpath_absolute (comps : list string) :
  clean comps → normpath (absolute comps) = absolute comps.
Proof.
  intros Hclean. unfold normpath, absolute.
  change (truthy ("/" +:+ sep_join "/" comps)) with true. simpl negb. cbv iota.
  change (startswith "/" ("/" +:+ sep_join "/" comps)) with true. cbv iota.
  change (startswith "//" ("/" +:+ sep_join "/" comps))
    with (startswith "/" (sep_join "/" comps)).
  rewrite sep_join_not_startswith_sep by done. simpl andb. cbv iota.
  change (split "/" ("/" +:+ sep_join "/" comps))
    with ("" :: split "/" (sep_join "/" comps)).
  destruct comps as [|c comps]; [reflexivity|].
  rewrite split_sep_join by done.
  change (foldl (normpath_step 1) [] ("" :: c :: comps))
    with (foldl (normpath_step 1) [] (c :: comps)).
  rewrite normpath_loop_clean by done. reflexivity.
Qed.

Lemma components_absolute (cwd : string) (comps : list string) :
  clean comps →
  filter (λ x, truthy x = true) (split "/" (abspath cwd (absolute comps))) = comps.
Proof.
  intros Hclean. unfold abspath.
  change (isabs (absolute comps)) with true. cbv iota.
  rewrite normpath_absolute by done. unfold absolute.
  change (split "/" ("/" +:+ sep_join "/" comps))
    with ("" :: split "/" (sep_join "/" comps)).
  rewrite filter_cons, decide_False by done.
  destruct comps as [|c comps]; [reflexivity|].
  rewrite split_sep_join by done. by apply filter_truthy_clean.
Qed.

(** A path below [start] is, relative to [start], what follows it. *)
Lemma relpath_below (cwd : string) (comps rel : list string) :
  clean comps → clean rel → rel ≠ [] →
  relpath cwd (absolute (comps ++ rel)) (absolute comps) = Some (sep_join "/" rel).
Proof.
  intros Hcomps Hrel Hne. unfold relpath.
  change (truthy (absolute (comps ++ rel))) with true. simpl negb. cbv iota.
  rewrite !components_absolute by (by try apply Forall_app).
  rewrite commonprefix_app, Nat.sub_diag, drop_app_length. simpl.
  destruct rel as [|a p]; [done|]. unfold join_many. f_equal.
  apply (join_many_clean [a] p); done.
Qed.

Lemma rstrip_by_last (f : ascii -> bool) (s a : string) (c : ascii) :
  rstrip_by f s = a +:+ String c "" → f c = false.
Proof.
  revert a. induction s as [|x s IH]; intros a; simpl.
  - by destruct a.
  - destruct (rstrip_by f s) as [|y r] eqn:Hr.
    + destruct (f x) eqn:Hx; [by destruct a|].
      destruct a as [|z a]; [by intros [= <-]|].
      rewrite app_cons. intros [= _ Ha]. by destruct a.
    + destruct a as [|z a]; [rewrite app_empty_l; by intros [= _ ?]|].
      rewrite app_cons. intros [= _ Ha]. by apply (IH a).
Qed.

Lemma rstrip_char_not_endswith (c : ascii) (s : string) :
  endswith (String c "") (rstrip_char c s) = false.
Proof.
  apply not_true_iff_false. intros [a Ha]%endswith_app.
  apply rstrip_by_last in Ha. by rewrite Ascii.eqb_refl in Ha.
Qed.

Lemma filter_names_clean (comps : list string) :
  clean comps →
  filter (λ x, ((x =? "")%string || (x =? ".")%string) = false) comps = comps.
Proof.
  induction comps as [|c comps IH]; [done|]. intros [Hc Hclean]%Forall_cons.
  apply clean_component_spec in Hc as (H1 & H2 & _).
  rewrite filter_cons, decide_True, IH; [done..|].
  by rewrite (proj2 (String.eqb_neq c "")), (proj2 (String.eqb_neq c ".")).
Qed.

(** The name of a path whose last components are clean is its last
    component, whatever it is joined to. *)
Lemma path_name_join (a : string) (rel : list string) (c : string) :
  clean rel → last rel = Some c → path_name (join a (sep_join "/" rel)) = c.
Proof.
  intros Hclean Hlast.
  assert (Hne : rel ≠ []) by (by destruct rel).
  assert (Hplain : path_name (sep_join "/" rel) = c).
  { unfold path_name. rewrite split_sep_join by done.
    rewrite filter_names_clean by done. by rewrite Hlast. }
  assert (Hunder : ∀ a', path_name (a' +:+ "/" +:+ sep_join "/" rel) = c).
  { intros a'. unfold path_name.
    change (a' +:+ "/" +:+ sep_join "/" rel) with (a' +:+ String "/" (sep_join "/" rel)).
    rewrite split_app_sep, split_sep_join by done.
    rewrite filter_app, (filter_names_clean rel) by done.
    by rewrite last_app, Hlast. }
  unfold join. rewrite sep_join_not_startswith_sep by done.
  destruct (truthy a) eqn:Ha; simpl.
  - destruct (endswith "/" a) eqn:He; [|apply Hunder].
    apply endswith_app in He as [a' ->]. rewrite str_app_assoc. apply Hunder.
  - destruct a; [|done]. by rewrite app_empty_l.
Qed.

Lemma stem_join (a : string) (rel : list string) (c : string) :
  clean rel → last rel = Some c → stem (join a (sep_join "/" rel)) = stem_of_name c.
Proof. intros Hclean Hlast. unfold stem. by rewrite (path_name_join a rel c). Qed.

Lemma map_result_ok {A B} (f : A -> result B) (g : A -> B) (xs : list A) :
  (∀ x, x ∈ xs → f x = Ok (g x)) → map_result f xs = Ok (map g xs).
Proof.
  induction xs as [|x xs IH]; [done|]. intros Hf. simpl.
  rewrite (Hf x) by apply list_elem_of_here. simpl.
  rewrite IH; [done|]. intros y Hy. apply Hf. by apply list_elem_of_further.
Qed.

Lemma template_entry_found {A} (TABLE : template_table A) (p : DTProject) (msg : string)
    (versions : gmap string A) (entry : A) :
  TABLE !! type p = Some versions → versions !! type_version p = Some entry →
  template_entry TABLE p msg = Ok entry.
Proof. intros Ht Hv. unfold template_entry. by rewrite Ht, Hv. Qed.

Lemma rstrip_char_id (c : ascii) (s : string) :
  endswith (String c "") s = false → rstrip_char c s = s.
Proof.
  unfold rstrip_char. induction s as [|a s IH]; [done|].
  change (endswith (String c "") (String a s))
    with ((String c "" =? String a s)%string || endswith (String c "") s).
  intros [Hhead Htail]%orb_false_iff.
  change (rstrip_by (Ascii.eqb c) (String a s))
    with (match rstrip_by (Ascii.eqb c) s with
          | EmptyString => if Ascii.eqb c a then EmptyString else String a EmptyString
          | r => String a r
          end).
  rewrite IH by done. destruct s as [|b s]; [|done].
  change (String c "" =? String a "")%string
    with (Ascii.eqb c a && (EmptyString =? EmptyString)%string) in Hhead.
  rewrite andb_true_r in Hhead. by rewrite Hhead.
Qed.

Lemma split_pieces (sep : ascii) (s : string) :
  Forall (λ piece, all_chars (λ a, negb (Ascii.eqb a sep)) piece = true) (split sep s).
Proof.
  induction s as [|c s IH]; [by repeat constructor|]. simpl.
  destruct (Ascii.eqb c sep) eqn:Hc; [by constructor|].
  destruct (split sep s) as [|piece rest].
  - constructor; [|constructor]. simpl. by rewrite Hc.
  - apply Forall_cons in IH as [Hpiece Hrest]. constructor; [|done].
    simpl. by rewrite Hc, Hpiece.
Qed.

Lemma endswith_app_r (p a : string) : endswith p (a +:+ p) = true.
Proof.
  induction a as [|c a IH].
  - rewrite app_empty_l. destruct p; simpl; by rewrite ?Ascii.eqb_refl, ?String.eqb_refl.
  - rewrite app_cons.
    change (endswith p (String c (a +:+ p)))
      with ((p =? String c (a +:+ p))%string || endswith p (a +:+ p)).
    by rewrite IH, orb_true_r.
Qed.

Lemma not_endswith_sep (prefix n : string) :
  n ≠ "" → all_chars (λ a, negb (Ascii.eqb a "/")) n = true →
  endswith "/" (prefix +:+ "/" +:+ n) = false.
Proof.
  intros Hne Hn. apply not_true_iff_false. intros [b Hb]%endswith_app.
  apply (f_equal (split "/")) in Hb.
  change (prefix +:+ "/" +:+ n) with (prefix +:+ String "/" n) in Hb.
  change (b +:+ "/") with (b +:+ String "/" "") in Hb.
  rewrite !split_app_sep, (split_no_sep "/" n) in Hb by done.
  change (split "/" "") with [""] in Hb.
  apply (f_equal last) in Hb. rewrite !last_snoc in Hb. by injection Hb.
Qed.

(** C1, as the specification words it, fails: the directory [my.pkg]
    is paired with the destination ending in [my], its stem, and not in
    [my.pkg], its final path segment. *)
Lemma code_paths_final_segment_fails :
  filter (λ m, isdir sample_fs_packages m = true)
    (glob sample_fs_packages (join (path sample_robot) "packages/*"))
    = ["/ws/robot/packages/a"; "/ws/robot/packages/my.pkg"]
  ∧ code_paths sample_TEMPLATE_TO_SRC sample_fs_packages sample_robot None
    = Ok (["/ws/robot/packages/a"; "/ws/robot/packages/my.pkg"],
          ["/code/catkin_ws/src/robot/packages/a"; "/code/catkin_ws/src/robot/packages/my"])
  ∧ spec_destinations "/code/catkin_ws/src/robot/packages"
      ["/ws/robot/packages/a"; "/ws/robot/packages/my.pkg"]
    = ["/code/catkin_ws/src/robot/packages/a"; "/code/catkin_ws/src/robot/packages/my.pkg"]
  ∧ code_paths sample_TEMPLATE_TO_SRC sample_fs_packages sample_robot None
    ≠ Ok (["/ws/robot/packages/a"; "/ws/robot/packages/my.pkg"],
          spec_destinations "/code/catkin_ws/src/robot/packages"
            ["/ws/robot/packages/a"; "/ws/robot/packages/my.pkg"]).
Proof.
  split_and!; [vm_compute; reflexivity .. |]. vm_compute. discriminate.
Qed.

(** A component that [normpath] keeps: not empty, without separator. *)
Lemma normpath_step_pieces (n : nat) (acc : list string) (comp : string) :
  Forall (λ c, c ≠ "" ∧ all_chars (λ a, negb (Ascii.eqb a "/")) c = true) acc →
  all_chars (λ a, negb (Ascii.eqb a "/")) comp = true →
  Forall (λ c, c ≠ "" ∧ all_chars (λ a, negb (Ascii.eqb a "/")) c = true)
    (normpath_step n acc comp).
Proof.
  intros Hacc Hcomp. unfold normpath_step.
  destruct (String.eqb_spec comp "") as [->|Hne]; [done|]. cbn [orb].
  destruct (comp =? ".")%string; [done|].
  match goal with |- context [if ?b then _ else _] => destruct b end.
  - apply Forall_app. split; [done|]. by repeat constructor.
  - destruct acc as [|c acc _] using rev_ind; [done|].
    rewrite removelast_last. by apply Forall_app in Hacc as [? _].
Qed.

Lemma normpath_loop_pieces (n : nat) (acc comps : list string) :
  Forall (λ c, c ≠ "" ∧ all_chars (λ a, negb (Ascii.eqb a "/")) c = true) acc →
  Forall (λ c, all_chars (λ a, negb (Ascii.eqb a "/")) c = true) comps →
  Forall (λ c, c ≠ "" ∧ all_chars (λ a, negb (Ascii.eqb a "/")) c = true)
    (foldl (normpath_step n) acc comps).
Proof.
  revert acc. induction comps as [|c comps IH]; intros acc Hacc Hcomps; [done|].
  apply Forall_cons in Hcomps as [Hc Hcomps]. simpl.
  apply IH; [|done]. by apply normpath_step_pieces.
Qed.

Lemma piece_not_endswith_sep (n : string) :
  n ≠ "" → all_chars (λ a, negb (Ascii.eqb a "/")) n = true → endswith "/" n = false.
Proof.
  intros Hne Hn. apply not_true_iff_false. intros [b Hb]%endswith_app.
  apply (f_equal (split "/")) in Hb.
  change (b +:+ "/") with (b +:+ String "/" "") in Hb.
  rewrite split_app_sep, (split_no_sep "/" n) in Hb by done.
  change (split "/" "") with [""] in Hb.
  pose proof (split_not_nil "/" b) as Hnil.
  destruct (split "/" b); [done|]. by destruct l.
Qed.

Lemma endswith_sep_app (prefix n : string) :
  n ≠ "" → endswith "/" (prefix +:+ n) = endswith "/" n.
Proof.
  intros Hne. induction prefix as [|c prefix IH]; [done|].
  rewrite app_cons.
  change (endswith "/" (String c (prefix +:+ n)))
    with (("/" =? String c (prefix +:+ n))%string || endswith "/" (prefix +:+ n)).
  rewrite IH.
  assert (("/" =? String c (prefix +:+ n))%string = false) as ->; [|done].
  apply String.eqb_neq. intros [= _ Hnil]. destruct prefix; [|done].
  by rewrite app_empty_l in Hnil.
Qed.

Lemma truthy_app_r (prefix n : string) : n ≠ "" → truthy (prefix +:+ n) = true.
Proof. intros Hne. destruct prefix; [by destruct n | done]. Qed.

(** [os.path.normpath] ends in a separator only when it returns [/] or
    [//]. *)
Lemma normpath_trailing_sep (path : string) :
  normpath path = "/" ∨ normpath path = "//" ∨ endswith "/" (normpath path) = false.
Proof.
  unfold normpath. destruct (truthy path); [|by right; right]. cbn [negb].
  set (initial_slashes := if startswith "/" path then _ else 0%nat).
  pose proof (normpath_loop_pieces initial_slashes [] (split "/" path)
                (Forall_nil_2 _) (split_pieces "/" path)) as Hcomps.
  assert (Hslashes : initial_slashes = 0%nat ∨ initial_slashes = 1%nat
                     ∨ initial_slashes = 2%nat).
  { subst initial_slashes. destruct (startswith "/" path); [|by left].
    destruct (startswith "//" path && negb (startswith "///" path)); auto. }
  destruct (foldl (normpath_step initial_slashes) [] (split "/" path))
    as [|n comps _] using rev_ind.
  - destruct Hslashes as [->| [->| ->]]; [right; right|left|right; left]; reflexivity.
  - apply Forall_app in Hcomps as [_ [[Hne Hn] _]%Forall_cons].
    right; right.
    assert (Hjoin : ∃ prefix, sep_join "/" (comps ++ [n]) = prefix +:+ n).
    { destruct comps as [|c comps]; [by exists ""|].
      rewrite sep_join_snoc by done. exists (sep_join "/" (c :: comps) +:+ "/").
      by rewrite str_app_assoc. }
    destruct Hjoin as [prefix ->]. rewrite <- str_app_assoc.
    unfold str_or. rewrite truthy_app_r by done.
    rewrite endswith_sep_app by done. by apply piece_not_endswith_sep.
Qed.

(** The effective root is the absolute form of the root given, unless
    that is the root of the file system ([/] or [//]), which stripping
    the separators leaves empty. *)
Lemma effective_root_abspath (fs : FS) (p : DTProject) (root : option string) :
  effective_root fs p root ≠ "" →
  effective_root fs p root
  = abspath (getcwd fs) (if truthy_opt root then default "" root else path p).
Proof.
  unfold effective_root, abspath.
  set (given := if isabs _ then _ else _).
  destruct (normpath_trailing_sep given) as [->| [->| Hend]]; [done..|].
  intros _. by apply rstrip_char_id.
Qed.

Lemma normpath_truthy (path : string) : truthy (normpath path) = true.
Proof.
  unfold normpath. destruct (truthy path); [|done]. cbn [negb]. unfold str_or.
  by match goal with |- context [if truthy ?s then _ else _] =>
       destruct (truthy s) eqn:Hs; [exact Hs|] end.
Qed.

(** C1, amended.  For a project whose type and type version have an
    entry in the table, with local-spec [local] and fixed destination
    [destination], and an effective root that is not the root of the
    file system: [code_paths] and [assets_paths] run the same
    resolution; the effective root is the absolute form of the override
    root, or of the project path when no root (or an empty one) is
    given, and has no trailing separator; if [local] does not end in
    [*] the result is the one pair made of the effective root joined
    with [local], which is the root, [/] and [local] for a relative
    [local], and [destination]; if it does, the pattern globbed is the
    project path joined with [local], whatever the root, the matches
    that are directories are kept in their order, and the match with
    components [rel] below the project path is paired with the effective
    root, [/] and [rel], and with [destination] joined with the stem of
    the last component of [rel]. *)
Theorem pattern_paths_expansion
    (TABLE : template_table (string -> string * string))
    (fs : FS) (p : DTProject) (root : option string)
    (versions : gmap string (string -> string * string))
    (entry : string -> string * string) (local destination : string) :
  TABLE !! type p = Some versions →
  versions !! type_version p = Some entry →
  entry (name p) = (local, destination) →
  let effective :=
    abspath (getcwd fs) (if truthy_opt root then default "" root else path p) in
  effective ≠ "/" → effective ≠ "//" →
  let matches :=
    filter (λ m, isdir fs m = true) (glob fs (join (path p) local)) in
  assets_paths TABLE fs p root = code_paths TABLE fs p root
  ∧ effective_root fs p root = effective
  ∧ endswith "/" effective = false
  ∧ (endswith "*" local = false →
     code_paths TABLE fs p root = Ok ([join effective local], [destination])
     ∧ (startswith "/" local = false → join effective local = effective +:+ "/" +:+ local))
  ∧ (∀ comps,
     endswith "*" local = true →
     path p = absolute comps → clean comps →
     (∀ m, m ∈ matches → ∃ rel, rel ≠ [] ∧ clean rel ∧ m = absolute (comps ++ rel)) →
     ∃ locals destinations,
       code_paths TABLE fs p root = Ok (locals, destinations)
       ∧ length locals = length matches
       ∧ length destinations = length matches
       ∧ ∀ i rel c,
           matches !! i = Some (absolute (comps ++ rel)) →
           clean rel → last rel = Some c →
           locals !! i = Some (effective +:+ "/" +:+ sep_join "/" rel)
           ∧ destinations !! i = Some (join destination (stem_of_name c))).
Proof.
  intros Ht Hv Hentry effective Hroot Hroot' matches.
  assert (Hend : endswith "/" effective = false).
  { destruct (normpath_trailing_sep
                (if isabs (if truthy_opt root then default "" root else path p)
                 then (if truthy_opt root then default "" root else path p)
                 else join (getcwd fs)
                        (if truthy_opt root then default "" root else path p)))
      as [H| [H| H]]; [by destruct Hroot | by destruct Hroot' | exact H]. }
  assert (Heff : effective_root fs p root = effective)
    by (by apply rstrip_char_id).
  assert (Htruthy : truthy effective = true) by apply normpath_truthy.
  split_and!.
  - reflexivity.
  - exact Heff.
  - exact Hend.
  - intros Hplain. split.
    + unfold code_paths, pattern_paths.
      rewrite (template_entry_found _ _ _ _ _ Ht Hv). simpl.
      by rewrite Hentry, Hplain, Heff.
    + intros Hrel. by apply join_clean.
  - intros comps Hpattern Hpath Hcomps Hbelow.
    set (rewrite_prefix := λ m,
           join (effective_root fs p root)
                (default "" (relpath (getcwd fs) m (path p)))).
    exists (map rewrite_prefix matches),
           (map (λ loc, join destination (stem loc)) (map rewrite_prefix matches)).
    assert (Hrel : ∀ rel, rel ≠ [] → clean rel →
              relpath (getcwd fs) (absolute (comps ++ rel)) (path p)
              = Some (sep_join "/" rel)).
    { intros rel Hne Hrel. rewrite Hpath. by apply relpath_below. }
    split_and!.
    + unfold code_paths, pattern_paths.
      rewrite (template_entry_found _ _ _ _ _ Ht Hv). simpl.
      rewrite Hentry, Hpattern. fold matches.
      rewrite (map_result_ok _ rewrite_prefix); [done|].
      intros m Hm. destruct (Hbelow m Hm) as (rel & Hne & Hclean & ->).
      unfold rewrite_prefix. by rewrite Hrel.
    + by rewrite length_map.
    + by rewrite !length_map.
    + intros i rel c Hi Hclean Hlast.
      assert (Hne : rel ≠ []) by (by destruct rel).
      assert (Hloc : map rewrite_prefix matches !! i
                = Some (join (effective_root fs p root) (sep_join "/" rel))).
      { rewrite list_lookup_fmap, Hi. simpl. unfold rewrite_prefix.
        by rewrite Hrel. }
      split.
      * rewrite Hloc, Heff. f_equal. apply join_clean; [done..|].
        by apply sep_join_not_startswith_sep.
      * rewrite list_lookup_fmap, Hloc. simpl.
        by rewrite (stem_join _ rel c).
Qed.

Lemma pattern_paths_expansion_witness :
  (∃ locals destinations,
     code_paths sample_TEMPLATE_TO_SRC sample_fs_packages sample_robot
       (Some "/mnt/remote/") = Ok (locals, destinations)
     ∧ length locals = 2%nat
     ∧ locals !! 1%nat = Some "/mnt/remote/packages/my.pkg"
     ∧ destinations !! 1%nat = Some "/code/catkin_ws/src/robot/packages/my")
  ∧ code_paths sample_TEMPLATE_TO_SRC sample_fs_packages (sample_foo_version "4") None
    = Ok (["/home/duckie/foo/packages"], ["/code/foo"]).
Proof.
  split.
  - destruct (pattern_paths_expansion sample_TEMPLATE_TO_SRC sample_fs_packages
                sample_robot (Some "/mnt/remote/") {["3" := sample_pattern_entry]}
                sample_pattern_entry "packages/*" "/code/catkin_ws/src/robot/packages"
                eq_refl eq_refl eq_refl) as (_ & _ & _ & _ & H);
      [vm_compute; discriminate | vm_compute; discriminate |].
    destruct (H ["ws"; "robot"] eq_refl eq_refl) as (locals & destinations & Hc & Hl & _ & Hi).
    + repeat constructor.
    + intros m Hm.
      change (m ∈ ["/ws/robot/packages/a"; "/ws/robot/packages/my.pkg"]) in Hm.
      rewrite !elem_of_cons, elem_of_nil in Hm. destruct Hm as [->|[->|[]]].
      * exists ["packages"; "a"]. split_and!; [done | repeat constructor | reflexivity].
      * exists ["packages"; "my.pkg"]. split_and!; [done | repeat constructor | reflexivity].
    + exists locals, destinations.
      destruct (Hi 1%nat ["packages"; "my.pkg"] "my.pkg" eq_refl) as [H1 H2];
        [repeat constructor | reflexivity |].
      split_and!; [exact Hc | exact Hl | |].
      * rewrite H1. vm_compute. reflexivity.
      * rewrite H2. vm_compute. reflexivity.
  - destruct (pattern_paths_expansion sample_TEMPLATE_TO_SRC sample_fs_packages
                (sample_foo_version "4") None {["4" := sample_plain_entry]}
                sample_plain_entry "packages" "/code/foo"
                eq_refl eq_refl eq_refl) as (_ & _ & _ & H & _);
      [vm_compute; discriminate | vm_compute; discriminate |].
    destruct (H eq_refl) as [H' _]. rewrite H'. reflexivity.
Defined.

(** With the root of the file system as override root the effective
    root is empty and the locals come out relative: the case that the
    amended C1 leaves out. *)
Example code_paths_under_filesystem_root :
  effective_root sample_fs_packages sample_robot (Some "/") = ""
  ∧ code_paths sample_TEMPLATE_TO_SRC sample_fs_packages sample_robot (Some "/")
    = Ok (["packages/a"; "packages/my.pkg"],
          ["/code/catkin_ws/src/robot/packages/a"; "/code/catkin_ws/src/robot/packages/my"]).
Proof. split; vm_compute; reflexivity. Qed.

(** * Further properties *)

(** ** More on the legacy descriptor *)

Lemma bind_Ok {A B} (m : result A) (f : A -> result B) (b : B) :
  m ≫= f = Ok b → ∃ a, m = Ok a ∧ f a = Ok b.
Proof. destruct m as [a|e]; [eauto | done]. Qed.

Lemma require_keys_Ok (metafile : string) (metadata : gmap string string)
    (keys : list string) :
  require_keys metafile metadata keys = Ok tt →
  ∀ key, key ∈ keys → is_Some (metadata !! key).
Proof.
  rewrite require_keys_first_missing.
  destruct (first_missing keys metadata) eqn:Hm; [done|]. intros _.
  by apply first_missing_None.
Qed.

Lemma validate_metadata_Ok
    (REQUIRED_METADATA_KEYS : gmap string (list string))
    (REQUIRED_METADATA_PER_TYPE_KEYS : gmap string (gmap string (list string)))
    (metafile path : string) (metadata info : gmap string string) :
  validate_metadata REQUIRED_METADATA_KEYS REQUIRED_METADATA_PER_TYPE_KEYS
    metafile path metadata = Ok info →
  info = <["PATH" := path]> metadata
  ∧ ∃ version agnostic specific type,
      metadata !! "TYPE_VERSION" = Some version ∧ version ≠ "*"
      ∧ REQUIRED_METADATA_KEYS !! "*" = Some agnostic
      ∧ REQUIRED_METADATA_KEYS !! version = Some specific
      ∧ metadata !! "TYPE" = Some type
      ∧ ∀ key,
          key ∈ agnostic ++ specific
                ++ per_type_keys REQUIRED_METADATA_PER_TYPE_KEYS type version →
          is_Some (metadata !! key).
Proof.
  unfold validate_metadata, getitem.
  destruct (REQUIRED_METADATA_KEYS !! "*") as [agnostic|] eqn:Hstar; [|done]. simpl.
  destruct (require_keys metafile metadata agnostic) as [[]|] eqn:Hagn; [|done]. simpl.
  destruct (metadata !! "TYPE_VERSION") as [version|] eqn:Hv; [|done]. simpl.
  destruct (String.eqb_spec version "*") as [->|Hnot]; [done|]. simpl.
  destruct (REQUIRED_METADATA_KEYS !! version) as [specific|] eqn:Hspec;
    [|by rewrite bool_decide_eq_false_2 by (by intros [? ?])].
  rewrite bool_decide_eq_true_2 by eauto. simpl.
  destruct (require_keys metafile metadata specific) as [[]|] eqn:Hsp; [|done]. simpl.
  destruct (metadata !! "TYPE") as [type|] eqn:Ht; [|done]. simpl.
  fold (per_type_keys REQUIRED_METADATA_PER_TYPE_KEYS type version).
  destruct (require_keys metafile metadata
              (per_type_keys REQUIRED_METADATA_PER_TYPE_KEYS type version))
    as [[]|] eqn:Hpt; [|done]. simpl.
  intros [= <-]. split; [done|].
  exists version, agnostic, specific, type. split_and!; try done.
  intros key. rewrite !elem_of_app. intros [Hk|[Hk|Hk]].
  - by apply (require_keys_Ok metafile metadata agnostic).
  - by apply (require_keys_Ok metafile metadata specific).
  - by apply (require_keys_Ok metafile metadata
                (per_type_keys REQUIRED_METADATA_PER_TYPE_KEYS type version)).
Qed.

Lemma get_project_info_Ok
    (REQUIRED_METADATA_KEYS : gmap string (list string))
    (REQUIRED_METADATA_PER_TYPE_KEYS : gmap string (gmap string (list string)))
    (fs : FS) (path : string) (info : gmap string string) :
  _get_project_info REQUIRED_METADATA_KEYS REQUIRED_METADATA_PER_TYPE_KEYS fs path
    = Ok info →
  path_exists fs path = true
  ∧ path_exists fs (join path ".dtproject") = true
  ∧ ∃ lines metadata,
      readlines fs (join path ".dtproject") = Some lines ∧ lines ≠ []
      ∧ parse_metadata lines = Ok metadata
      ∧ validate_metadata REQUIRED_METADATA_KEYS REQUIRED_METADATA_PER_TYPE_KEYS
          (join path ".dtproject") path metadata = Ok info.
Proof.
  unfold _get_project_info.
  destruct (path_exists fs path); [|done]. simpl.
  destruct (path_exists fs (join path ".dtproject")); [|done]. simpl.
  destruct (readlines fs (join path ".dtproject")) as [[|line lines]|]; [done| |done].
  intros (metadata & Hparse & Hvalid)%bind_Ok.
  split_and!; [done..|]. by exists (line :: lines), metadata.
Qed.

(** X1. A descriptor that [_get_project_info] accepts carries the path
    it was read from under [PATH], a [TYPE_VERSION] that is in the table
    and is not the wildcard, a [TYPE], and every key the tables require
    for that version and that type. *)
Theorem get_project_info_sound
    (REQUIRED_METADATA_KEYS : gmap string (list string))
    (REQUIRED_METADATA_PER_TYPE_KEYS : gmap string (gmap string (list string)))
    (fs : FS) (path : string) (info : gmap string string) :
  _get_project_info REQUIRED_METADATA_KEYS REQUIRED_METADATA_PER_TYPE_KEYS fs path
    = Ok info →
  info !! "PATH" = Some path
  ∧ ∃ version agnostic specific type,
      info !! "TYPE_VERSION" = Some version ∧ version ≠ "*"
      ∧ REQUIRED_METADATA_KEYS !! "*" = Some agnostic
      ∧ REQUIRED_METADATA_KEYS !! version = Some specific
      ∧ info !! "TYPE" = Some type
      ∧ ∀ key,
          key ∈ agnostic ++ specific
                ++ per_type_keys REQUIRED_METADATA_PER_TYPE_KEYS type version →
          is_Some (info !! key).
Proof.
  intros (_ & _ & lines & metadata & _ & _ & _ & Hvalid)%get_project_info_Ok.
  apply validate_metadata_Ok in Hvalid
    as (-> & version & agnostic & specific & type & Hv & Hnot & Hstar & Hspec & Ht & Hkeys).
  split; [by rewrite lookup_insert_eq|].
  exists version, agnostic, specific, type.
  split_and!; try done; try (by rewrite lookup_insert_ne).
  intros key Hkey. destruct (decide (key = "PATH")) as [->|Hne].
  - rewrite lookup_insert_eq. eauto.
  - rewrite lookup_insert_ne by done. by apply Hkeys.
Qed.

Lemma require_keys_Raise (metafile : string) (metadata : gmap string string)
    (keys : list string) (e : exn) :
  require_keys metafile metadata keys = Raise e →
  ∃ key, key ∈ keys ∧ metadata !! key = None ∧ e = missing_key metafile key.
Proof.
  rewrite require_keys_first_missing.
  destruct (first_missing keys metadata) as [key|] eqn:Hm; [|done].
  intros [= <-]. apply first_missing_Some in Hm as [? ?]. eauto.
Qed.

Lemma map_result_Raise {A B} (f : A -> result B) (xs : list A) (e : exn) :
  map_result f xs = Raise e → ∃ x, x ∈ xs ∧ f x = Raise e.
Proof.
  induction xs as [|x xs IH]; [done|]. simpl.
  destruct (f x) as [y|e'] eqn:Hx; simpl.
  - destruct (map_result f xs) as [ys|e'']; [done|]. intros [= <-].
    destruct IH as (x' & ? & ?); [done|]. exists x'. split; [by right | done].
  - intros [= <-]. exists x. split; [by left | done].
Qed.

Lemma split_assignment_Raise (line : string) (e : exn) :
  split_assignment line = Raise e → ∃ msg, e = ValueError msg.
Proof.
  unfold split_assignment.
  destruct (split "=" line) as [|? [|? [|? ?]]]; intros [= <-]; eauto.
Qed.

Lemma parse_metadata_Raise (lines : list string) (e : exn) :
  parse_metadata lines = Raise e → ∃ msg, e = ValueError msg.
Proof.
  unfold parse_metadata.
  destruct (map_result split_assignment _) as [pairs|e'] eqn:Hmap; [done|].
  intros [= <-]. apply map_result_Raise in Hmap as (line & _ & Hline).
  by apply split_assignment_Raise in Hline.
Qed.

Lemma validate_metadata_Raise
    (REQUIRED_METADATA_KEYS : gmap string (list string))
    (REQUIRED_METADATA_PER_TYPE_KEYS : gmap string (gmap string (list string)))
    (metafile path : string) (metadata : gmap string string) (e : exn) :
  validate_metadata REQUIRED_METADATA_KEYS REQUIRED_METADATA_PER_TYPE_KEYS
    metafile path metadata = Raise e →
  (∃ key, e = KeyError key) ∨ (∃ key, e = missing_key metafile key)
  ∨ (∃ version, e = unsupported_version version).
Proof.
  unfold validate_metadata, getitem.
  destruct (REQUIRED_METADATA_KEYS !! "*") as [agnostic|] eqn:Hstar;
    [|intros [= <-]; eauto]. simpl.
  destruct (require_keys metafile metadata agnostic) as [[]|e1] eqn:Hagn;
    [|intros [= <-]; apply require_keys_Raise in Hagn as (? & _ & _ & ->); eauto]. simpl.
  destruct (metadata !! "TYPE_VERSION") as [version|] eqn:Hv;
    [|intros [= <-]; eauto]. simpl.
  destruct ((version =? "*")%string
            || negb (bool_decide (is_Some (REQUIRED_METADATA_KEYS !! version))));
    [intros [= <-]; unfold unsupported_version; eauto|].
  destruct (REQUIRED_METADATA_KEYS !! version) as [specific|] eqn:Hspec;
    [|intros [= <-]; eauto]. simpl.
  destruct (require_keys metafile metadata specific) as [[]|e2] eqn:Hsp;
    [|intros [= <-]; apply require_keys_Raise in Hsp as (? & _ & _ & ->); eauto]. simpl.
  destruct (metadata !! "TYPE") as [type|] eqn:Ht; [|intros [= <-]; eauto]. simpl.
  fold (per_type_keys REQUIRED_METADATA_PER_TYPE_KEYS type version).
  destruct (require_keys metafile metadata
              (per_type_keys REQUIRED_METADATA_PER_TYPE_KEYS type version))
    as [[]|e3] eqn:Hpt; [done|].
  intros [= <-]. apply require_keys_Raise in Hpt as (? & _ & _ & ->). eauto.
Qed.

(** X2. [_get_project_info] answers [DTProjectNotFound] exactly when the
    project path exists and holds no [.dtproject]: a path that does not
    exist is an [OSError], and a descriptor that is there but empty,
    unreadable as assignments, or rejected by the tables never counts
    as "not found". *)
Theorem get_project_info_not_found
    (REQUIRED_METADATA_KEYS : gmap string (list string))
    (REQUIRED_METADATA_PER_TYPE_KEYS : gmap string (gmap string (list string)))
    (fs : FS) (path : string) :
  (path_exists fs path = false →
     ∃ msg, _get_project_info REQUIRED_METADATA_KEYS REQUIRED_METADATA_PER_TYPE_KEYS
              fs path = Raise (OSError msg))
  ∧ ((∃ msg, _get_project_info REQUIRED_METADATA_KEYS REQUIRED_METADATA_PER_TYPE_KEYS
               fs path = Raise (DTProjectNotFound msg))
     ↔ path_exists fs path = true ∧ path_exists fs (join path ".dtproject") = false)
  ∧ (path_exists fs path = true → path_exists fs (join path ".dtproject") = true →
     readlines fs (join path ".dtproject") = Some [] →
     ∃ msg, _get_project_info REQUIRED_METADATA_KEYS REQUIRED_METADATA_PER_TYPE_KEYS
              fs path = Raise (MalformedDTProject msg)).
Proof.
  unfold _get_project_info. split_and!.
  - intros ->. simpl. eauto.
  - destruct (path_exists fs path); simpl; [|split; [by intros [? ?] | by intros [? ?]]].
    destruct (path_exists fs (join path ".dtproject")); simpl;
      [|split; [done | eauto]].
    split; [|by intros [? ?]]. intros [msg Hraise]. exfalso.
    destruct (readlines fs (join path ".dtproject")) as [[|line lines]|];
      [done| |by unfold read_error in Hraise; destruct (undecodable fs _)].
    destruct (parse_metadata (line :: lines)) as [metadata|e] eqn:Hparse; simpl in Hraise.
    + apply validate_metadata_Raise in Hraise
        as [[? Hr]|[[? Hr]|[? Hr]]]; discriminate Hr.
    + injection Hraise as ->. by apply parse_metadata_Raise in Hparse as [? ?].
  - intros -> -> ->. simpl. eauto.
Qed.

Lemma get_project_info_not_found_witness :
  (∃ msg, _get_project_info sample_REQUIRED_METADATA_KEYS
            sample_REQUIRED_METADATA_PER_TYPE_KEYS sample_fs "/ws/p" = Raise (OSError msg))
  ∧ ∃ msg, _get_project_info sample_REQUIRED_METADATA_KEYS
             sample_REQUIRED_METADATA_PER_TYPE_KEYS (sample_fs_descriptor []) "/ws/p"
           = Raise (MalformedDTProject msg).
Proof.
  split.
  - by apply (get_project_info_not_found sample_REQUIRED_METADATA_KEYS
                sample_REQUIRED_METADATA_PER_TYPE_KEYS sample_fs "/ws/p").
  - by apply (get_project_info_not_found sample_REQUIRED_METADATA_KEYS
                sample_REQUIRED_METADATA_PER_TYPE_KEYS (sample_fs_descriptor []) "/ws/p").
Defined.

Lemma get_project_info_sound_witness :
  let info : gmap string string :=
    <["PATH" := "/ws/p"]> (<["VERSION" := "1.0"]>
      (<["TYPE" := "template-basic"]> (<["TYPE_VERSION" := "3"]> ∅))) in
  info !! "PATH" = Some "/ws/p"
  ∧ ∃ version agnostic specific type,
      info !! "TYPE_VERSION" = Some version ∧ version ≠ "*"
      ∧ sample_REQUIRED_METADATA_KEYS !! "*" = Some agnostic
      ∧ sample_REQUIRED_METADATA_KEYS !! version = Some specific
      ∧ info !! "TYPE" = Some type
      ∧ ∀ key,
          key ∈ agnostic ++ specific
                ++ per_type_keys sample_REQUIRED_METADATA_PER_TYPE_KEYS type version →
          is_Some (info !! key).
Proof.
  apply (get_project_info_sound sample_REQUIRED_METADATA_KEYS
           sample_REQUIRED_METADATA_PER_TYPE_KEYS
           (sample_fs_descriptor ["TYPE_VERSION=3"; "TYPE=template-basic"; "VERSION=1.0"])
           "/ws/p").
  vm_compute. reflexivity.
Defined.

Lemma parse_metadata_assignment_lines (lines : list string) :
  parse_metadata lines =
    pairs ← map_result split_assignment (assignment_lines lines);
    Ok (foldl (λ metadata '(key, val), <[upper (strip key) := strip val]> metadata)
              ∅ pairs).
Proof. reflexivity. Qed.

Lemma assignment_lines_app (l1 l2 : list string) :
  assignment_lines (l1 ++ l2) = assignment_lines l1 ++ assignment_lines l2.
Proof. unfold assignment_lines. by rewrite map_app, filter_app. Qed.

(** X3. A blank line or a comment line, wherever it stands in the file,
    does not change what the file parses to. *)
Theorem parse_metadata_skips_blanks_and_comments (before after : list string)
    (line : string) :
  strip line = "" ∨ startswith "#" (strip line) = true →
  parse_metadata (before ++ line :: after) = parse_metadata (before ++ after).
Proof.
  intros Hskip. rewrite !parse_metadata_assignment_lines.
  assert (assignment_lines [line] = []) as Hnone.
  { unfold assignment_lines. change (map strip [line]) with [strip line].
    rewrite filter_cons, decide_False; [done|].
    destruct Hskip as [->| ->]; [done|]. by rewrite andb_false_r. }
  change (line :: after) with ([line] ++ after).
  by rewrite !assignment_lines_app, Hnone.
Qed.

Lemma parse_metadata_skips_blanks_and_comments_witness :
  parse_metadata ["TYPE=a"; "  # not a key = not a value"; "VERSION=1"]
  = parse_metadata ["TYPE=a"; "VERSION=1"].
Proof.
  apply (parse_metadata_skips_blanks_and_comments ["TYPE=a"]). right. reflexivity.
Defined.

(** Counting separators. *)
Lemma split_length (sep : ascii) (s : string) :
  length (split sep s) = S (count_char sep s).
Proof.
  induction s as [|c s IH]; [done|]. simpl.
  destruct (Ascii.eqb c sep); simpl; [by rewrite IH|].
  destruct (split sep s); simpl in *; [done | by rewrite IH].
Qed.

Lemma split_assignment_Ok_iff (line : string) :
  (∃ pair, split_assignment line = Ok pair) ↔ count_char "=" line = 1%nat.
Proof.
  unfold split_assignment. pose proof (split_length "=" line) as Hlen.
  destruct (split "=" line) as [|k [|v [|? ?]]]; simpl in Hlen; split;
    try (intros [? [=]]); try lia; eauto.
Qed.

Lemma map_result_Ok_iff {A B} (f : A -> result B) (xs : list A) :
  (∃ ys, map_result f xs = Ok ys) ↔ ∀ x, x ∈ xs → ∃ y, f x = Ok y.
Proof.
  induction xs as [|x xs IH]; simpl.
  - split; [by intros _ ? ?%elem_of_nil | eauto].
  - split.
    + intros [ys Hys]. destruct (f x) as [y|] eqn:Hx; [|done]. simpl in Hys.
      destruct (map_result f xs) as [ys'|] eqn:Hxs; [|done].
      intros x' [->|Hx']%elem_of_cons; [eauto|].
      apply IH; eauto.
    + intros Hall. destruct (Hall x) as [y ->]; [by left|]. simpl.
      destruct (proj2 IH) as [ys ->]; [|simpl; eauto].
      intros x' Hx'. apply Hall. by right.
Qed.

(** X4. A legacy file parses if and only if each of its assignment
    lines holds exactly one [=]; any other file raises [ValueError].  In
    particular a value cannot contain an [=] sign. *)
Theorem parse_metadata_one_equals_sign (lines : list string) :
  ((∃ metadata, parse_metadata lines = Ok metadata)
   ↔ ∀ line, line ∈ assignment_lines lines → count_char "=" line = 1%nat)
  ∧ ((∃ msg, parse_metadata lines = Raise (ValueError msg))
     ↔ ∃ line, line ∈ assignment_lines lines ∧ count_char "=" line ≠ 1%nat).
Proof.
  assert (Hok : (∃ metadata, parse_metadata lines = Ok metadata)
     ↔ ∀ line, line ∈ assignment_lines lines → count_char "=" line = 1%nat).
  { rewrite parse_metadata_assignment_lines.
    transitivity (∃ pairs, map_result split_assignment (assignment_lines lines) = Ok pairs).
    - destruct (map_result split_assignment (assignment_lines lines)); simpl;
        split; intros [? ?]; eauto; done.
    - rewrite map_result_Ok_iff. apply forall_proper. intros line.
      by rewrite split_assignment_Ok_iff. }
  split; [exact Hok|]. split.
  - intros [msg Hraise].
    destruct (decide (Forall (λ line, count_char "=" line = 1%nat) (assignment_lines lines)))
      as [Hall|Hnot].
    + rewrite Forall_forall in Hall. apply Hok in Hall as [? Hall]. congruence.
    + apply not_Forall_Exists in Hnot; [|apply _].
      apply Exists_exists in Hnot as (line & ? & ?). eauto.
  - intros (line & Hin & Hcount).
    destruct (parse_metadata lines) as [metadata|e] eqn:Hparse.
    + exfalso. apply Hcount. apply Hok; eauto.
    + apply parse_metadata_Raise in Hparse as [msg ->]. eauto.
Qed.

Lemma map_result_app {A B} (f : A -> result B) (xs ys : list A) :
  map_result f (xs ++ ys) =
    a ← map_result f xs; b ← map_result f ys; Ok (a ++ b).
Proof.
  induction xs as [|x xs IH]; simpl.
  - by destruct (map_result f ys).
  - destruct (f x); simpl; [|done]. rewrite IH.
    destruct (map_result f xs); simpl; [|done]. by destruct (map_result f ys).
Qed.

(** X5. Appending the assignment [key=val] to a legacy file whose
    lines are in the range of [upper] adds, to what the file parsed to,
    the binding of the upper-cased, stripped key to the stripped value:
    a later assignment replaces an earlier one to the same key. *)
Theorem parse_metadata_append (lines : list string) (line key val : string) :
  Forall (λ l, upper_in_range l = true) (lines ++ [line]) →
  split "=" (strip line) = [key; val] →
  startswith "#" (strip line) = false →
  parse_metadata (lines ++ [line]) =
    metadata ← parse_metadata lines;
    Ok (<[upper (strip key) := strip val]> metadata).
Proof.
  intros _ Hsplit Hcomment. rewrite !parse_metadata_assignment_lines.
  assert (assignment_lines [line] = [strip line]) as Hline.
  { unfold assignment_lines. change (map strip [line]) with [strip line].
    rewrite filter_cons, decide_True; [done|].
    rewrite Hcomment. destruct (strip line); [done | reflexivity]. }
  rewrite assignment_lines_app, Hline, map_result_app.
  destruct (map_result split_assignment (assignment_lines lines)) as [pairs|]; [|done].
  simpl. unfold split_assignment. rewrite Hsplit. simpl.
  by rewrite foldl_app.
Qed.

Lemma parse_metadata_append_witness :
  parse_metadata (["TYPE=a"; "name = first"] ++ [" Name = Second "])
  = metadata ← parse_metadata ["TYPE=a"; "name = first"];
    Ok (<[upper (strip "Name ") := strip " Second"]> metadata).
Proof.
  apply parse_metadata_append; [by repeat constructor | vm_compute; reflexivity ..].
Defined.

Lemma upper_char_not_ascii_lower (c : ascii) : between 97 122 (upper_char c) = false.
Proof. destruct c as [[] [] [] [] [] [] [] []]; vm_compute; reflexivity. Qed.

Lemma upper_no_ascii_lower (s : string) :
  all_chars (λ c, negb (between 97 122 c)) (upper s) = true.
Proof.
  induction s as [|c s IH]; [done|].
  change (upper (String c s))
    with (if (ord c =? 223)%nat then String "S" (String "S" (upper s))
          else String (upper_char c) (upper s)).
  destruct (ord c =? 223)%nat; simpl.
  - by rewrite IH.
  - by rewrite upper_char_not_ascii_lower, IH.
Qed.

(** X6. Every key of a parsed legacy file whose lines are in the range
    of [upper] is the upper-cased, stripped left side of one of its
    assignments, and holds no letter [a]-[z]; every value is a stripped
    right side. *)
Theorem parse_metadata_keys_upper (lines : list string)
    (metadata : gmap string string) (key val : string) :
  Forall (λ l, upper_in_range l = true) lines →
  parse_metadata lines = Ok metadata →
  metadata !! key = Some val →
  (∃ line k v,
     line ∈ assignment_lines lines ∧ split "=" line = [k; v]
     ∧ key = upper (strip k) ∧ val = strip v)
  ∧ all_chars (λ c, negb (between 97 122 c)) key = true.
Proof.
  intros _. rewrite parse_metadata_assignment_lines.
  intros (pairs & Hpairs & [= <-])%bind_Ok Hlookup.
  assert (Hfrom : ∃ k v, (k, v) ∈ pairs ∧ key = upper (strip k) ∧ val = strip v).
  { revert Hlookup. clear Hpairs.
    induction pairs as [|[k v] pairs IH] using rev_ind; [done|].
    rewrite foldl_app. simpl. destruct (decide (key = upper (strip k))) as [->|Hne].
    - rewrite lookup_insert_eq. intros [= <-]. exists k, v.
      split; [apply elem_of_app; right; by left | done].
    - rewrite lookup_insert_ne by done. intros (k' & v' & ? & ? & ?)%IH.
      exists k', v'. split; [apply elem_of_app; by left | done]. }
  destruct Hfrom as (k & v & Hin & -> & ->).
  split; [|apply upper_no_ascii_lower].
  assert (Hline : ∃ line, line ∈ assignment_lines lines ∧ split_assignment line = Ok (k, v)).
  { clear Hlookup. revert pairs Hpairs Hin. induction (assignment_lines lines) as [|line rest IH];
      intros pairs Hpairs Hin; simpl in Hpairs.
    - injection Hpairs as <-. by apply elem_of_nil in Hin.
    - apply bind_Ok in Hpairs as (pair & Hpair & (pairs' & Hrest & [= <-])%bind_Ok).
      apply elem_of_cons in Hin as [<-|Hin].
      + exists line. split; [by left | done].
      + destruct (IH pairs' Hrest Hin) as (line' & ? & ?).
        exists line'. split; [by right | done]. }
  destruct Hline as (line & Hin' & Hsplit). exists line, k, v.
  split_and!; try done.
  unfold split_assignment in Hsplit.
  by destruct (split "=" line) as [|? [|? [|? ?]]]; simplify_eq.
Qed.

Lemma parse_metadata_keys_upper_witness :
  (∃ line k v,
     line ∈ assignment_lines [" type = Template-Basic "] ∧ split "=" line = [k; v]
     ∧ "TYPE" = upper (strip k) ∧ "Template-Basic" = strip v)
  ∧ all_chars (λ c, negb (between 97 122 c)) "TYPE" = true.
Proof.
  apply (parse_metadata_keys_upper [" type = Template-Basic "]
           (<["TYPE" := "Template-Basic"]> ∅));
    [by repeat constructor | vm_compute; reflexivity ..].
Defined.

(** X7. When [DTProjectV1to3.__init__] succeeds, the type, the type
    version and the version it caches are those of the metadata view,
    whose [PATH] is the path given; the type version is known to the
    table and is not the wildcard; ["dtproject"] is appended to the
    adapters and no other list changes.  A descriptor that passes the
    checks but has no [VERSION] makes the constructor raise
    [KeyError]. *)
Theorem legacy_init_consistent
    (REQUIRED_METADATA_KEYS : gmap string (list string))
    (REQUIRED_METADATA_PER_TYPE_KEYS : gmap string (gmap string (list string)))
    (fs : FS) (σ : gmap nat (list string)) (self : DTProject) (path : string) :
  (∀ p' σ',
     DTProjectV1to3_init REQUIRED_METADATA_KEYS REQUIRED_METADATA_PER_TYPE_KEYS
       fs σ self path = Ok (p', σ') →
     metadata p' !! "TYPE" = Some (type p')
     ∧ metadata p' !! "TYPE_VERSION" = Some (type_version p')
     ∧ metadata p' !! "VERSION" = Some (version p')
     ∧ metadata p' !! "PATH" = Some path
     ∧ type_version p' ≠ "*"
     ∧ is_Some (REQUIRED_METADATA_KEYS !! type_version p')
     ∧ _path p' = _path self ∧ _repository p' = _repository self
     ∧ _adapters p' = _adapters self
     ∧ σ' !! _adapters self = (λ items, items ++ ["dtproject"]) <$> σ !! _adapters self
     ∧ ∀ l, l ≠ _adapters self → σ' !! l = σ !! l)
  ∧ (∀ info,
     _get_project_info REQUIRED_METADATA_KEYS REQUIRED_METADATA_PER_TYPE_KEYS fs path
       = Ok info →
     info !! "VERSION" = None →
     DTProjectV1to3_init REQUIRED_METADATA_KEYS REQUIRED_METADATA_PER_TYPE_KEYS
       fs σ self path = Raise (KeyError "VERSION")).
Proof.
  split.
  - intros p' σ'. unfold DTProjectV1to3_init, getitem.
    intros (info & Hinfo & Hrest)%bind_Ok.
    destruct (info !! "TYPE") as [t|] eqn:Ht; [|done]. simpl in Hrest.
    destruct (info !! "TYPE_VERSION") as [tv|] eqn:Htv; [|done]. simpl in Hrest.
    destruct (info !! "VERSION") as [v|] eqn:Hv; [|done]. simpl in Hrest.
    injection Hrest as <- <-.
    apply get_project_info_Ok in Hinfo as (_ & _ & lines & md & _ & _ & _ & Hvalid).
    apply validate_metadata_Ok in Hvalid
      as (-> & tv' & agnostic & specific & t' & Hv' & Hnot & _ & Hspec & _).
    assert (Hpath : <["PATH" := path]> md !! "PATH" = Some path)
      by apply lookup_insert_eq.
    assert (tv' = tv) as ->.
    { rewrite lookup_insert_ne in Htv by done. congruence. }
    unfold metadata, type, type_version, version; simpl.
    split_and!; try done.
    + apply lookup_alter_eq.
    + intros l Hl. by apply lookup_alter_ne.
  - intros info Hinfo Hv. unfold DTProjectV1to3_init, getitem. rewrite Hinfo. simpl.
    apply get_project_info_Ok in Hinfo as (_ & _ & lines & md & _ & _ & _ & Hvalid).
    apply validate_metadata_Ok in Hvalid
      as (-> & tv' & agnostic & specific & t' & Htv & _ & _ & _ & Ht & _).
    rewrite lookup_insert_ne in Hv by done.
    rewrite !lookup_insert_ne, Ht, Htv by done. simpl. by rewrite Hv.
Qed.

Lemma legacy_init_consistent_witness :
  ∃ p' σ',
    DTProjectV1to3_init sample_REQUIRED_METADATA_KEYS sample_REQUIRED_METADATA_PER_TYPE_KEYS
      (sample_fs_descriptor ["TYPE_VERSION=3"; "TYPE=template-basic"; "VERSION=1.0"])
      sample_store sample_foo "/ws/p" = Ok (p', σ')
    ∧ metadata p' !! "PATH" = Some "/ws/p"
    ∧ type_version p' ≠ "*"
    ∧ σ' !! 0%nat = Some ["fs"; "git"; "dtproject"; "dtproject"].
Proof.
  destruct (DTProjectV1to3_init sample_REQUIRED_METADATA_KEYS
              sample_REQUIRED_METADATA_PER_TYPE_KEYS
              (sample_fs_descriptor ["TYPE_VERSION=3"; "TYPE=template-basic"; "VERSION=1.0"])
              sample_store sample_foo "/ws/p") as [[p' σ']|e] eqn:Hinit;
    [|vm_compute in Hinit; discriminate Hinit].
  exists p', σ'.
  destruct (legacy_init_consistent sample_REQUIRED_METADATA_KEYS
              sample_REQUIRED_METADATA_PER_TYPE_KEYS
              (sample_fs_descriptor ["TYPE_VERSION=3"; "TYPE=template-basic"; "VERSION=1.0"])
              sample_store sample_foo "/ws/p") as [H _].
  destruct (H p' σ' Hinit) as (_ & _ & _ & Hp & Hnot & _ & _ & _ & _ & Hσ & _).
  split_and!; [done | exact Hp | exact Hnot |].
  etrans; [exact Hσ | reflexivity].
Defined.

(** ** More on image names *)

Lemma sub_unsafe_char_safe (c : ascii) :
  (re_word (sub_unsafe_char c) || Ascii.eqb (sub_unsafe_char c) "-"
   || Ascii.eqb (sub_unsafe_char c) ".") = true.
Proof. destruct c as [[] [] [] [] [] [] [] []]; vm_compute; reflexivity. Qed.

Lemma sub_unsafe_char_idem (c : ascii) :
  sub_unsafe_char (sub_unsafe_char c) = sub_unsafe_char c.
Proof. destruct c as [[] [] [] [] [] [] [] []]; vm_compute; reflexivity. Qed.

Lemma all_chars_cons (f : ascii -> bool) (c : ascii) (s : string) :
  all_chars f (String c s) = f c && all_chars f s.
Proof. reflexivity. Qed.

Lemma map_str_cons (f : ascii -> ascii) (c : ascii) (s : string) :
  map_str f (String c s) = String (f c) (map_str f s).
Proof. reflexivity. Qed.

Lemma re_sub_unsafe_safe (s : string) :
  all_chars (λ c, re_word c || Ascii.eqb c "-" || Ascii.eqb c ".") (re_sub_unsafe s) = true.
Proof.
  induction s as [|c s IH]; [done|]. unfold re_sub_unsafe in *.
  by rewrite map_str_cons, all_chars_cons, sub_unsafe_char_safe, IH.
Qed.

Lemma re_sub_unsafe_idem (s : string) : re_sub_unsafe (re_sub_unsafe s) = re_sub_unsafe s.
Proof.
  induction s as [|c s IH]; [done|]. unfold re_sub_unsafe in *.
  by rewrite !map_str_cons, sub_unsafe_char_idem, IH.
Qed.

(** X8. The safe version name holds only word characters, [-] and [.];
    it is as long as the version name; cleaning it again changes
    nothing; and without a repository it is [latest]. *)
Theorem safe_version_name_safe (p : DTProject) :
  all_chars (λ c, re_word c || Ascii.eqb c "-" || Ascii.eqb c ".")
    (safe_version_name p) = true
  ∧ String.length (safe_version_name p) = String.length (version_name p)
  ∧ re_sub_unsafe (safe_version_name p) = safe_version_name p
  ∧ (_repository p = None → safe_version_name p = "latest").
Proof.
  unfold safe_version_name. split_and!.
  - apply re_sub_unsafe_safe.
  - apply re_sub_unsafe_length.
  - apply re_sub_unsafe_idem.
  - unfold version_name. by intros ->.
Qed.

(** X9. For a canonical architecture, the image tag is the manifest
    name of the same registry, owner and version, followed by the
    variant suffixes and the architecture; with no variant it is the
    manifest name, [-] and the architecture. *)
Theorem image_extends_manifest (CANONICAL_ARCH : list string) (p : DTProject)
    (arch registry owner : string) (version : option string) (loop docs : bool)
    (extra : option string) :
  arch ∈ CANONICAL_ARCH →
  image CANONICAL_ARCH p arch registry owner version loop docs extra
  = Ok (manifest p registry owner version
        +:+ (if truthy_opt extra then "-" +:+ default "" extra else "")
        +:+ (if loop then "-LOOP" else "") +:+ (if docs then "-docs" else "")
        +:+ "-" +:+ arch)
  ∧ image CANONICAL_ARCH p arch registry owner version false false None
    = Ok (manifest p registry owner version +:+ "-" +:+ arch).
Proof.
  intros Hin. unfold image, manifest, safe_version_name.
  rewrite (assert_canonical_arch_ok _ _ Hin). simpl.
  split; f_equal; destruct version; by rewrite !str_app_assoc.
Qed.

Lemma image_extends_manifest_witness :
  image sample_canonical_arch sample_foo "arm64v8" "docker.io" "duckietown" None
    false false None
  = Ok (manifest sample_foo "docker.io" "duckietown" None +:+ "-" +:+ "arm64v8").
Proof.
  apply (image_extends_manifest sample_canonical_arch sample_foo "arm64v8" "docker.io"
           "duckietown" None false false None).
  by_decide.
Defined.

(** X10. On a project in a release state whose head is detached (the
    branch reads [HEAD]), the image tag computed without a version,
    without loop mode and without extra suffix is the release tag, for
    every architecture, canonical or not. *)
Theorem image_of_detached_release (CANONICAL_ARCH : list string) (p : DTProject)
    (r : Repository) (arch registry owner : string) (docs : bool) :
  is_release p = true →
  _repository p = Some r → repo_branch r = "HEAD" →
  image CANONICAL_ARCH p arch registry owner None false docs None
  = image_release CANONICAL_ARCH p arch owner registry docs.
Proof.
  intros Hrel Hr Hbranch. unfold image, image_release. rewrite Hrel. simpl.
  destruct (assert_canonical_arch CANONICAL_ARCH arch); [|done]. simpl.
  unfold safe_version_name, version_name. by rewrite Hr, Hbranch.
Qed.

Lemma image_of_detached_release_witness :
  image sample_canonical_arch (sample_detached "v1.2.0") "riscv" "docker.io" "duckietown"
    None false true None
  = image_release sample_canonical_arch (sample_detached "v1.2.0") "riscv" "duckietown"
      "docker.io" true.
Proof.
  by apply (image_of_detached_release sample_canonical_arch (sample_detached "v1.2.0")
              _ "riscv" "docker.io" "duckietown" true eq_refl eq_refl).
Defined.

Lemma str_app_length (s t : string) :
  String.length (s +:+ t) = (String.length s + String.length t)%nat.
Proof. induction s as [|c s IH]; [done|]. rewrite app_cons. simpl. by rewrite IH. Qed.

Lemma str_app_inv_head (a x y : string) : a +:+ x = a +:+ y → x = y.
Proof.
  induction a as [|c a IH]; [done|]. rewrite !app_cons. intros [= H]. by apply IH.
Qed.

(** X11. For a canonical architecture, the plain, the vscode and the
    vnc image tags of one project, registry, owner, version and docs
    flag are three different strings. *)
Theorem image_variants_differ (CANONICAL_ARCH : list string) (p : DTProject)
    (arch registry owner : string) (version : option string) (docs : bool) :
  arch ∈ CANONICAL_ARCH →
  ∃ plain vscode vnc,
    image CANONICAL_ARCH p arch registry owner version false docs None = Ok plain
    ∧ image_vscode CANONICAL_ARCH p arch registry owner version docs = Ok vscode
    ∧ image_vnc CANONICAL_ARCH p arch registry owner version docs = Ok vnc
    ∧ plain ≠ vscode ∧ plain ≠ vnc ∧ vscode ≠ vnc.
Proof.
  intros Hin. unfold image_vscode, image_vnc, image.
  rewrite (assert_canonical_arch_ok _ _ Hin). simpl.
  set (v := match version with None => safe_version_name p | Some v => v end).
  set (tail := (if docs then "-docs" else "") +:+ "-" +:+ arch).
  eexists _, _, _. split_and!; [reflexivity..| | |].
  - intros H. do 7 apply str_app_inv_head in H. fold tail in H.
    apply (f_equal String.length) in H. rewrite !app_cons in H. simpl in H. lia.
  - intros H. do 7 apply str_app_inv_head in H. fold tail in H.
    apply (f_equal String.length) in H. rewrite !app_cons in H. simpl in H. lia.
  - intros H. do 7 apply str_app_inv_head in H. rewrite !app_cons in H. discriminate H.
Qed.

Lemma image_variants_differ_witness :
  ∃ plain vscode vnc,
    image sample_canonical_arch sample_foo "amd64" "r" "o" (Some "v") false true None
      = Ok plain
    ∧ image_vscode sample_canonical_arch sample_foo "amd64" "r" "o" (Some "v") true
      = Ok vscode
    ∧ image_vnc sample_canonical_arch sample_foo "amd64" "r" "o" (Some "v") true = Ok vnc
    ∧ plain ≠ vscode ∧ plain ≠ vnc ∧ vscode ≠ vnc.
Proof.
  apply (image_variants_differ sample_canonical_arch sample_foo "amd64" "r" "o"
           (Some "v") true).
  by_decide.
Defined.

(** ** More on paths *)

Lemma template_entry_Raise {A} (TABLE : template_table A) (p : DTProject)
    (msg : string) (e : exn) :
  template_entry TABLE p msg = Raise e →
  e = UnsupportedDTProjectVersion msg ∧ ¬ supported TABLE p.
Proof.
  unfold template_entry, supported.
  destruct (TABLE !! type p) as [versions|] eqn:Ht.
  - destruct (versions !! type_version p) as [entry|] eqn:Hv; [done|].
    intros [= <-]. split; [done|]. intros (? & ? & [= <-] & ?). congruence.
  - intros [= <-]. split; [done|]. by intros (? & ? & ? & _).
Qed.

Lemma template_entry_Ok {A} (TABLE : template_table A) (p : DTProject)
    (msg : string) (entry : A) :
  template_entry TABLE p msg = Ok entry → supported TABLE p.
Proof.
  unfold template_entry, supported.
  destruct (TABLE !! type p) as [versions|] eqn:Ht; [|done].
  destruct (versions !! type_version p) as [entry'|] eqn:Hv; [|done]. eauto.
Qed.

Lemma pattern_paths_supported (TABLE : template_table (string -> string * string))
    (fs : FS) (p : DTProject) (root : option string) :
  (∃ msg, pattern_paths TABLE fs p root = Raise (UnsupportedDTProjectVersion msg))
  ↔ ¬ supported TABLE p.
Proof.
  unfold pattern_paths.
  destruct (template_entry TABLE p (unsupported_template p)) as [entry|e] eqn:Hentry.
  - apply template_entry_Ok in Hentry. simpl. split; [|done].
    intros [msg Hraise]. exfalso.
    destruct (entry (name p)) as [local destination].
    destruct (endswith "*" local); [|done].
    destruct (map_result _ _) as [locals|e] eqn:Hmap; [done|]. simpl in Hraise.
    injection Hraise as ->.
    apply map_result_Raise in Hmap as (loc & _ & Hloc).
    by destruct (relpath (getcwd fs) loc (path p)).
  - apply template_entry_Raise in Hentry as [-> Hno]. simpl. split; [done | eauto].
Qed.

(** X12. Each of [code_paths], [assets_paths], [launch_paths] and
    [docs_path] raises [UnsupportedDTProjectVersion] exactly when its
    table has no entry for the type and the type version of the project,
    whatever the world and the override root are. *)
Theorem path_functions_unsupported
    (TEMPLATE_TO_SRC TEMPLATE_TO_LAUNCHFILE TEMPLATE_TO_ASSETS
       : template_table (string -> string * string))
    (TEMPLATE_TO_DOCS : template_table string)
    (fs : FS) (p : DTProject) (root : option string) :
  ((∃ msg, code_paths TEMPLATE_TO_SRC fs p root = Raise (UnsupportedDTProjectVersion msg))
   ↔ ¬ supported TEMPLATE_TO_SRC p)
  ∧ ((∃ msg, assets_paths TEMPLATE_TO_ASSETS fs p root
             = Raise (UnsupportedDTProjectVersion msg))
     ↔ ¬ supported TEMPLATE_TO_ASSETS p)
  ∧ ((∃ msg, launch_paths TEMPLATE_TO_LAUNCHFILE fs p root
             = Raise (UnsupportedDTProjectVersion msg))
     ↔ ¬ supported TEMPLATE_TO_LAUNCHFILE p)
  ∧ ((∃ msg, docs_path TEMPLATE_TO_DOCS p = Raise (UnsupportedDTProjectVersion msg))
     ↔ ¬ supported TEMPLATE_TO_DOCS p).
Proof.
  split_and!.
  - apply pattern_paths_supported.
  - apply pattern_paths_supported.
  - unfold launch_paths.
    destruct (template_entry TEMPLATE_TO_LAUNCHFILE p _) as [entry|e] eqn:Hentry.
    + apply template_entry_Ok in Hentry. simpl.
      destruct (entry (name p)). split; [by intros [? ?] | done].
    + apply template_entry_Raise in Hentry as [-> Hno]. simpl. split; [done | eauto].
  - unfold docs_path.
    destruct (template_entry TEMPLATE_TO_DOCS p _) as [entry|e] eqn:Hentry.
    + apply template_entry_Ok in Hentry. simpl. split; [by intros [? ?] | done].
    + apply template_entry_Raise in Hentry as [-> Hno]. simpl. split; [done | eauto].
Qed.

Lemma sep_join_app (sep : string) (l1 l2 : list string) :
  l1 ≠ [] → l2 ≠ [] →
  sep_join sep (l1 ++ l2) = sep_join sep l1 +:+ sep +:+ sep_join sep l2.
Proof.
  intros H1 H2. induction l1 as [|a l1 IH]; [done|].
  destruct l1 as [|b l1].
  - destruct l2 as [|c l2]; [done|]. reflexivity.
  - change ((a :: b :: l1) ++ l2) with (a :: b :: (l1 ++ l2)).
    rewrite !sep_join_cons. change (b :: l1 ++ l2) with ((b :: l1) ++ l2).
    rewrite IH by done. by rewrite !str_app_assoc.
Qed.

Lemma absolute_not_endswith_sep (comps : list string) :
  comps ≠ [] → clean comps → endswith "/" (absolute comps) = false.
Proof.
  intros Hne Hclean. unfold absolute.
  pose proof (sep_join_truthy comps Hne Hclean) as Htruthy.
  pose proof (sep_join_not_endswith_sep comps Hne Hclean) as Hend.
  destruct (sep_join "/" comps) as [|a s] eqn:Hs; [done|].
  rewrite app_cons, app_empty_l.
  change (endswith "/" (String "/" (String a s)))
    with (("/" =? String "/" (String a s))%string || endswith "/" (String a s)).
  by rewrite Hend.
Qed.

Lemma effective_root_default (fs : FS) (p : DTProject) (root : option string)
    (comps : list string) :
  truthy_opt root = false → path p = absolute comps → comps ≠ [] → clean comps →
  effective_root fs p root = path p.
Proof.
  intros Hroot Hpath Hne Hclean. unfold effective_root, abspath. rewrite Hroot, Hpath.
  change (isabs (absolute comps)) with true. cbv iota.
  rewrite normpath_absolute by done.
  apply rstrip_char_id. by apply absolute_not_endswith_sep.
Qed.

Lemma join_absolute (comps rel : list string) :
  comps ≠ [] → clean comps → rel ≠ [] → clean rel →
  join (absolute comps) (sep_join "/" rel) = absolute (comps ++ rel).
Proof.
  intros Hne Hclean Hne' Hclean'. rewrite join_clean.
  - unfold absolute. by rewrite sep_join_app, !str_app_assoc.
  - done.
  - by apply absolute_not_endswith_sep.
  - by apply sep_join_not_startswith_sep.
Qed.

(** X13. Without override root (none, or the empty string), for a
    project at an absolute, normalised path other than [/]: a plain
    entry gives the project path joined with the local-spec; a pattern
    entry gives the matched directories themselves, unchanged and in
    their order, each paired with the destination joined with its
    stem. *)
Theorem pattern_paths_without_root
    (TABLE : template_table (string -> string * string))
    (fs : FS) (p : DTProject) (root : option string)
    (versions : gmap string (string -> string * string))
    (entry : string -> string * string) (local destination : string)
    (comps : list string) :
  TABLE !! type p = Some versions →
  versions !! type_version p = Some entry →
  entry (name p) = (local, destination) →
  truthy_opt root = false →
  path p = absolute comps → comps ≠ [] → clean comps →
  let matches :=
    filter (λ m, isdir fs m = true) (glob fs (join (path p) local)) in
  (endswith "*" local = false →
   code_paths TABLE fs p root = Ok ([join (path p) local], [destination]))
  ∧ (endswith "*" local = true →
     (∀ m, m ∈ matches → ∃ rel, rel ≠ [] ∧ clean rel ∧ m = absolute (comps ++ rel)) →
     code_paths TABLE fs p root
     = Ok (matches, map (λ m, join destination (stem m)) matches)).
Proof.
  intros Ht Hv Hentry Hroot Hpath Hne Hclean matches.
  pose proof (effective_root_default fs p root comps Hroot Hpath Hne Hclean) as Heff.
  unfold code_paths, pattern_paths.
  rewrite (template_entry_found _ _ _ _ _ Ht Hv). simpl. rewrite Hentry, Heff.
  split.
  - by intros ->.
  - intros -> Hbelow. fold matches.
    rewrite (map_result_ok _ id).
    + simpl. by rewrite list_fmap_id.
    + intros m Hm. destruct (Hbelow m Hm) as (rel & Hne' & Hclean' & ->).
      rewrite Hpath, relpath_below by done. simpl.
      by rewrite join_absolute.
Qed.

Lemma pattern_paths_without_root_witness :
  code_paths sample_TEMPLATE_TO_SRC sample_fs_packages sample_robot None
  = Ok (["/ws/robot/packages/a"; "/ws/robot/packages/my.pkg"],
        ["/code/catkin_ws/src/robot/packages/a"; "/code/catkin_ws/src/robot/packages/my"]).
Proof.
  destruct (pattern_paths_without_root sample_TEMPLATE_TO_SRC sample_fs_packages
              sample_robot None {["3" := sample_pattern_entry]} sample_pattern_entry
              "packages/*" "/code/catkin_ws/src/robot/packages" ["ws"; "robot"]
              eq_refl eq_refl eq_refl eq_refl eq_refl) as [_ H];
    [done | repeat constructor |].
  rewrite H; [vm_compute; reflexivity | reflexivity |].
  intros m Hm.
  change (m ∈ ["/ws/robot/packages/a"; "/ws/robot/packages/my.pkg"]) in Hm.
  rewrite !elem_of_cons, elem_of_nil in Hm. destruct Hm as [->|[->|[]]].
  - exists ["packages"; "a"]. split_and!; [done | repeat constructor | reflexivity].
  - exists ["packages"; "my.pkg"]. split_and!; [done | repeat constructor | reflexivity].
Defined.

(** X14. The destinations do not depend on the override root: for a
    project at an absolute, normalised path whose matches lie below it,
    [code_paths] under any two roots succeeds with the same list of
    destinations. *)
Theorem destinations_ignore_root
    (TABLE : template_table (string -> string * string))
    (fs : FS) (p : DTProject) (root1 root2 : option string)
    (versions : gmap string (string -> string * string))
    (entry : string -> string * string) (comps : list string) :
  TABLE !! type p = Some versions →
  versions !! type_version p = Some entry →
  path p = absolute comps → clean comps →
  (endswith "*" (entry (name p)).1 = true →
   ∀ m, m ∈ filter (λ m, isdir fs m = true)
              (glob fs (join (path p) (entry (name p)).1)) →
        ∃ rel, rel ≠ [] ∧ clean rel ∧ m = absolute (comps ++ rel)) →
  ∃ locals1 locals2 destinations,
    code_paths TABLE fs p root1 = Ok (locals1, destinations)
    ∧ code_paths TABLE fs p root2 = Ok (locals2, destinations)
    ∧ length locals1 = length destinations
    ∧ length locals2 = length destinations.
Proof.
  intros Ht Hv Hpath Hclean Hbelow.
  unfold code_paths, pattern_paths.
  rewrite (template_entry_found _ _ _ _ _ Ht Hv). simpl.
  destruct (entry (name p)) as [local destination]. simpl in Hbelow.
  destruct (endswith "*" local); [|by eexists _, _, _].
  specialize (Hbelow eq_refl).
  set (matches := filter (λ m, isdir fs m = true) (glob fs (join (path p) local))) in *.
  set (moved := λ root m,
         join (effective_root fs p root) (default "" (relpath (getcwd fs) m (path p)))).
  assert (Hmoved : ∀ root m, m ∈ matches →
            match relpath (getcwd fs) m (path p) with
            | Some rel => Ok (join (effective_root fs p root) rel)
            | None => Raise (ValueError "no path specified")
            end = Ok (moved root m)).
  { intros root m Hm. destruct (Hbelow m Hm) as (rel & Hne & Hrel & ->).
    unfold moved. by rewrite Hpath, relpath_below. }
  rewrite !(map_result_ok _ (moved _)) by (intros; by apply Hmoved). simpl.
  exists (map (moved root1) matches), (map (moved root2) matches),
         (map (λ loc, join destination (stem loc)) (map (moved root1) matches)).
  split_and!; [done | | by rewrite !length_map ..].
  do 2 f_equal. rewrite <- !list_fmap_compose.
  apply list_fmap_ext. intros i m Hm%list_elem_of_lookup_2. simpl.
  destruct (Hbelow m Hm) as (rel & Hne & Hrel & ->).
  unfold moved. rewrite Hpath, relpath_below by done. simpl.
  destruct (last rel) as [c|] eqn:Hlast; [|by destruct rel using rev_ind; [|rewrite last_snoc in Hlast]].
  by rewrite !(stem_join _ rel c).
Qed.

Lemma destinations_ignore_root_witness :
  ∃ locals1 locals2 destinations,
    code_paths sample_TEMPLATE_TO_SRC sample_fs_packages sample_robot None
      = Ok (locals1, destinations)
    ∧ code_paths sample_TEMPLATE_TO_SRC sample_fs_packages sample_robot
        (Some "/mnt/remote/") = Ok (locals2, destinations)
    ∧ length locals1 = length destinations
    ∧ length locals2 = length destinations.
Proof.
  apply (destinations_ignore_root sample_TEMPLATE_TO_SRC sample_fs_packages sample_robot
           None (Some "/mnt/remote/") {["3" := sample_pattern_entry]} sample_pattern_entry
           ["ws"; "robot"] eq_refl eq_refl eq_refl); [repeat constructor|].
  intros _ m Hm.
  change (m ∈ ["/ws/robot/packages/a"; "/ws/robot/packages/my.pkg"]) in Hm.
  rewrite !elem_of_cons, elem_of_nil in Hm. destruct Hm as [->|[->|[]]].
  - exists ["packages"; "a"]. split_and!; [done | repeat constructor | reflexivity].
  - exists ["packages"; "my.pkg"]. split_and!; [done | repeat constructor | reflexivity].
Defined.

(** ** More on recipes *)

(** X15. On a project that needs a recipe, a custom recipe directory
    that is not empty is the recipe directory, whatever the metadata
    hold, so also on a layered project, whose metadata have no recipe
    key; and a recipe version that is not empty stands in for
    [RECIPE_BRANCH], which is then not read.  On a project that needs no
    recipe the recipe directory is [None] whatever was set. *)
Theorem recipe_overrides
    (get_recipe_project_dir : string -> string -> string -> string)
    (p : DTProject) :
  (∀ d, needs_recipe p = true → d ≠ "" →
     recipe_dir get_recipe_project_dir (set_recipe_dir p d) = Ok (Some d))
  ∧ (∀ branch repository location,
     needs_recipe p = true → truthy_opt (_custom_recipe_dir p) = false →
     branch ≠ "" →
     metadata p !! "RECIPE_REPOSITORY" = Some repository →
     metadata p !! "RECIPE_LOCATION" = Some location →
     recipe_dir get_recipe_project_dir (set_recipe_version p branch)
     = Ok (Some (get_recipe_project_dir repository branch location)))
  ∧ (∀ d branch, needs_recipe p = false →
     recipe_dir get_recipe_project_dir (set_recipe_version (set_recipe_dir p d) branch)
     = Ok None).
Proof.
  split_and!.
  - intros d Hneeds Hd. unfold recipe_dir.
    change (needs_recipe (set_recipe_dir p d)) with (needs_recipe p). rewrite Hneeds.
    by destruct d.
  - intros branch repository location Hneeds Hcustom Hb Hrepo Hloc.
    unfold recipe_dir, recipe_arguments, recipe_branch, getitem.
    change (needs_recipe (set_recipe_version p branch)) with (needs_recipe p).
    change (metadata (set_recipe_version p branch)) with (metadata p).
    change (_custom_recipe_dir (set_recipe_version p branch)) with (_custom_recipe_dir p).
    rewrite Hneeds, Hcustom, Hrepo, Hloc. simpl.
    by destruct branch.
  - intros d branch Hneeds. unfold recipe_dir.
    change (needs_recipe (set_recipe_version (set_recipe_dir p d) branch))
      with (needs_recipe p).
    by rewrite Hneeds.
Qed.

Lemma recipe_overrides_witness :
  recipe_dir sample_get_recipe_project_dir
    (set_recipe_dir (sample_v4 "/ws/ex" None "ex" "template-exercise" "3") "/ws/my-recipe")
    = Ok (Some "/ws/my-recipe")
  ∧ recipe_dir sample_get_recipe_project_dir (set_recipe_version sample_exercise "daffy")
    = Ok (Some "/cache/duckietown/recipe/daffy/recipe")
  ∧ recipe_dir sample_get_recipe_project_dir
      (set_recipe_version (set_recipe_dir sample_foo "/ws/my-recipe") "daffy") = Ok None.
Proof.
  split_and!.
  - by apply (recipe_overrides sample_get_recipe_project_dir
                (sample_v4 "/ws/ex" None "ex" "template-exercise" "3")).
  - destruct (recipe_overrides sample_get_recipe_project_dir sample_exercise)
      as (_ & H & _).
    rewrite (H "daffy" "duckietown/recipe" "recipe"); done.
  - by apply (recipe_overrides sample_get_recipe_project_dir sample_foo).
Defined.

(** X16. [ensure_recipe_exists] returns normally only when no recipe is
    needed, and then the world is untouched, or when the recipe
    directory exists in the world it leaves behind; and when the recipe
    directory is already there, nothing is cloned. *)
Theorem ensure_recipe_exists_post
    (get_recipe_project_dir : string -> string -> string -> string)
    (clone_recipe : string -> string -> string -> FS -> bool * FS)
    (fs : FS) (p : DTProject) :
  (∀ fs',
     ensure_recipe_exists get_recipe_project_dir clone_recipe fs p = (Ok tt, fs') →
     (needs_recipe p = false ∧ fs' = fs)
     ∨ (needs_recipe p = true
        ∧ ∃ d, recipe_dir get_recipe_project_dir p = Ok (Some d)
               ∧ path_exists fs' d = true))
  ∧ (∀ d,
     recipe_dir get_recipe_project_dir p = Ok (Some d) → path_exists fs d = true →
     ensure_recipe_exists get_recipe_project_dir clone_recipe fs p = (Ok tt, fs)).
Proof.
  split.
  - intros fs'. unfold ensure_recipe_exists, recipe_dir_exists, recipe_not_found.
    destruct (needs_recipe p) eqn:Hneeds; simpl; [|intros [= <-]; by left].
    destruct (recipe_dir get_recipe_project_dir p) as [[d|]|e] eqn:Hdir; simpl;
      [|done..].
    intros Hrun. right. split; [done|]. exists d. split; [done|].
    destruct (path_exists fs d) eqn:Hbefore; simpl in Hrun.
    + rewrite Hbefore in Hrun. by injection Hrun as <-.
    + destruct (recipe_arguments p) as [[[repository branch] location]|e]; [|done].
      destruct (clone_recipe repository branch location fs) as [cloned fs1].
      destruct cloned; simpl in Hrun; [|done].
      destruct (path_exists fs1 d) eqn:Hafter; [|done]. by injection Hrun as <-.
  - intros d Hdir Hthere. unfold ensure_recipe_exists, recipe_dir_exists.
    destruct (needs_recipe p); [|done]. simpl.
    rewrite Hdir. simpl. rewrite Hthere. simpl. by rewrite Hthere.
Qed.

Lemma ensure_recipe_exists_post_witness :
  ensure_recipe_exists sample_get_recipe_project_dir sample_clone_recipe
    sample_fs_launchers (set_recipe_dir sample_exercise "/ws/exercise/launchers")
  = (Ok tt, sample_fs_launchers).
Proof.
  apply (ensure_recipe_exists_post sample_get_recipe_project_dir sample_clone_recipe
           sample_fs_launchers (set_recipe_dir sample_exercise "/ws/exercise/launchers"))
    with (d := "/ws/exercise/launchers"); reflexivity.
Defined.

(** ** More on launchers *)

Lemma launchers_loop_cons (fs : FS) (root : string) (paths collected : list string) :
  launchers_loop fs (root :: paths) collected =
    found ← launchers_loop fs [root] collected; launchers_loop fs paths found.
Proof.
  simpl. destruct (path_exists fs (join root "launchers")); simpl; [|done].
  destruct (listdir fs (join root "launchers")); [|done].
  by destruct (filter_result _ _).
Qed.

(** X17. On a project of template version 2 or more that needs a
    recipe: when building the recipe project raises, [launchers] raises
    the same; when it returns and the recipe has a [launchers]
    directory, the launchers returned are those of the recipe alone,
    whatever the project's own directory holds. *)
Theorem launchers_of_recipe_alone
    (REQUIRED_METADATA_KEYS : gmap string (list string))
    (REQUIRED_METADATA_PER_TYPE_KEYS : gmap string (gmap string (list string)))
    (load_yaml : FS -> string -> result (gmap string string))
    (LayerSelf_from_yaml_file : FS -> string -> result LayerSelf)
    (LayerTemplate_from_yaml_file : FS -> string -> result LayerTemplate)
    (LayerDistro_from_yaml_file : FS -> string -> result LayerDistro)
    (LayerBase_from_yaml_file : FS -> string -> result LayerBase)
    (make_dataclass : list string -> result unit)
    (run_cmd : list string -> outcome git_error (list string))
    (git_remote_url_to_https : string -> string)
    (get_recipe_project_dir : string -> string -> string -> string)
    (fs : FS) (σ : gmap nat (list string)) (p : DTProject) :
  (2 ≤ default (-1) (py_int (type_version p)))%Z →
  needs_recipe p = true →
  (∀ e, recipe_path REQUIRED_METADATA_KEYS REQUIRED_METADATA_PER_TYPE_KEYS load_yaml
    LayerSelf_from_yaml_file LayerTemplate_from_yaml_file LayerDistro_from_yaml_file
    LayerBase_from_yaml_file make_dataclass run_cmd git_remote_url_to_https
    get_recipe_project_dir fs σ p = Raise e →
     launchers REQUIRED_METADATA_KEYS REQUIRED_METADATA_PER_TYPE_KEYS load_yaml
    LayerSelf_from_yaml_file LayerTemplate_from_yaml_file LayerDistro_from_yaml_file
    LayerBase_from_yaml_file make_dataclass run_cmd git_remote_url_to_https
    get_recipe_project_dir fs σ p = Raise e)
  ∧ (∀ r own,
     recipe_path REQUIRED_METADATA_KEYS REQUIRED_METADATA_PER_TYPE_KEYS load_yaml
    LayerSelf_from_yaml_file LayerTemplate_from_yaml_file LayerDistro_from_yaml_file
    LayerBase_from_yaml_file make_dataclass run_cmd git_remote_url_to_https
    get_recipe_project_dir fs σ p = Ok r →
     path_exists fs (join r "launchers") = true →
     launchers_loop fs [path p] [] = Ok own →
     launchers REQUIRED_METADATA_KEYS REQUIRED_METADATA_PER_TYPE_KEYS load_yaml
    LayerSelf_from_yaml_file LayerTemplate_from_yaml_file LayerDistro_from_yaml_file
    LayerBase_from_yaml_file make_dataclass run_cmd git_remote_url_to_https
    get_recipe_project_dir fs σ p = launchers_loop fs [r] []).
Proof.
  intros Hver Hneeds. unfold launchers.
  rewrite (proj2 (Z.ltb_ge _ _)) by done. rewrite Hneeds. split.
  - by intros e ->.
  - intros r own Hr Hdir Hown. rewrite Hr.
    change (launchers_loop fs [path p; r] [] = launchers_loop fs [r] []).
    rewrite launchers_loop_cons, Hown.
    change (launchers_loop fs [r] own = launchers_loop fs [r] []).
    by apply launchers_loop_overwrites.
Qed.

Lemma launchers_of_recipe_alone_witness :
  launchers sample_REQUIRED_METADATA_KEYS sample_REQUIRED_METADATA_PER_TYPE_KEYS
    sample_load_yaml sample_self_from_yaml sample_template_from_yaml
    sample_distro_from_yaml sample_base_from_yaml sample_make_dataclass
    sample_run_cmd sample_to_https sample_get_recipe_project_dir
    sample_fs_launchers sample_store sample_exercise
  = launchers_loop sample_fs_launchers ["/cache/duckietown/recipe/ente/recipe"] [].
Proof.
  destruct (launchers_of_recipe_alone sample_REQUIRED_METADATA_KEYS sample_REQUIRED_METADATA_PER_TYPE_KEYS
    sample_load_yaml sample_self_from_yaml sample_template_from_yaml
    sample_distro_from_yaml sample_base_from_yaml sample_make_dataclass
    sample_run_cmd sample_to_https sample_get_recipe_project_dir
              sample_fs_launchers sample_store sample_exercise) as [_ H];
    [vm_compute; discriminate | reflexivity |].
  apply (H "/cache/duckietown/recipe/ente/recipe" ["default"; "test"]);
    vm_compute; reflexivity.
Defined.

Lemma filter_result_spec {A} (keep : A -> result bool) (xs : list A) :
  (∀ x, x ∈ xs → ∃ b, keep x = Ok b) →
  ∃ ys, filter_result keep xs = Ok ys ∧ ∀ x, x ∈ ys ↔ x ∈ xs ∧ keep x = Ok true.
Proof.
  induction xs as [|x xs IH]; intros Hall.
  - exists []. split; [done|]. intros x. rewrite elem_of_nil. tauto.
  - destruct (Hall x) as [b Hb]; [by left|].
    destruct IH as (ys & Hys & Hin); [intros x' Hx'; apply Hall; by right|].
    simpl. rewrite Hb, Hys. simpl. eexists. split; [done|].
    intros x'. destruct b.
    + rewrite !elem_of_cons, Hin. split.
      * intros [->|[? ?]]; [by split; [left|] | by split; [right|]].
      * intros [[->|?] ?]; [by left | by right].
    + rewrite elem_of_cons, Hin. split.
      * intros [? ?]. by split; [right|].
      * intros [[->|?] Hk]; [congruence | done].
Qed.

(** X18. On a project of template version 2 or more that needs no
    recipe: with no [launchers] directory there are no launchers; with
    one whose files can all be examined, the launchers are exactly the
    stems of the entries that are files and are executable or start
    with [#!]. *)
Theorem launchers_of_project
    (REQUIRED_METADATA_KEYS : gmap string (list string))
    (REQUIRED_METADATA_PER_TYPE_KEYS : gmap string (gmap string (list string)))
    (load_yaml : FS -> string -> result (gmap string string))
    (LayerSelf_from_yaml_file : FS -> string -> result LayerSelf)
    (LayerTemplate_from_yaml_file : FS -> string -> result LayerTemplate)
    (LayerDistro_from_yaml_file : FS -> string -> result LayerDistro)
    (LayerBase_from_yaml_file : FS -> string -> result LayerBase)
    (make_dataclass : list string -> result unit)
    (run_cmd : list string -> outcome git_error (list string))
    (git_remote_url_to_https : string -> string)
    (get_recipe_project_dir : string -> string -> string -> string)
    (fs : FS) (σ : gmap nat (list string)) (p : DTProject) :
  (2 ≤ default (-1) (py_int (type_version p)))%Z →
  needs_recipe p = false →
  let dir := join (path p) "launchers" in
  (path_exists fs dir = false →
   launchers REQUIRED_METADATA_KEYS REQUIRED_METADATA_PER_TYPE_KEYS load_yaml
    LayerSelf_from_yaml_file LayerTemplate_from_yaml_file LayerDistro_from_yaml_file
    LayerBase_from_yaml_file make_dataclass run_cmd git_remote_url_to_https
    get_recipe_project_dir fs σ p = Ok [])
  ∧ (∀ entries,
     path_exists fs dir = true → listdir fs dir = Some entries →
     (∀ f, f ∈ entries → isfile fs (join dir f) = true →
           access_X_OK fs (join dir f) = false → is_Some (readline fs (join dir f))) →
     ∃ names,
       launchers REQUIRED_METADATA_KEYS REQUIRED_METADATA_PER_TYPE_KEYS load_yaml
    LayerSelf_from_yaml_file LayerTemplate_from_yaml_file LayerDistro_from_yaml_file
    LayerBase_from_yaml_file make_dataclass run_cmd git_remote_url_to_https
    get_recipe_project_dir fs σ p = Ok names
       ∧ ∀ x, x ∈ names ↔ ∃ f, f ∈ entries ∧ is_launcher fs dir f ∧ x = stem (join dir f)).
Proof.
  intros Hver Hneeds dir. unfold launchers.
  rewrite (proj2 (Z.ltb_ge _ _)) by done. rewrite Hneeds.
  change (Ok [path p] ≫= (λ paths, launchers_loop fs paths []))
    with (launchers_loop fs [path p] []).
  unfold launchers_loop. fold dir.
  split.
  - intros ->. reflexivity.
  - intros entries Hdir Hlist Hreadable. rewrite Hdir, Hlist. simpl negb.
    cbv iota.
    set (files := map (join dir) (filter (λ f, isfile fs (join dir f) = true) entries)).
    set (keep := λ f, if access_X_OK fs f then Ok true else _has_shebang fs f).
    destruct (filter_result_spec keep files) as (selected & -> & Hsel).
    { intros file (f & -> & [Hfile Hf]%list_elem_of_filter)%list_elem_of_fmap.
      unfold keep, _has_shebang. destruct (access_X_OK fs (join dir f)) eqn:Hx; [eauto|].
      destruct (Hreadable f Hf Hfile Hx) as [line ->]. eauto. }
    simpl. eexists. split; [done|]. intros x. rewrite list_elem_of_fmap. split.
    + intros (file & -> & [Hin Hkeep]%Hsel).
      apply list_elem_of_fmap in Hin as (f & -> & [Hfile Hf]%list_elem_of_filter).
      exists f. split_and!; [done| |done]. split; [done|].
      unfold keep, _has_shebang in Hkeep.
      destruct (access_X_OK fs (join dir f)); [by left|]. right.
      destruct (readline fs (join dir f)) as [line|]; [|done].
      exists line. split_and!; [done..|]. by injection Hkeep.
    + intros (f & Hf & [Hfile Hexec] & ->). exists (join dir f). split; [done|].
      apply Hsel. split.
      * apply list_elem_of_fmap. exists f. split; [done|]. by apply list_elem_of_filter.
      * unfold keep, _has_shebang.
        destruct Hexec as [->|(line & -> & -> & ->)]; done.
Qed.

Lemma launchers_of_project_witness :
  ∃ names,
    launchers sample_REQUIRED_METADATA_KEYS sample_REQUIRED_METADATA_PER_TYPE_KEYS
    sample_load_yaml sample_self_from_yaml sample_template_from_yaml
    sample_distro_from_yaml sample_base_from_yaml sample_make_dataclass
    sample_run_cmd sample_to_https sample_get_recipe_project_dir
      sample_fs_launchers sample_store
      (sample_legacy "/ws/exercise" None
         (<["TYPE" := "template-basic"]> (<["TYPE_VERSION" := "3"]> ∅))) = Ok names
    ∧ ∀ x, x ∈ names ↔
        ∃ f, f ∈ ["default.sh"; "test.sh"]
             ∧ is_launcher sample_fs_launchers "/ws/exercise/launchers" f
             ∧ x = stem (join "/ws/exercise/launchers" f).
Proof.
  destruct (launchers_of_project sample_REQUIRED_METADATA_KEYS sample_REQUIRED_METADATA_PER_TYPE_KEYS
    sample_load_yaml sample_self_from_yaml sample_template_from_yaml
    sample_distro_from_yaml sample_base_from_yaml sample_make_dataclass
    sample_run_cmd sample_to_https sample_get_recipe_project_dir
              sample_fs_launchers sample_store
              (sample_legacy "/ws/exercise" None
                 (<["TYPE" := "template-basic"]> (<["TYPE_VERSION" := "3"]> ∅))))
    as [_ H]; [vm_compute; discriminate | reflexivity |].
  apply (H ["default.sh"; "test.sh"]); [reflexivity | reflexivity |].
  intros f Hf _ Hx. exfalso.
  rewrite !elem_of_cons, elem_of_nil in Hf. destruct Hf as [->|[->|[]]];
    vm_compute in Hx; discriminate Hx.
Defined.

Lemma filter_result_ext {A} (keep keep' : A -> result bool) (xs : list A) :
  (∀ x, keep x = keep' x) → filter_result keep xs = filter_result keep' xs.
Proof.
  intros Hext. induction xs as [|x xs IH]; [done|]. simpl. by rewrite Hext, IH.
Qed.

Lemma launchers_loop_same (fs fs' : FS) (paths collected : list string) :
  same_but_first_lines_of_executables fs fs' →
  launchers_loop fs' paths collected = launchers_loop fs paths collected.
Proof.
  intros (_ & Hexists & _ & Hfile & Hlist & _ & Hexec & _ & Hdecode & Hline).
  revert collected. induction paths as [|root paths IH]; intros collected; [done|].
  simpl. rewrite Hexists, Hlist.
  destruct (path_exists fs (join root "launchers")); simpl; [|apply IH].
  destruct (listdir fs (join root "launchers")) as [entries|]; [|done].
  rewrite (list_filter_iff (λ f, isfile fs' (join (join root "launchers") f) = true)
             (λ f, isfile fs (join (join root "launchers") f) = true))
    by (intros f; by rewrite Hfile).
  rewrite (filter_result_ext
             (λ f, if access_X_OK fs' f then Ok true else _has_shebang fs' f)
             (λ f, if access_X_OK fs f then Ok true else _has_shebang fs f)).
  - destruct (filter_result _ _); simpl; [apply IH | done].
  - intros f. rewrite Hexec. destruct (access_X_OK fs f) eqn:Hx; [done|].
    unfold _has_shebang, read_error. by rewrite Hline, Hdecode.
Qed.

(** X19. The loop of [launchers] reads the first line only of files
    that are not executable: in two worlds that differ at most in the
    first lines of executable files, and in which the recipe project,
    where one is needed, is built alike, [launchers] gives the same
    launchers, or the same error. *)
Theorem launchers_never_open_executables
    (REQUIRED_METADATA_KEYS : gmap string (list string))
    (REQUIRED_METADATA_PER_TYPE_KEYS : gmap string (gmap string (list string)))
    (load_yaml : FS -> string -> result (gmap string string))
    (LayerSelf_from_yaml_file : FS -> string -> result LayerSelf)
    (LayerTemplate_from_yaml_file : FS -> string -> result LayerTemplate)
    (LayerDistro_from_yaml_file : FS -> string -> result LayerDistro)
    (LayerBase_from_yaml_file : FS -> string -> result LayerBase)
    (make_dataclass : list string -> result unit)
    (run_cmd : list string -> outcome git_error (list string))
    (git_remote_url_to_https : string -> string)
    (get_recipe_project_dir : string -> string -> string -> string)
    (fs fs' : FS) (σ : gmap nat (list string)) (p : DTProject) :
  same_but_first_lines_of_executables fs fs' →
  (needs_recipe p = true →
   recipe_path REQUIRED_METADATA_KEYS REQUIRED_METADATA_PER_TYPE_KEYS load_yaml
    LayerSelf_from_yaml_file LayerTemplate_from_yaml_file LayerDistro_from_yaml_file
    LayerBase_from_yaml_file make_dataclass run_cmd git_remote_url_to_https
    get_recipe_project_dir fs' σ p
   = recipe_path REQUIRED_METADATA_KEYS REQUIRED_METADATA_PER_TYPE_KEYS load_yaml
    LayerSelf_from_yaml_file LayerTemplate_from_yaml_file LayerDistro_from_yaml_file
    LayerBase_from_yaml_file make_dataclass run_cmd git_remote_url_to_https
    get_recipe_project_dir fs σ p) →
  launchers REQUIRED_METADATA_KEYS REQUIRED_METADATA_PER_TYPE_KEYS load_yaml
    LayerSelf_from_yaml_file LayerTemplate_from_yaml_file LayerDistro_from_yaml_file
    LayerBase_from_yaml_file make_dataclass run_cmd git_remote_url_to_https
    get_recipe_project_dir fs' σ p
  = launchers REQUIRED_METADATA_KEYS REQUIRED_METADATA_PER_TYPE_KEYS load_yaml
    LayerSelf_from_yaml_file LayerTemplate_from_yaml_file LayerDistro_from_yaml_file
    LayerBase_from_yaml_file make_dataclass run_cmd git_remote_url_to_https
    get_recipe_project_dir fs σ p.
Proof.
  intros Hsame Hrecipe. unfold launchers.
  destruct (_ <? 2)%Z; [done|].
  destruct (needs_recipe p).
  - rewrite Hrecipe by done.
    destruct (recipe_path _ _ _ _ _ _ _ _ _ _ _ fs σ p) as [r|e]; [|done].
    exact (launchers_loop_same fs fs' [path p; r] [] Hsame).
  - exact (launchers_loop_same fs fs' [path p] [] Hsame).
Qed.

Lemma launchers_never_open_executables_witness :
  launchers sample_REQUIRED_METADATA_KEYS sample_REQUIRED_METADATA_PER_TYPE_KEYS
    sample_load_yaml sample_self_from_yaml sample_template_from_yaml
    sample_distro_from_yaml sample_base_from_yaml sample_make_dataclass
    sample_run_cmd sample_to_https sample_get_recipe_project_dir
    {| getcwd := getcwd sample_fs_launchers;
       path_exists := path_exists sample_fs_launchers;
       isdir := isdir sample_fs_launchers; isfile := isfile sample_fs_launchers;
       listdir := listdir sample_fs_launchers; glob := glob sample_fs_launchers;
       access_X_OK := access_X_OK sample_fs_launchers;
       readline := λ f, if access_X_OK sample_fs_launchers f then Some "#!/bin/bash"
                        else readline sample_fs_launchers f;
       readlines := readlines sample_fs_launchers;
       undecodable := undecodable sample_fs_launchers |}
    sample_store sample_exercise
  = launchers sample_REQUIRED_METADATA_KEYS sample_REQUIRED_METADATA_PER_TYPE_KEYS
    sample_load_yaml sample_self_from_yaml sample_template_from_yaml
    sample_distro_from_yaml sample_base_from_yaml sample_make_dataclass
    sample_run_cmd sample_to_https sample_get_recipe_project_dir
      sample_fs_launchers sample_store sample_exercise.
Proof.
  apply launchers_never_open_executables.
  - split_and!; try done. simpl. by intros f ->.
  - intros _. vm_compute. reflexivity.
Defined.

(** ** The distro of a legacy project *)

Lemma split_head (sep : ascii) (s : string) :
  ∃ h t, split sep s = h :: t
         ∧ all_chars (λ a, negb (Ascii.eqb a sep)) h = true
         ∧ (t = [] → s = h)
         ∧ (t ≠ [] → ∃ rest, s = h +:+ String sep rest).
Proof.
  induction s as [|c s (h & t & Hsplit & Hh & Hnil & Hcons)].
  - exists "", []. split_and!; done.
  - simpl. destruct (Ascii.eqb_spec c sep) as [->|Hne].
    + exists "", (split sep s). split_and!; [done | done | |].
      * intros Hnil'. by apply split_not_nil in Hnil'.
      * intros _. by exists s.
    + rewrite Hsplit. exists (String c h), t. split_and!; [done | | |].
      * simpl. rewrite Hh. by rewrite (proj2 (Ascii.eqb_neq c sep)).
      * intros Ht. by rewrite <- Hnil.
      * intros Ht. destruct (Hcons Ht) as [rest ->]. by exists rest.
Qed.

(** X20. The distro of a legacy project in a working copy is the branch
    name up to its first [-], and so holds no [-]; without a working
    copy it is [latest]. *)
Theorem legacy_distro (p : DTProject) (info : gmap string string) (t tv v : string) :
  _class p = DTProjectV1to3 info t tv v →
  (_repository p = None → distro p = "latest")
  ∧ (∀ r, _repository p = Some r →
     all_chars (λ a, negb (Ascii.eqb a "-")) (distro p) = true
     ∧ (repo_branch r = distro p
        ∨ ∃ rest, repo_branch r = distro p +:+ "-" +:+ rest)).
Proof.
  intros Hclass. unfold distro. rewrite Hclass. split; [by intros ->|].
  intros r ->. destruct (split_head "-" (repo_branch r)) as (h & rest & -> & Hh & Hnil & Hcons).
  simpl. split; [done|]. destruct rest as [|x rest]; [left; by apply Hnil|].
  right. by destruct Hcons as [tail ->]; [|exists tail].
Qed.

Lemma legacy_distro_witness :
  all_chars (λ a, negb (Ascii.eqb a "-")) (distro sample_unnamed_legacy) = true
  ∧ distro sample_exercise = "latest".
Proof.
  destruct (legacy_distro sample_unnamed_legacy _ _ _ _ eq_refl) as [_ H].
  destruct (legacy_distro sample_exercise _ _ _ _ eq_refl) as [H' _].
  split; [by eapply H | by apply H'].
Defined.

(** ** The layered descriptor *)

Lemma required_layer_files_missing (fs : FS) (layers_dir : string)
    (before after : list string) (name : string) (found : gmap string string) :
  (∀ n, n ∈ before → layer_file fs layers_dir n) →
  ¬ layer_file fs layers_dir name →
  required_layer_files fs layers_dir (before ++ name :: after) found
  = Raise (MalformedDTProject
             ("The file '" +:+ join layers_dir (name +:+ ".yaml") +:+ "' is missing.")).
Proof.
  revert found. induction before as [|n before IH]; intros found Hbefore Hname; simpl.
  - unfold layer_file in Hname.
    destruct (path_exists fs _); [|done]. destruct (isfile fs _); [|done].
    by destruct Hname.
  - destruct (Hbefore n) as [-> ->]; [by left|]. simpl.
    apply IH; [|done]. intros n' Hn'. apply Hbefore. by right.
Qed.

Lemma required_layer_files_Ok (fs : FS) (layers_dir : string) (names : list string)
    (found all : gmap string string) :
  required_layer_files fs layers_dir names found = Ok all →
  (∀ n, n ∈ names → layer_file fs layers_dir n)
  ∧ (∀ n, n ∈ names → all !! n = Some (join layers_dir (n +:+ ".yaml")))
  ∧ (∀ n, n ∉ names → all !! n = found !! n).
Proof.
  revert found. induction names as [|name names IH]; intros found; simpl.
  - intros [= <-]. split_and!; [by intros ? ?%elem_of_nil.. | done].
  - destruct (path_exists fs _) eqn:Hex; [|done].
    destruct (isfile fs _) eqn:Hfile; [|done]. simpl.
    intros (Hfiles & Hnames & Hothers)%IH. split_and!.
    + intros n [->|Hn]%elem_of_cons; [done | by apply Hfiles].
    + intros n [->|Hn]%elem_of_cons; [|by apply Hnames].
      destruct (decide (name ∈ names)) as [Hin|Hnin]; [by apply Hnames|].
      by rewrite Hothers, lookup_insert_eq.
    + intros n [Hne Hn]%not_elem_of_cons. by rewrite Hothers, lookup_insert_ne.
Qed.

(** X21. [_load_layers] reports, in this order: a project path that
    does not exist ([OSError]); a missing [dtproject] directory
    ([DTProjectNotFound]); a [dtproject] that is not a directory
    ([MalformedDTProject]); and the first of [self], [template],
    [distro], [base] whose file is missing ([MalformedDTProject] naming
    the file), whatever the YAML files hold, none being read before. *)
Theorem load_layers_errors
    (load_yaml : FS -> string -> result (gmap string string))
    (LayerSelf_from_yaml_file : FS -> string -> result LayerSelf)
    (LayerTemplate_from_yaml_file : FS -> string -> result LayerTemplate)
    (LayerDistro_from_yaml_file : FS -> string -> result LayerDistro)
    (LayerBase_from_yaml_file : FS -> string -> result LayerBase)
    (make_dataclass : list string -> result unit)
    (fs : FS) (path : string) :
  let load := _load_layers load_yaml LayerSelf_from_yaml_file LayerTemplate_from_yaml_file
                LayerDistro_from_yaml_file LayerBase_from_yaml_file make_dataclass fs path in
  let layers_dir := join path "dtproject" in
  (path_exists fs path = false → ∃ msg, load = Raise (OSError msg))
  ∧ (path_exists fs path = true → path_exists fs layers_dir = false →
     ∃ msg, load = Raise (DTProjectNotFound msg))
  ∧ (path_exists fs path = true → path_exists fs layers_dir = true →
     isdir fs layers_dir = false →
     load = Raise (MalformedDTProject
                     ("The path '" +:+ layers_dir +:+ "' must be a directory.")))
  ∧ (∀ before name after,
     path_exists fs path = true → path_exists fs layers_dir = true →
     isdir fs layers_dir = true →
     REQUIRED_LAYERS = before ++ name :: after →
     (∀ n, n ∈ before → layer_file fs layers_dir n) →
     ¬ layer_file fs layers_dir name →
     load = Raise (MalformedDTProject
                     ("The file '" +:+ join layers_dir (name +:+ ".yaml")
                      +:+ "' is missing."))).
Proof.
  intros load layers_dir. subst load. unfold _load_layers. fold layers_dir.
  split_and!.
  - intros ->. simpl. eauto.
  - intros -> ->. simpl. eauto.
  - by intros -> -> ->.
  - intros before name after -> -> -> -> Hbefore Hname. simpl negb. cbv iota.
    by rewrite required_layer_files_missing.
Qed.

Lemma load_layers_errors_witness :
  sample_load_layers
    (sample_fs_layers ["/ws/l/dtproject/self.yaml"; "/ws/l/dtproject/base.yaml"]) "/ws/l"
  = Raise (MalformedDTProject "The file '/ws/l/dtproject/template.yaml' is missing.")
  ∧ ∃ msg, sample_load_layers sample_fs "/ws/l" = Raise (OSError msg).
Proof.
  split.
  - destruct (load_layers_errors sample_load_yaml sample_self_from_yaml
                sample_template_from_yaml sample_distro_from_yaml sample_base_from_yaml
                sample_make_dataclass
                (sample_fs_layers ["/ws/l/dtproject/self.yaml"; "/ws/l/dtproject/base.yaml"])
                "/ws/l") as (_ & _ & _ & H).
    apply (H ["self"] "template" ["distro"; "base"]); try reflexivity.
    + intros n ->%list_elem_of_singleton. split; reflexivity.
    + intros [H' _]. vm_compute in H'. discriminate H'.
  - by apply (load_layers_errors sample_load_yaml sample_self_from_yaml
                sample_template_from_yaml sample_distro_from_yaml sample_base_from_yaml
                sample_make_dataclass sample_fs "/ws/l").
Defined.

Lemma dict_set_keys {V} (k : string) (v : V) (d : list (string * V)) (k' : string) :
  k' ∈ (dict_set k v d).*1 ↔ k' = k ∨ k' ∈ d.*1.
Proof.
  induction d as [|[k0 v0] d IH]; simpl.
  - rewrite list_elem_of_singleton, elem_of_nil. tauto.
  - destruct (String.eqb_spec k0 k) as [->|Hne]; simpl.
    + rewrite !elem_of_cons. tauto.
    + rewrite !elem_of_cons, IH. tauto.
Qed.

Lemma custom_layer_files_keys
    (load_yaml : FS -> string -> result (gmap string string))
    (fs : FS) (fpaths : list string) (seen all : list (string * gmap string string)) :
  custom_layer_files load_yaml fs fpaths seen = Ok all →
  ∀ name, name ∈ all.*1 ↔
    name ∈ seen.*1 ∨ (¬ name ∈ REQUIRED_LAYERS ∧ ∃ f, f ∈ fpaths ∧ name = stem f).
Proof.
  revert seen. induction fpaths as [|f fpaths IH]; intros seen; simpl.
  - intros [= <-] name. split; [by left|]. intros [?|(_ & ? & ?%elem_of_nil & _)]; done.
  - case_bool_decide as Hreq.
    + intros (content & _ & Hrest)%bind_Ok name.
      rewrite (IH _ Hrest), dict_set_keys. split.
      * intros [[->|?]|(? & f' & ? & ?)]; [right|by left|right].
        -- split; [done|]. exists f. split; [by left | done].
        -- split; [done|]. exists f'. split; [by right | done].
      * intros [?|(? & f' & [->|?]%elem_of_cons & ->)];
          [by left; right | by left; left | right].
        split; [done|]. by exists f'.
    + intros Hrest name. rewrite (IH _ Hrest). split.
      * intros [?|(? & f' & ? & ?)]; [by left|right].
        split; [done|]. exists f'. split; [by right | done].
      * intros [?|(Hn & f' & [->|?]%elem_of_cons & ->)]; [by left|done|right].
        split; [done|]. by exists f'.
Qed.

(** X22. When [_load_layers] succeeds, [dtproject] is a directory in
    which each of the four required layers has its file, and the custom
    layers are exactly the stems, other than the four required names, of
    the [*.yaml] files found there. *)
Theorem load_layers_custom
    (load_yaml : FS -> string -> result (gmap string string))
    (LayerSelf_from_yaml_file : FS -> string -> result LayerSelf)
    (LayerTemplate_from_yaml_file : FS -> string -> result LayerTemplate)
    (LayerDistro_from_yaml_file : FS -> string -> result LayerDistro)
    (LayerBase_from_yaml_file : FS -> string -> result LayerBase)
    (make_dataclass : list string -> result unit)
    (fs : FS) (path : string) (layers : Layers) :
  _load_layers load_yaml LayerSelf_from_yaml_file LayerTemplate_from_yaml_file
    LayerDistro_from_yaml_file LayerBase_from_yaml_file make_dataclass fs path
    = Ok layers →
  isdir fs (join path "dtproject") = true
  ∧ (∀ n, n ∈ REQUIRED_LAYERS → layer_file fs (join path "dtproject") n)
  ∧ (∀ name, name ∈ dom (layer_custom layers) ↔
       ¬ name ∈ REQUIRED_LAYERS
       ∧ ∃ f, f ∈ glob fs (join (join path "dtproject") "*.yaml") ∧ name = stem f).
Proof.
  unfold _load_layers.
  destruct (path_exists fs path); [|done].
  destruct (path_exists fs (join path "dtproject")); [|done].
  destruct (isdir fs (join path "dtproject")); [|done].
  cbv beta iota zeta delta [negb].
  intros (required & Hrequired & Hrest)%bind_Ok.
  apply bind_Ok in Hrest as (custom & Hcustom & Hrest).
  apply bind_Ok in Hrest as (_ & _ & Hrest).
  apply bind_Ok in Hrest as (? & _ & (self & _ & Hrest)%bind_Ok).
  apply bind_Ok in Hrest as (? & _ & (template & _ & Hrest)%bind_Ok).
  apply bind_Ok in Hrest as (? & _ & (distro & _ & Hrest)%bind_Ok).
  apply bind_Ok in Hrest as (? & _ & (base & _ & [= <-])%bind_Ok).
  apply required_layer_files_Ok in Hrequired as (Hfiles & _ & _).
  split_and!; [done | exact Hfiles |].
  intros name. cbn [layer_custom].
  rewrite dom_list_to_map_L, elem_of_list_to_set.
  rewrite (custom_layer_files_keys _ _ _ _ _ Hcustom name).
  change (join_many path ["dtproject"; "*.yaml"])
    with (join (join path "dtproject") "*.yaml").
  change (([] : list (string * gmap string string)).*1) with ([] : list string).
  rewrite elem_of_nil. tauto.
Qed.

Lemma load_layers_custom_witness :
  ∃ layers,
    sample_load_layers (sample_fs_layers sample_layer_files) "/ws/l" = Ok layers
    ∧ ∀ name, name ∈ dom (layer_custom layers) ↔
        ¬ name ∈ REQUIRED_LAYERS
        ∧ ∃ f, f ∈ sample_layer_files ∧ name = stem f.
Proof.
  destruct (sample_load_layers (sample_fs_layers sample_layer_files) "/ws/l")
    as [layers|e] eqn:Hload; [|vm_compute in Hload; discriminate Hload].
  exists layers. split; [done|].
  apply (load_layers_custom sample_load_yaml sample_self_from_yaml
           sample_template_from_yaml sample_distro_from_yaml sample_base_from_yaml
           sample_make_dataclass (sample_fs_layers sample_layer_files) "/ws/l" layers Hload).
Defined.

(** ** Repository information *)

Lemma outcome_bind_Done {E A B} (m : outcome E A) (f : A -> outcome E B) (b : B) :
  m ≫= f = Done b → ∃ a, m = Done a ∧ f a = Done b.
Proof. destruct m as [a|e]; [eauto | done]. Qed.

Lemma take_str_app (a b : string) : take_str (String.length a) (a +:+ b) = a.
Proof.
  induction a as [|c a IH]; [by destruct b|]. rewrite app_cons. simpl. by rewrite IH.
Qed.

Lemma drop_last_app (a p : string) : drop_last (String.length p) (a +:+ p) = a.
Proof.
  unfold drop_last. rewrite str_app_length.
  replace (String.length a + String.length p - String.length p)%nat
    with (String.length a) by lia.
  apply take_str_app.
Qed.

Lemma trim_origin_git (prefix n : string) :
  n ≠ "" → all_chars (λ a, negb (Ascii.eqb a "/")) n = true →
  trim_origin (prefix +:+ "/" +:+ n +:+ ".git") = prefix +:+ "/" +:+ n
  ∧ last (split "/" (prefix +:+ "/" +:+ n)) = Some n.
Proof.
  intros Hne Hn. split.
  - unfold trim_origin.
    replace (prefix +:+ "/" +:+ n +:+ ".git") with ((prefix +:+ "/" +:+ n) +:+ ".git")
      by (by rewrite !str_app_assoc).
    rewrite endswith_app_r.
    change 4%nat with (String.length ".git"). rewrite drop_last_app.
    by rewrite not_endswith_sep.
  - change (prefix +:+ "/" +:+ n) with (prefix +:+ String "/" n).
    by rewrite split_app_sep, (split_no_sep "/" n), last_snoc.
Qed.

(** X23. The repository name read from the working copy never holds a
    [/]; from an origin URL of the form [prefix/name.git] it is [name],
    and the URL is recorded without the suffix; without [origin] remote
    (exit code 1) there is no name, the URL reads [ND] and there is no
    https page. *)
Theorem repo_info_repository_name
    (run_cmd : list string -> outcome git_error (list string))
    (git_remote_url_to_https : string -> string)
    (path : string) (info : RepoInfo) :
  _get_repo_info run_cmd git_remote_url_to_https path = Done info →
  (∀ n, REPOSITORY info = Some n → all_chars (λ a, negb (Ascii.eqb a "/")) n = true)
  ∧ (∀ url rest prefix n,
     run_cmd (git_C path ["config"; "--get"; "remote.origin.url"]) = Done (url :: rest) →
     url = prefix +:+ "/" +:+ n +:+ ".git" →
     n ≠ "" → all_chars (λ a, negb (Ascii.eqb a "/")) n = true →
     REPOSITORY info = Some n ∧ ORIGIN_URL info = prefix +:+ "/" +:+ n
     ∧ ORIGIN_HTTPS_URL info = Some (git_remote_url_to_https (prefix +:+ "/" +:+ n)))
  ∧ (run_cmd (git_C path ["config"; "--get"; "remote.origin.url"])
       = Failed (CalledProcessError 1) →
     REPOSITORY info = None ∧ ORIGIN_URL info = "ND" ∧ ORIGIN_HTTPS_URL info = None).
Proof.
  unfold _get_repo_info.
  intros (sha & _ & Hrest)%outcome_bind_Done.
  apply outcome_bind_Done in Hrest as (branch & _ & Hrest).
  apply outcome_bind_Done in Hrest as (head_tag & _ & Hrest).
  apply outcome_bind_Done in Hrest as (closest_tag & _ & Hrest).
  apply outcome_bind_Done in Hrest as ([origin_url repo] & Horigin & Hrest).
  apply outcome_bind_Done in Hrest as (modified & _ & Hrest).
  apply outcome_bind_Done in Hrest as (added & _ & [= <-]).
  cbn [REPOSITORY ORIGIN_URL ORIGIN_HTTPS_URL].
  destruct (run_cmd (git_C path ["config"; "--get"; "remote.origin.url"]))
    as [out|[code|]] eqn:Hcmd.
  - destruct out as [|url rest]; [done|].
    change (first_line (url :: rest) ≫= λ origin_url,
              Done (Some (trim_origin origin_url),
                    Some (default "" (last (split "/" (trim_origin origin_url))))))
      with (Done (E := git_error)
              (Some (trim_origin url),
               Some (default "" (last (split "/" (trim_origin url)))))) in Horigin.
    injection Horigin as <- <-. split_and!.
    + intros n [= <-]. pose proof (split_pieces "/" (trim_origin url)) as Hpieces.
      destruct (last (split "/" (trim_origin url))) as [x|] eqn:Hlast; [|done].
      apply last_Some_elem_of in Hlast. rewrite Forall_forall in Hpieces.
      by apply Hpieces.
    + intros url' rest' prefix n [= <- <-] -> Hne Hn.
      destruct (trim_origin_git prefix n Hne Hn) as [-> Hlast].
      rewrite Hlast. cbn [default truthy_opt].
      assert (truthy (prefix +:+ "/" +:+ n) = true) as ->; [|done].
      destruct prefix; [done | by rewrite app_cons].
    + done.
  - split_and!.
    + intros n Hn. destruct (decide (code = 1%Z)) as [->|Hcode].
      * injection Horigin as <- <-. done.
      * by destruct code as [|[]|].
    + done.
    + intros [= ->]. by injection Horigin as <- <-.
  - done.
Qed.

Lemma repo_info_repository_name_witness :
  ∃ info,
    _get_repo_info sample_run_cmd sample_to_https "/ws/p" = Done info
    ∧ REPOSITORY info = Some "dt-core"
    ∧ ORIGIN_URL info = "https://github.com/duckietown/dt-core".
Proof.
  destruct (_get_repo_info sample_run_cmd sample_to_https "/ws/p") as [info|e] eqn:Hinfo;
    [|vm_compute in Hinfo; discriminate Hinfo].
  exists info. split; [done|].
  destruct (repo_info_repository_name sample_run_cmd sample_to_https "/ws/p" info Hinfo)
    as (_ & H & _).
  destruct (H "https://github.com/duckietown/dt-core.git" [] "https://github.com/duckietown"
              "dt-core") as (H1 & H2 & _); [vm_compute; reflexivity | reflexivity | done..].
Defined.

Lemma repo_info_fields
    (run_cmd : list string -> outcome git_error (list string))
    (git_remote_url_to_https : string -> string) (path : string) (info : RepoInfo) :
  _get_repo_info run_cmd git_remote_url_to_https path = Done info →
  (∀ out, run_cmd (git_C path ["status"; "--porcelain"] ++ ["--untracked-files=no"])
            = Done out → INDEX_NUM_MODIFIED info = length out)
  ∧ (∀ out, run_cmd (git_C path ["status"; "--porcelain"]) = Done out →
       INDEX_NUM_ADDED info = length (filter (λ f, endswith ".resolved" f = false) out)
       ∧ INDEX_NUM_ADDED info ≤ length out)
  ∧ (∀ out, run_cmd (git_C path ["tag"]) = Done out →
       VERSION_CLOSEST info = default "ND" (last out))
  ∧ (run_cmd (git_C path ["describe"; "--exact-match"; "--tags"; "HEAD";
                          "2>/dev/null"; "||"; ":"]) = Done [] →
     VERSION_HEAD info = "ND")
  ∧ (run_cmd (git_C path ["rev-parse"; "HEAD"]) = Failed (CalledProcessError 128) →
     SHA info = "ND"
     ∧ ∀ code, run_cmd (git_C path ["describe"; "--exact-match"; "--tags"; "HEAD";
                                    "2>/dev/null"; "||"; ":"])
               = Failed (CalledProcessError code) →
               VERSION_HEAD info = "ND").
Proof.
  unfold _get_repo_info.
  intros (sha & Hsha & Hrest)%outcome_bind_Done.
  apply outcome_bind_Done in Hrest as (branch & _ & Hrest).
  apply outcome_bind_Done in Hrest as (head_tag & Hhead & Hrest).
  apply outcome_bind_Done in Hrest as (closest_tag & Hclosest & Hrest).
  apply outcome_bind_Done in Hrest as ([origin_url repo] & _ & Hrest).
  apply outcome_bind_Done in Hrest as (modified & Hmodified & Hrest).
  apply outcome_bind_Done in Hrest as (added & Hadded & [= <-]).
  cbn [INDEX_NUM_MODIFIED INDEX_NUM_ADDED VERSION_CLOSEST VERSION_HEAD SHA].
  split_and!.
  - intros out Hout. congruence.
  - intros out Hout. assert (added = out) as -> by congruence.
    split; [done | apply length_filter].
  - intros out Hout. congruence.
  - intros Hd. rewrite Hd in Hhead. by injection Hhead as <-.
  - intros Hrev. rewrite Hrev in Hsha. injection Hsha as <-. split; [done|].
    intros code Hd. rewrite Hd in Hhead. by injection Hhead as <-.
Qed.

(** X24. On the repository information read from a working copy: the
    counts of modified and of added files are the numbers of lines of
    the two status listings, lines ending in [.resolved] not being
    counted as added; the closest tag is the last tag listed, [ND] when
    none is; without any commit (exit code 128) the SHA is [ND] and a
    failing tag lookup gives the head tag [ND]; with a commit, a
    failing tag lookup is raised; and a branch query that prints
    nothing raises [IndexError]. *)
Theorem repo_info_edges
    (run_cmd : list string -> outcome git_error (list string))
    (git_remote_url_to_https : string -> string) (path : string) :
  let describe := git_C path ["describe"; "--exact-match"; "--tags"; "HEAD";
                              "2>/dev/null"; "||"; ":"] in
  (∀ info, _get_repo_info run_cmd git_remote_url_to_https path = Done info →
     (∀ out, run_cmd (git_C path ["status"; "--porcelain"] ++ ["--untracked-files=no"])
               = Done out → INDEX_NUM_MODIFIED info = length out)
     ∧ (∀ out, run_cmd (git_C path ["status"; "--porcelain"]) = Done out →
          INDEX_NUM_ADDED info = length (filter (λ f, endswith ".resolved" f = false) out)
          ∧ INDEX_NUM_ADDED info ≤ length out)
     ∧ (∀ out, run_cmd (git_C path ["tag"]) = Done out →
          VERSION_CLOSEST info = default "ND" (last out))
     ∧ (run_cmd describe = Done [] → VERSION_HEAD info = "ND")
     ∧ (run_cmd (git_C path ["rev-parse"; "HEAD"]) = Failed (CalledProcessError 128) →
        SHA info = "ND"
        ∧ ∀ code, run_cmd describe = Failed (CalledProcessError code) →
                  VERSION_HEAD info = "ND"))
  ∧ (∀ sha rest branch rest' code,
     run_cmd (git_C path ["rev-parse"; "HEAD"]) = Done (sha :: rest) → sha ≠ "ND" →
     run_cmd (git_C path ["branch"; "--show-current"]) = Done (branch :: rest') →
     run_cmd describe = Failed (CalledProcessError code) →
     _get_repo_info run_cmd git_remote_url_to_https path
     = Failed (CalledProcessError code))
  ∧ (∀ sha rest,
     run_cmd (git_C path ["rev-parse"; "HEAD"]) = Done (sha :: rest) →
     run_cmd (git_C path ["branch"; "--show-current"]) = Done [] →
     _get_repo_info run_cmd git_remote_url_to_https path = Failed IndexError).
Proof.
  intros describe. split_and!.
  - intros info Hinfo. by apply (repo_info_fields run_cmd git_remote_url_to_https).
  - intros sha rest branch rest' code Hrev Hne Hbranch Hd.
    unfold _get_repo_info. fold describe. rewrite Hrev, Hbranch, Hd.
    cbn [first_line mbind outcome_bind].
    by rewrite (proj2 (String.eqb_neq sha "ND")).
  - intros sha rest Hrev Hbranch. unfold _get_repo_info. by rewrite Hrev, Hbranch.
Qed.

Lemma repo_info_edges_witness :
  ∃ info,
    _get_repo_info sample_run_cmd_fresh sample_to_https "/ws/p" = Done info
    ∧ SHA info = "ND" ∧ VERSION_HEAD info = "ND" ∧ VERSION_CLOSEST info = "ND"
    ∧ INDEX_NUM_ADDED info = 1%nat.
Proof.
  destruct (_get_repo_info sample_run_cmd_fresh sample_to_https "/ws/p")
    as [info|e] eqn:Hinfo; [|vm_compute in Hinfo; discriminate Hinfo].
  exists info. split; [done|].
  destruct (repo_info_edges sample_run_cmd_fresh sample_to_https "/ws/p") as (H & _ & _).
  destruct (H info Hinfo) as (_ & Hadded & Htag & _ & Hfresh).
  destruct Hfresh as [Hsha Hhead]; [vm_compute; reflexivity|].
  split_and!; [exact Hsha | | |].
  - apply (Hhead 128%Z). vm_compute. reflexivity.
  - rewrite (Htag []); [reflexivity | vm_compute; reflexivity].
  - destruct (Hadded ["?? README.md"]) as [-> _]; [vm_compute; reflexivity | reflexivity].
Defined.

(** X25. A project whose repository was read from a working copy is
    clean exactly when the listing of modified files is empty and every
    line of the full listing ends in [.resolved]; it is detached
    exactly when the branch reads [HEAD]; and with no tag at the head it
    is not in a release state. *)
Theorem repository_state
    (run_cmd : list string -> outcome git_error (list string))
    (git_remote_url_to_https : string -> string)
    (path : string) (info : RepoInfo) (p : DTProject) (modified added : list string) :
  _get_repo_info run_cmd git_remote_url_to_https path = Done info →
  _repository p = Some (repository_of info) →
  run_cmd (git_C path ["status"; "--porcelain"] ++ ["--untracked-files=no"])
    = Done modified →
  run_cmd (git_C path ["status"; "--porcelain"]) = Done added →
  (is_clean p = true ↔ modified = [] ∧ ∀ f, f ∈ added → endswith ".resolved" f = true)
  ∧ (is_detached p = true ↔ BRANCH info = "HEAD")
  ∧ (run_cmd (git_C path ["describe"; "--exact-match"; "--tags"; "HEAD";
                          "2>/dev/null"; "||"; ":"]) = Done [] →
     is_release p = false).
Proof.
  intros Hinfo Hrepo Hmodified Hadded.
  destruct (repo_info_fields run_cmd git_remote_url_to_https path info Hinfo)
    as (Hm & Ha & _ & Hhead & _).
  specialize (Hm modified Hmodified). destruct (Ha added Hadded) as [Hcount _].
  split_and!.
  - unfold is_clean. rewrite Hrepo. cbn [repository_of repo_index_nmodified repo_index_nadded].
    rewrite Hm, Hcount, Nat.eqb_eq. split.
    + intros Hzero. split; [destruct modified; [done | simpl in Hzero; lia]|].
      intros f Hf. destruct (endswith ".resolved" f) eqn:Hres; [done|].
      assert (f ∈ filter (λ f, endswith ".resolved" f = false) added) as Hin
        by (by apply list_elem_of_filter).
      destruct (filter _ added); [by apply elem_of_nil in Hin | simpl in Hzero; lia].
    + intros [-> Hall]. simpl.
      destruct (filter (λ f, endswith ".resolved" f = false) added) as [|f rest] eqn:Hf;
        [done|].
      assert (f ∈ filter (λ f, endswith ".resolved" f = false) added) as Hin
        by (rewrite Hf; by left).
      apply list_elem_of_filter in Hin as [Hres Hin]. rewrite (Hall f Hin) in Hres. done.
  - unfold is_detached. rewrite Hrepo. cbn [repository_of repo_detached].
    apply String.eqb_eq.
  - intros Hd. unfold is_release, head_version. rewrite Hrepo.
    cbn [repository_of repo_head_version]. rewrite (Hhead Hd).
    by destruct (is_clean p).
Qed.

Lemma repository_state_witness :
  ∃ info,
    _get_repo_info sample_run_cmd sample_to_https "/ws/p" = Done info
    ∧ is_clean (sample_v4 "/ws/p" (Some (repository_of info)) "p" "template-basic" "4")
      = true.
Proof.
  destruct (_get_repo_info sample_run_cmd sample_to_https "/ws/p") as [info|e] eqn:Hinfo;
    [|vm_compute in Hinfo; discriminate Hinfo].
  exists info. split; [done|].
  destruct (repository_state sample_run_cmd sample_to_https "/ws/p" info
              (sample_v4 "/ws/p" (Some (repository_of info)) "p" "template-basic" "4")
              [] ["?? notes.resolved"] Hinfo eq_refl) as (H & _);
    [vm_compute; reflexivity | vm_compute; reflexivity |].
  apply H. split; [done|]. by intros f ->%list_elem_of_singleton.
Defined.

(** ** Construction *)

Lemma classify_Done (recognises : bool) (attributes : result Descriptor) (adapters : nat)
    (state state' : option Descriptor * gmap nat (list string)) :
  classify recognises attributes adapters state = Done state' →
  (recognises = false ∧ state' = state)
  ∨ (recognises = true
     ∧ ∃ cls, attributes = Ok cls
       ∧ state' = (Some cls, alter (λ items, items ++ ["dtproject"]) adapters state.2)).
Proof.
  unfold classify. destruct recognises; [|intros [= <-]; by left].
  destruct attributes as [cls|e]; [|done]. intros [= <-]. right. eauto.
Qed.

Lemma legacy_attributes
    (REQUIRED_METADATA_KEYS : gmap string (list string))
    (REQUIRED_METADATA_PER_TYPE_KEYS : gmap string (gmap string (list string)))
    (fs : FS) (path : string) (cls : Descriptor) :
  DTProjectV1to3_attributes REQUIRED_METADATA_KEYS REQUIRED_METADATA_PER_TYPE_KEYS fs path
    = Ok cls →
  ∃ info t tv v, cls = DTProjectV1to3 info t tv v.
Proof.
  unfold DTProjectV1to3_attributes.
  intros (info & _ & (t & _ & (tv & _ & (v & _ & [= <-])%bind_Ok)%bind_Ok)%bind_Ok)%bind_Ok.
  eauto.
Qed.

Lemma layered_attributes
    (load_yaml : FS -> string -> result (gmap string string))
    (LayerSelf_from_yaml_file : FS -> string -> result LayerSelf)
    (LayerTemplate_from_yaml_file : FS -> string -> result LayerTemplate)
    (LayerDistro_from_yaml_file : FS -> string -> result LayerDistro)
    (LayerBase_from_yaml_file : FS -> string -> result LayerBase)
    (make_dataclass : list string -> result unit)
    (fs : FS) (path : string) (cls : Descriptor) :
  DTProjectV4_attributes load_yaml LayerSelf_from_yaml_file LayerTemplate_from_yaml_file
    LayerDistro_from_yaml_file LayerBase_from_yaml_file make_dataclass fs path = Ok cls →
  ∃ layers, cls = DTProjectV4 layers.
Proof.
  unfold DTProjectV4_attributes. intros (layers & _ & [= <-])%bind_Ok. eauto.
Qed.

Lemma legacy_attributes_Raise
    (REQUIRED_METADATA_KEYS : gmap string (list string))
    (REQUIRED_METADATA_PER_TYPE_KEYS : gmap string (gmap string (list string)))
    (fs : FS) (path : string) (e : exn) :
  is_instance_of_V1to3 REQUIRED_METADATA_KEYS REQUIRED_METADATA_PER_TYPE_KEYS fs path
    = true →
  DTProjectV1to3_attributes REQUIRED_METADATA_KEYS REQUIRED_METADATA_PER_TYPE_KEYS fs path
    = Raise e →
  e = KeyError "VERSION"
  ∧ ∃ info,
      _get_project_info REQUIRED_METADATA_KEYS REQUIRED_METADATA_PER_TYPE_KEYS fs path
        = Ok info
      ∧ info !! "VERSION" = None.
Proof.
  unfold is_instance_of_V1to3, DTProjectV1to3_attributes, getitem.
  destruct (_get_project_info _ _ fs path) as [info|e0] eqn:Hinfo; [|done].
  intros _. cbn [mbind result_bind]. pose proof Hinfo as Hvalid.
  apply get_project_info_Ok in Hvalid as (_ & _ & lines & md & _ & _ & _ & Hvalid).
  apply validate_metadata_Ok in Hvalid
    as (-> & tv & agnostic & specific & t & Htv & _ & _ & _ & Ht & _).
  rewrite !lookup_insert_ne, Ht, Htv by done. cbn [mbind result_bind].
  destruct (md !! "VERSION") as [v|] eqn:Hv; [done|].
  intros [= <-]. split; [done|]. eexists. split; [done|].
  by rewrite lookup_insert_ne.
Qed.

Lemma layered_attributes_Raise
    (load_yaml : FS -> string -> result (gmap string string))
    (LayerSelf_from_yaml_file : FS -> string -> result LayerSelf)
    (LayerTemplate_from_yaml_file : FS -> string -> result LayerTemplate)
    (LayerDistro_from_yaml_file : FS -> string -> result LayerDistro)
    (LayerBase_from_yaml_file : FS -> string -> result LayerBase)
    (make_dataclass : list string -> result unit)
    (fs : FS) (path : string) (e : exn) :
  is_instance_of_V4 load_yaml LayerSelf_from_yaml_file LayerTemplate_from_yaml_file
    LayerDistro_from_yaml_file LayerBase_from_yaml_file make_dataclass fs path = true →
  DTProjectV4_attributes load_yaml LayerSelf_from_yaml_file LayerTemplate_from_yaml_file
    LayerDistro_from_yaml_file LayerBase_from_yaml_file make_dataclass fs path = Raise e →
  False.
Proof.
  unfold is_instance_of_V4, DTProjectV4_attributes.
  by destruct (_load_layers _ _ _ _ _ _ fs path).
Qed.

Lemma classify_Failed
    (REQUIRED_METADATA_KEYS : gmap string (list string))
    (REQUIRED_METADATA_PER_TYPE_KEYS : gmap string (gmap string (list string)))
    (load_yaml : FS -> string -> result (gmap string string))
    (LayerSelf_from_yaml_file : FS -> string -> result LayerSelf)
    (LayerTemplate_from_yaml_file : FS -> string -> result LayerTemplate)
    (LayerDistro_from_yaml_file : FS -> string -> result LayerDistro)
    (LayerBase_from_yaml_file : FS -> string -> result LayerBase)
    (make_dataclass : list string -> result unit)
    {A}     (fs : FS) (path : string) (adapters : nat)
    (σ : gmap nat (list string))
    (k : option Descriptor * gmap nat (list string) -> outcome init_error A)
    (e : init_error) :
  (∀ state, k state ≠ Failed e) →
  classify
    (is_instance_of_V1to3 REQUIRED_METADATA_KEYS REQUIRED_METADATA_PER_TYPE_KEYS fs path)
    (DTProjectV1to3_attributes REQUIRED_METADATA_KEYS REQUIRED_METADATA_PER_TYPE_KEYS
       fs path) adapters (None, σ) ≫= (λ state,
  classify
    (is_instance_of_V4 load_yaml LayerSelf_from_yaml_file LayerTemplate_from_yaml_file
       LayerDistro_from_yaml_file LayerBase_from_yaml_file make_dataclass fs path)
    (DTProjectV4_attributes load_yaml LayerSelf_from_yaml_file
       LayerTemplate_from_yaml_file LayerDistro_from_yaml_file LayerBase_from_yaml_file
       make_dataclass fs path) adapters state ≫= k)
  = Failed e →
  e = DescriptorError (KeyError "VERSION")
  ∧ ∃ info,
      _get_project_info REQUIRED_METADATA_KEYS REQUIRED_METADATA_PER_TYPE_KEYS fs path
        = Ok info
      ∧ info !! "VERSION" = None.
Proof.
  intros Hk.
  assert (Hlayered : ∀ state,
            classify
              (is_instance_of_V4 load_yaml LayerSelf_from_yaml_file
                 LayerTemplate_from_yaml_file LayerDistro_from_yaml_file
                 LayerBase_from_yaml_file make_dataclass fs path)
              (DTProjectV4_attributes load_yaml LayerSelf_from_yaml_file
                 LayerTemplate_from_yaml_file LayerDistro_from_yaml_file
                 LayerBase_from_yaml_file make_dataclass fs path) adapters state
              ≫= k ≠ Failed e).
  { intros state. unfold classify.
    destruct (is_instance_of_V4 _ _ _ _ _ _ fs path) eqn:Hrec; [|apply Hk].
    destruct (DTProjectV4_attributes _ _ _ _ _ _ fs path) as [cls|e'] eqn:Hattr;
      [apply Hk|].
    by apply layered_attributes_Raise in Hattr. }
  unfold classify at 1.
  destruct (is_instance_of_V1to3 _ _ fs path) eqn:Hrec.
  - destruct (DTProjectV1to3_attributes _ _ fs path) as [cls|e'] eqn:Hattr.
    + intros Hinit. by apply Hlayered in Hinit.
    + intros [= <-]. by apply legacy_attributes_Raise in Hattr as [-> ?].
  - intros Hinit. by apply Hlayered in Hinit.
Qed.

(** X26. When [DTProject(path)] returns, the instance has the absolute
    path, a new adapters list that holds [fs], then [git] when [.git] is
    a directory of the project, then [dtproject] once for each subclass
    that recognises the path; every other list is untouched; the
    repository is set exactly when [.git] is a directory; and the
    instance is layered whenever the layered subclass recognises the
    path, legacy when only the legacy one does, and of no subclass when
    neither does. *)
Theorem init_result
    (REQUIRED_METADATA_KEYS : gmap string (list string))
    (REQUIRED_METADATA_PER_TYPE_KEYS : gmap string (gmap string (list string)))
    (load_yaml : FS -> string -> result (gmap string string))
    (LayerSelf_from_yaml_file : FS -> string -> result LayerSelf)
    (LayerTemplate_from_yaml_file : FS -> string -> result LayerTemplate)
    (LayerDistro_from_yaml_file : FS -> string -> result LayerDistro)
    (LayerBase_from_yaml_file : FS -> string -> result LayerBase)
    (make_dataclass : list string -> result unit)
    (run_cmd : list string -> outcome git_error (list string))
    (git_remote_url_to_https : string -> string)
    (fs : FS) (σ σ' : gmap nat (list string)) (path : string)
    (i : Instance) :
  DTProject_init REQUIRED_METADATA_KEYS REQUIRED_METADATA_PER_TYPE_KEYS load_yaml
    LayerSelf_from_yaml_file LayerTemplate_from_yaml_file LayerDistro_from_yaml_file
    LayerBase_from_yaml_file make_dataclass run_cmd git_remote_url_to_https fs σ path
    = Done (i, σ') →
  let legacy :=
    is_instance_of_V1to3 REQUIRED_METADATA_KEYS REQUIRED_METADATA_PER_TYPE_KEYS fs path in
  let layered :=
    is_instance_of_V4 load_yaml LayerSelf_from_yaml_file LayerTemplate_from_yaml_file
      LayerDistro_from_yaml_file LayerBase_from_yaml_file make_dataclass fs path in
  let git := isdir fs (join (abspath (getcwd fs) path) ".git") in
  instance_path i = abspath (getcwd fs) path
  ∧ σ !! instance_adapters i = None
  ∧ σ' !! instance_adapters i
    = Some (["fs"] ++ (if git then ["git"] else [])
            ++ (if legacy then ["dtproject"] else [])
            ++ (if layered then ["dtproject"] else []))
  ∧ (∀ l, l ≠ instance_adapters i → σ' !! l = σ !! l)
  ∧ (is_Some (instance_repository i) ↔ git = true)
  ∧ match i with
    | Classified p =>
        _custom_recipe_dir p = None ∧ _recipe_version p = None
        ∧ match _class p with
          | DTProjectV4 _ => layered = true
          | DTProjectV1to3 _ _ _ _ => legacy = true ∧ layered = false
          end
    | Unclassified _ _ _ => legacy = false ∧ layered = false
    end.
Proof.
  intros Hinit legacy layered git. unfold DTProject_init in Hinit.
  fold legacy layered git in Hinit.
  assert (Hfresh : σ !! fresh (dom σ) = None) by apply not_elem_of_dom, is_fresh.
  apply outcome_bind_Done in Hinit as ([repository σ1] & Hgit & Hinit).
  apply outcome_bind_Done in Hinit as ([cls1 σ2] & Hlegacy & Hinit).
  apply outcome_bind_Done in Hinit as ([cls2 σ3] & Hlayered & [= <- <-]).
  assert (Hσ1 : σ1 !! fresh (dom σ) = Some (["fs"] ++ (if git then ["git"] else []))
                ∧ (∀ l, l ≠ fresh (dom σ) → σ1 !! l = σ !! l)
                ∧ (is_Some repository ↔ git = true)).
  { destruct git.
    - destruct (_get_repo_info run_cmd git_remote_url_to_https _) as [repo_info|e];
        [|done].
      injection Hgit as <- <-. split_and!.
      + rewrite lookup_alter_eq. by rewrite lookup_insert_eq.
      + intros l Hl. rewrite lookup_alter_ne by done. by apply lookup_insert_ne.
      + split; [done | eauto].
    - injection Hgit as <- <-. split_and!.
      + by rewrite lookup_insert_eq.
      + intros l Hl. by apply lookup_insert_ne.
      + split; [by intros [? [=]] | done]. }
  destruct Hσ1 as (Hlist1 & Hother1 & Hrepo).
  apply classify_Done in Hlegacy as [[Hleg [= -> ->]]|[Hleg (c1 & Hc1 & [= -> ->])]];
    apply classify_Done in Hlayered as [[Hlay [= -> ->]]|[Hlay (c2 & Hc2 & [= -> ->])]];
    rewrite Hleg, Hlay; cbn [fst snd].
  - simpl. split_and!; try done. by rewrite Hlist1, app_nil_r.
  - apply layered_attributes in Hc2 as [layers ->]. simpl. split_and!; try done.
    + by rewrite lookup_alter_eq, Hlist1.
    + intros l Hl. rewrite lookup_alter_ne by done. by apply Hother1.
  - apply legacy_attributes in Hc1 as (info & t & tv & v & ->). simpl.
    split_and!; try done.
    + by rewrite lookup_alter_eq, Hlist1.
    + intros l Hl. rewrite lookup_alter_ne by done. by apply Hother1.
  - apply layered_attributes in Hc2 as [layers ->]. simpl. split_and!; try done.
    + rewrite !lookup_alter_eq, Hlist1. simpl. by rewrite <- !app_assoc.
    + intros l Hl. rewrite !lookup_alter_ne by done. by apply Hother1.
Qed.

(** X27. [DTProject(path)] raises only what the version-control client
    raises, when [.git] is a directory of the project, or the key error
    of a legacy descriptor that passes validation without [VERSION]. A
    path without [.git] that no subclass recognises, a missing path for
    one, raises nothing: the result is an instance of no subclass with
    the adapters [fs]. *)
Theorem init_failures
    (REQUIRED_METADATA_KEYS : gmap string (list string))
    (REQUIRED_METADATA_PER_TYPE_KEYS : gmap string (gmap string (list string)))
    (load_yaml : FS -> string -> result (gmap string string))
    (LayerSelf_from_yaml_file : FS -> string -> result LayerSelf)
    (LayerTemplate_from_yaml_file : FS -> string -> result LayerTemplate)
    (LayerDistro_from_yaml_file : FS -> string -> result LayerDistro)
    (LayerBase_from_yaml_file : FS -> string -> result LayerBase)
    (make_dataclass : list string -> result unit)
    (run_cmd : list string -> outcome git_error (list string))
    (git_remote_url_to_https : string -> string)
    (fs : FS) (σ : gmap nat (list string)) (path : string) :
  let init :=
    DTProject_init REQUIRED_METADATA_KEYS REQUIRED_METADATA_PER_TYPE_KEYS load_yaml
      LayerSelf_from_yaml_file LayerTemplate_from_yaml_file LayerDistro_from_yaml_file
      LayerBase_from_yaml_file make_dataclass run_cmd git_remote_url_to_https fs σ path in
  let legacy :=
    is_instance_of_V1to3 REQUIRED_METADATA_KEYS REQUIRED_METADATA_PER_TYPE_KEYS fs path in
  let layered :=
    is_instance_of_V4 load_yaml LayerSelf_from_yaml_file LayerTemplate_from_yaml_file
      LayerDistro_from_yaml_file LayerBase_from_yaml_file make_dataclass fs path in
  let git := isdir fs (join (abspath (getcwd fs) path) ".git") in
  (∀ e, init = Failed e →
     (∃ e', e = GitError e' ∧ git = true
        ∧ _get_repo_info run_cmd git_remote_url_to_https (abspath (getcwd fs) path)
          = Failed e')
     ∨ (e = DescriptorError (KeyError "VERSION")
        ∧ ∃ info,
            _get_project_info REQUIRED_METADATA_KEYS REQUIRED_METADATA_PER_TYPE_KEYS fs path
              = Ok info
            ∧ info !! "VERSION" = None))
  ∧ (git = false → legacy = false → layered = false →
     init = Done (Unclassified (fresh (dom σ)) None (abspath (getcwd fs) path),
                  <[fresh (dom σ) := ["fs"]]> σ)).
Proof.
  intros init legacy layered git. subst init. unfold DTProject_init.
  fold legacy layered git. split.
  - intros e Hinit. destruct git.
    + destruct (_get_repo_info run_cmd git_remote_url_to_https _) as [repo_info|e'].
      * right. eapply classify_Failed, Hinit. by intros [cls σ2].
      * injection Hinit as <-. left. eauto.
    + right. eapply classify_Failed, Hinit. by intros [cls σ2].
  - intros -> -> ->. reflexivity.
Qed.

Lemma init_result_witness :
  ∃ i σ',
    DTProject_init sample_REQUIRED_METADATA_KEYS sample_REQUIRED_METADATA_PER_TYPE_KEYS
      sample_load_yaml sample_self_from_yaml sample_template_from_yaml
      sample_distro_from_yaml sample_base_from_yaml sample_make_dataclass
      sample_run_cmd sample_to_https sample_fs_checkout sample_store "/ws/l" = Done (i, σ')
    ∧ instance_path i = "/ws/l"
    ∧ σ' !! instance_adapters i = Some ["fs"; "git"; "dtproject"]
    ∧ is_Some (instance_repository i).
Proof.
  destruct (DTProject_init sample_REQUIRED_METADATA_KEYS
              sample_REQUIRED_METADATA_PER_TYPE_KEYS
              sample_load_yaml sample_self_from_yaml sample_template_from_yaml
              sample_distro_from_yaml sample_base_from_yaml sample_make_dataclass
              sample_run_cmd sample_to_https sample_fs_checkout sample_store "/ws/l")
    as [[i σ']|e] eqn:Hinit; [|vm_compute in Hinit; discriminate Hinit].
  exists i, σ'.
  destruct (init_result sample_REQUIRED_METADATA_KEYS
              sample_REQUIRED_METADATA_PER_TYPE_KEYS
              sample_load_yaml sample_self_from_yaml sample_template_from_yaml
              sample_distro_from_yaml sample_base_from_yaml sample_make_dataclass
              sample_run_cmd sample_to_https sample_fs_checkout sample_store σ' "/ws/l" i
              Hinit) as (Hpath & _ & Hlist & _ & Hrepo & _).
  split_and!; [done | | | ].
  - etrans; [exact Hpath | vm_compute; reflexivity].
  - etrans; [exact Hlist | vm_compute; reflexivity].
  - apply Hrepo. vm_compute. reflexivity.
Defined.

Lemma init_failures_witness :
  DTProject_init (<["*" := ["TYPE_VERSION"]]> (<["3" := ["TYPE"]]> ∅))
    sample_REQUIRED_METADATA_PER_TYPE_KEYS
    sample_load_yaml sample_self_from_yaml sample_template_from_yaml
    sample_distro_from_yaml sample_base_from_yaml sample_make_dataclass
    sample_run_cmd sample_to_https
    (sample_fs_descriptor ["TYPE_VERSION=3"; "TYPE=template-basic"]) sample_store "/ws/p"
  = Failed (DescriptorError (KeyError "VERSION"))
  ∧ DTProject_init sample_REQUIRED_METADATA_KEYS sample_REQUIRED_METADATA_PER_TYPE_KEYS
      sample_load_yaml sample_self_from_yaml sample_template_from_yaml
      sample_distro_from_yaml sample_base_from_yaml sample_make_dataclass
      sample_run_cmd sample_to_https sample_fs sample_store "nowhere"
    = Done (Unclassified 1 None "/home/duckie/nowhere", <[1%nat := ["fs"]]> sample_store).
Proof.
  split.
  - destruct (DTProject_init (<["*" := ["TYPE_VERSION"]]> (<["3" := ["TYPE"]]> ∅))
                sample_REQUIRED_METADATA_PER_TYPE_KEYS
                sample_load_yaml sample_self_from_yaml sample_template_from_yaml
                sample_distro_from_yaml sample_base_from_yaml sample_make_dataclass
                sample_run_cmd sample_to_https
                (sample_fs_descriptor ["TYPE_VERSION=3"; "TYPE=template-basic"])
                sample_store "/ws/p") as [r|e] eqn:Hinit;
      [vm_compute in Hinit; discriminate Hinit|].
    destruct (init_failures (<["*" := ["TYPE_VERSION"]]> (<["3" := ["TYPE"]]> ∅))
                sample_REQUIRED_METADATA_PER_TYPE_KEYS
                sample_load_yaml sample_self_from_yaml sample_template_from_yaml
                sample_distro_from_yaml sample_base_from_yaml sample_make_dataclass
                sample_run_cmd sample_to_https
                (sample_fs_descriptor ["TYPE_VERSION=3"; "TYPE=template-basic"])
                sample_store "/ws/p") as [H _].
    destruct (H e Hinit) as [(e' & _ & Hgit & _)|[-> _]]; [|done].
    vm_compute in Hgit. discriminate Hgit.
  - destruct (init_failures sample_REQUIRED_METADATA_KEYS
                sample_REQUIRED_METADATA_PER_TYPE_KEYS
                sample_load_yaml sample_self_from_yaml sample_template_from_yaml
                sample_distro_from_yaml sample_base_from_yaml sample_make_dataclass
                sample_run_cmd sample_to_https sample_fs sample_store "nowhere")
      as [_ H].
    etrans; [apply H; vm_compute; reflexivity|]. vm_compute. reflexivity.
Defined.

(** ** One configuration *)

(** X28. [configuration] returns a configuration only on a project of
    template version ["2"] whose [configurations.yaml] is a file, and
    then the one that the parse of that file holds under the name; a
    name the parse does not hold raises [KeyError].  On every other
    template version no name has a configuration. *)
Theorem configuration_of_name (Configuration : Type)
    (parse_configurations : FS -> string -> result (gmap string Configuration))
    (fs : FS) (p : DTProject) (name : string) :
  (∀ c, configuration Configuration parse_configurations fs p name = Ok c →
     type_version p = "2"
     ∧ isfile fs (join (_path p) "configurations.yaml") = true
     ∧ ∃ parsed,
         parse_configurations fs (join (_path p) "configurations.yaml") = Ok parsed
         ∧ parsed !! name = Some c)
  ∧ (∀ parsed,
     type_version p = "2" →
     isfile fs (join (_path p) "configurations.yaml") = true →
     parse_configurations fs (join (_path p) "configurations.yaml") = Ok parsed →
     configuration Configuration parse_configurations fs p name
     = match parsed !! name with
       | Some c => Ok c
       | None => Raise (KeyError ("Configuration with name '" +:+ name +:+ "' not found."))
       end).
Proof.
  split.
  - intros c. unfold configuration.
    intros (cs & Hcs & Hc)%bind_Ok.
    destruct (cs !! name) as [c'|] eqn:Hname; [|done]. injection Hc as ->.
    unfold configurations in Hcs.
    destruct (py_int (type_version p)) as [v|]; [|done].
    destruct (v <? 2)%Z; [done|].
    destruct (String.eqb_spec (type_version p) "2") as [Hv|Hv];
      [|injection Hcs as <-; by rewrite lookup_empty in Hname].
    destruct (isfile fs (join (_path p) "configurations.yaml")) eqn:Hfile;
      [|injection Hcs as <-; by rewrite lookup_empty in Hname].
    eauto.
  - intros parsed Hv Hfile Hparse. unfold configuration, configurations.
    rewrite Hv. change (py_int "2") with (Some 2%Z). cbn [Z.ltb Z.compare Pos.compare].
    change ("2" =? "2")%string with true. cbn match.
    by rewrite Hfile, Hparse.
Qed.

Lemma configuration_of_name_witness :
  configuration string sample_parse_configurations sample_fs_configurations
    (sample_foo_version "2") "default" = Ok "/home/duckie/foo/configurations.yaml"
  ∧ configuration string sample_parse_configurations sample_fs_configurations
      (sample_foo_version "2") "other"
    = Raise (KeyError "Configuration with name 'other' not found.").
Proof.
  destruct (configuration_of_name string sample_parse_configurations
              sample_fs_configurations (sample_foo_version "2") "default") as [_ H].
  destruct (configuration_of_name string sample_parse_configurations
              sample_fs_configurations (sample_foo_version "2") "other") as [_ H'].
  split.
  - etrans; [by apply (H {["default" := "/home/duckie/foo/configurations.yaml"]})|].
    reflexivity.
  - etrans; [by apply (H' {["default" := "/home/duckie/foo/configurations.yaml"]})|].
    reflexivity.
Defined.
